(** * FeitCSI: the netlink command engine and the nl80211 controller

    A shallow embedding of [src/src/Netlink.cpp], [src/src/WiFIController.cpp],
    [src/include/WiFIController.h] and the state-restoration path of
    [src/src/MainController.cpp], followed by the properties the
    specification states about them.

    Conventions.  C integers are [Z] with the wrap-around of their width
    written out ([u32], [s32], [u64]); [char] values are [ascii], C strings
    and [std::string] are [string]; [std::optional] is [option]; the
    [std::unordered_map] of interfaces is a [gmap], iterated in an order
    the surroundings give; C arrays indexed in place are lists with stdpp's
    lookup and insert. *)

From Stdlib Require Import ZArith Lia Bool List Ascii String DecimalString.
From stdpp Require Import base option list strings gmap fin_maps.

Local Open Scope string_scope.
Local Open Scope Z_scope.

(** ** Machine integers *)

Module CInt.

Definition u32 (z : Z) : Z := z mod 2 ^ 32.
Definition u64 (z : Z) : Z := z mod 2 ^ 64.
Definition u16 (z : Z) : Z := z mod 2 ^ 16.
Definition u8 (z : Z) : Z := z mod 2 ^ 8.

(** Conversion of a 32-bit pattern to [int] (two's complement). *)
Definition s32 (z : Z) : Z :=
  let r := z mod 2 ^ 32 in if r <? 2 ^ 31 then r else r - 2 ^ 32.

Definition INT_MIN : Z := - 2 ^ 31.
Definition INT_MAX : Z := 2 ^ 31 - 1.

End CInt.
Import CInt.

(** ** Characters and C strings *)

Module CString.

Definition code (c : ascii) : Z := Z.of_N (N_of_ascii c).
Definition chr (z : Z) : ascii := ascii_of_N (Z.to_N z).

(** [tolower] of the C locale. *)
Definition tolower (c : ascii) : ascii :=
  if (65 <=? code c) && (code c <=? 90) then chr (code c + 32) else c.

(** What a C callee sees of a buffer: the characters before the first NUL. *)
Fixpoint c_str (s : string) : string :=
  match s with
  | EmptyString => EmptyString
  | String c r => if code c =? 0 then EmptyString else String c (c_str r)
  end.

Fixpoint lower (s : string) : string :=
  match s with
  | EmptyString => EmptyString
  | String c r => String (tolower c) (lower r)
  end.

(** The character a C string holds at its head; NUL at its end. *)
Definition head_char (s : string) : Z :=
  match s with
  | EmptyString => 0
  | String c _ => code (tolower c)
  end.

(** [strcasecmp]: compares the lowered characters one by one and stops at
    the first difference or at the terminating NUL. *)
Fixpoint strcasecmp (s1 s2 : string) : Z :=
  match s1 with
  | EmptyString => 0 - head_char s2
  | String c1 r1 =>
      if code c1 =? 0 then 0 - head_char s2
      else
        match s2 with
        | EmptyString => code (tolower c1)
        | String c2 r2 =>
            if code (tolower c1) =? code (tolower c2)
            then strcasecmp r1 r2
            else code (tolower c1) - code (tolower c2)
        end
  end.

End CString.
Import CString.

(** ** Constants of [linux/nl80211.h], [errno.h] and libnl *)

Module nl80211.

Definition NL80211_CHAN_WIDTH_20_NOHT : Z := 0.
Definition NL80211_CHAN_WIDTH_20 : Z := 1.
Definition NL80211_CHAN_WIDTH_40 : Z := 2.
Definition NL80211_CHAN_WIDTH_80 : Z := 3.
Definition NL80211_CHAN_WIDTH_80P80 : Z := 4.
Definition NL80211_CHAN_WIDTH_160 : Z := 5.
Definition NL80211_CHAN_WIDTH_5 : Z := 6.
Definition NL80211_CHAN_WIDTH_10 : Z := 7.
Definition NL80211_CHAN_WIDTH_1 : Z := 8.
Definition NL80211_CHAN_WIDTH_2 : Z := 9.
Definition NL80211_CHAN_WIDTH_4 : Z := 10.
Definition NL80211_CHAN_WIDTH_8 : Z := 11.
Definition NL80211_CHAN_WIDTH_16 : Z := 12.
Definition NL80211_CHAN_WIDTH_320 : Z := 13.

Definition NL80211_CHAN_NO_HT : Z := 0.
Definition NL80211_CHAN_HT20 : Z := 1.
Definition NL80211_CHAN_HT40MINUS : Z := 2.
Definition NL80211_CHAN_HT40PLUS : Z := 3.

Definition NL80211_TX_POWER_AUTOMATIC : Z := 0.
Definition NL80211_TX_POWER_LIMITED : Z := 1.
Definition NL80211_TX_POWER_FIXED : Z := 2.

Definition NL80211_IFTYPE_UNSPECIFIED : Z := 0.
Definition NL80211_IFTYPE_AP : Z := 3.
Definition NL80211_IFTYPE_MONITOR : Z := 6.

Definition NL80211_CMD_GET_WIPHY : Z := 1.
Definition NL80211_CMD_SET_WIPHY : Z := 2.
Definition NL80211_CMD_GET_INTERFACE : Z := 5.
Definition NL80211_CMD_NEW_INTERFACE : Z := 7.
Definition NL80211_CMD_DEL_INTERFACE : Z := 8.
Definition NL80211_CMD_ABORT_SCAN : Z := 114.

(** The attributes the controller reads or writes, by name. *)
Inductive nl80211_attr : Type :=
  | NL80211_ATTR_WIPHY
  | NL80211_ATTR_IFINDEX
  | NL80211_ATTR_IFNAME
  | NL80211_ATTR_IFTYPE
  | NL80211_ATTR_MAC
  | NL80211_ATTR_WIPHY_FREQ
  | NL80211_ATTR_WIPHY_FREQ_OFFSET
  | NL80211_ATTR_WIPHY_CHANNEL_TYPE
  | NL80211_ATTR_CHANNEL_WIDTH
  | NL80211_ATTR_CENTER_FREQ1
  | NL80211_ATTR_CENTER_FREQ1_OFFSET
  | NL80211_ATTR_WIPHY_TX_POWER_SETTING
  | NL80211_ATTR_WIPHY_TX_POWER_LEVEL
  | NL80211_ATTR_WDEV.

Definition ETH_ALEN : nat := 6.

Definition ENOENT : Z := 2.
Definition ENOMEM : Z := 12.
Definition ENOLINK : Z := 67.
Definition EPROTO : Z := 71.
Definition ENOBUFS : Z := 105.
Definition ENOTCONN : Z := 107.

(** [net/if.h] and [netlink/errno.h]. *)
Definition IFF_UP : Z := 1.
Definition NLE_NOMEM : Z := 5.

Definition NLM_F_DUMP : Z := 768.
Definition NLM_F_CAPPED : Z := 256.
Definition NLM_F_ACK_TLVS : Z := 512.

Definition NL_OK : Z := 0.
Definition NL_SKIP : Z := 1.
Definition NL_STOP : Z := 2.

End nl80211.
Import nl80211.

(** ** The channel and frequency resolver of [WiFIController.cpp] *)

Module Resolver.

(** [struct ChanMode]; [name] is a [const char*], [None] is the null pointer
    of the value-initialised structure. *)
Record ChanMode : Type := mkChanMode {
  name : option string;
  width : Z;
  freq1_diff : Z;
  chantype : Z
}.

Definition chanMode : list ChanMode :=
  [ mkChanMode (Some "20") NL80211_CHAN_WIDTH_20 0 NL80211_CHAN_HT20;
    mkChanMode (Some "40") NL80211_CHAN_WIDTH_40 10 NL80211_CHAN_HT40PLUS;
    mkChanMode (Some "HT40-") NL80211_CHAN_WIDTH_40 (-10) NL80211_CHAN_HT40MINUS;
    mkChanMode (Some "NOHT") NL80211_CHAN_WIDTH_20_NOHT 0 NL80211_CHAN_NO_HT;
    mkChanMode (Some "5MHz") NL80211_CHAN_WIDTH_5 0 (-1);
    mkChanMode (Some "10MHz") NL80211_CHAN_WIDTH_10 0 (-1);
    mkChanMode (Some "80") NL80211_CHAN_WIDTH_80 0 (-1);
    mkChanMode (Some "160") NL80211_CHAN_WIDTH_160 0 (-1);
    mkChanMode (Some "320MHz") NL80211_CHAN_WIDTH_320 0 (-1);
    mkChanMode (Some "1MHz") NL80211_CHAN_WIDTH_1 0 (-1);
    mkChanMode (Some "2MHz") NL80211_CHAN_WIDTH_2 0 (-1);
    mkChanMode (Some "4MHz") NL80211_CHAN_WIDTH_4 0 (-1);
    mkChanMode (Some "8MHz") NL80211_CHAN_WIDTH_8 0 (-1);
    mkChanMode (Some "16MHz") NL80211_CHAN_WIDTH_16 0 (-1) ].

(** [struct ChanMode selectedChanMode = {}]. *)
Definition zeroChanMode : ChanMode := mkChanMode None 0 0 0.

Definition name_of (m : ChanMode) : string :=
  match name m with Some s => s | None => EmptyString end.

(** The [for] loop of [getChanMode]: the first entry whose name compares
    equal is copied and the loop left. *)
Fixpoint getChanMode_loop (tbl : list ChanMode) (w : string)
    (selectedChanMode : ChanMode) : ChanMode :=
  match tbl with
  | [] => selectedChanMode
  | e :: rest =>
      if strcasecmp (name_of e) w =? 0 then e
      else getChanMode_loop rest w selectedChanMode
  end.

Definition getChanMode (w : string) : ChanMode :=
  getChanMode_loop chanMode w zeroChanMode.

Definition bw80 : list Z :=
  [5180; 5260; 5500; 5580; 5660; 5745; 5955; 6035; 6115; 6195;
   6275; 6355; 6435; 6515; 6595; 6675; 6755; 6835; 6195; 6995].
Definition bw160 : list Z :=
  [5180; 5500; 5955; 6115; 6275; 6435; 6595; 6755; 6915].
Definition bw320 : list Z := [5955; 6115; 6275; 6435; 6595; 6755].

(** [for (j = 0; j < ARRAY_SIZE(bw); j++) if (freq >= bw[j] && freq < bw[j] + span) break;]
    the value of [j] after the loop, counted from [j]. *)
Fixpoint seg_loop (bw : list Z) (span freq : Z) (j : nat) : nat :=
  match bw with
  | [] => j
  | s :: rest =>
      if (s <=? freq) && (freq <? u32 (s + span)) then j
      else seg_loop rest span freq (S j)
  end.

(** One [case] of the switch of [getCf1] for a table-driven width. *)
Definition cf1_case (bw : list Z) (span off : Z) (freq cf1 : Z) : Z :=
  let j := seg_loop bw span freq 0%nat in
  if (j =? length bw)%nat then cf1
  else u32 (nth j bw 0 + off).

(** [getCf1]: [freq] is an [unsigned long], [cf1] an [unsigned int], the
    result an [int]. *)
Definition getCf1 (chanmode : ChanMode) (freq : Z) : Z :=
  let cf1 := u32 freq in
  let w := width chanmode in
  s32
    (if w =? NL80211_CHAN_WIDTH_80 then cf1_case bw80 80 30 freq cf1
     else if w =? NL80211_CHAN_WIDTH_160 then cf1_case bw160 160 70 freq cf1
     else if w =? NL80211_CHAN_WIDTH_320 then cf1_case bw320 160 150 freq cf1
     else u32 (u64 (freq + u64 (freq1_diff chanmode)))).

(** [frequencyToChannel]; [/] on [int] truncates towards zero. *)
Definition frequencyToChannel (freq : Z) : Z :=
  if freq <? 1000 then 0
  else if freq =? 2484 then 14
  else if freq =? 5935 then 2
  else if freq <? 2484 then (freq - 2407) ÷ 5
  else if (4910 <=? freq) && (freq <=? 4980) then (freq - 4000) ÷ 5
  else if freq <? 5950 then (freq - 5000) ÷ 5
  else if freq <=? 45000 then (freq - 5950) ÷ 5
  else if (58320 <=? freq) && (freq <=? 70200) then (freq - 56160) ÷ 2160
  else 0.

(** [chanModeToWidth]. *)
Definition chanModeToWidth (m : ChanMode) : Z :=
  let w := width m in
  if w =? NL80211_CHAN_WIDTH_20 then 20
  else if w =? NL80211_CHAN_WIDTH_40 then 40
  else if w =? NL80211_CHAN_WIDTH_80 then 80
  else if w =? NL80211_CHAN_WIDTH_160 then 160
  else if w =? NL80211_CHAN_WIDTH_320 then 320
  else 0.

End Resolver.

(** ** MAC address text and bytes ([mac_n2a], [mac_a2n]) *)

Module Mac.

(** One digit of [%x]. *)
Definition hex_digit (n : Z) : ascii :=
  if n <? 10 then chr (48 + n) else chr (87 + n).

(** [sprintf(buf, "%02x", b)] for an [unsigned char]. *)
Definition sprintf_02x (b : Z) : string :=
  String (hex_digit (u8 b / 16)) (String (hex_digit (u8 b mod 16)) EmptyString).

(** The loop of [mac_n2a] from index [i] on; [mac_addr] is the text written
    so far (its length is the offset [l] of the source). *)
Fixpoint mac_n2a_loop (n : nat) (i : nat) (arg : list Z) (mac_addr : string)
    : string :=
  match n with
  | O => mac_addr
  | S n' =>
      let b := nth i arg 0 in
      let piece :=
        if (i =? 0)%nat then sprintf_02x b else String ":" (sprintf_02x b) in
      mac_n2a_loop n' (S i) arg (mac_addr +:+ piece)
  end.

Definition mac_n2a (arg : list Z) : string :=
  mac_n2a_loop ETH_ALEN 0 arg EmptyString.

(** The [hexval] lambda of [mac_a2n]. *)
Definition hexval (c : ascii) : Z :=
  let k := code c in
  if (48 <=? k) && (k <=? 57) then k - 48
  else if (97 <=? k) && (k <=? 102) then 10 + (k - 97)
  else if (65 <=? k) && (k <=? 70) then 10 + (k - 65)
  else -1.

Definition is_separator (c : ascii) : bool :=
  let k := code c in
  (k =? 58) || (k =? 45) || (k =? 32) || (k =? 9).

(** The range-[for] of [mac_a2n] with its state: the pending high nibble
    [hi], the number [idx] of bytes written and the output array [out]. *)
Fixpoint mac_a2n_loop (mac : string) (hi : Z) (idx : nat) (out : list Z)
    : bool * list Z :=
  match mac with
  | EmptyString => ((hi =? -1) && (idx =? ETH_ALEN)%nat, out)
  | String c rest =>
      if is_separator c then mac_a2n_loop rest hi idx out
      else
        let v := hexval c in
        if v <? 0 then (false, out)
        else if hi <? 0 then mac_a2n_loop rest v idx out
        else if (ETH_ALEN <=? idx)%nat then (false, out)
        else mac_a2n_loop rest (-1) (S idx)
               (<[idx := u8 (Z.lor (Z.shiftl hi 4) v)]> out)
  end.

(** [mac_a2n mac out]: the verdict and the contents of [out] afterwards. *)
Definition mac_a2n (mac : string) (out : list Z) : bool * list Z :=
  mac_a2n_loop mac (-1) 0 out.

End Mac.

(** ** Data of [Netlink.h] and [WiFIController.h], and the kernel's side *)

Module Data.

Inductive commandIdentifiedBy : Type := CIB_NONE | CIB_PHY | CIB_NETDEV | CIB_WDEV.

(** [struct nl80211_state]: a socket is its handle, [None] the null pointer. *)
Record nl80211_state : Type := mk_nl80211_state {
  gnl_socket : option Z;
  rnl_socket : option Z;
  nl80211_id : Z
}.

(** *** Outgoing messages *)

Inductive nla_payload : Type :=
  | NLA_U32 (v : Z)
  | NLA_S32 (v : Z)
  | NLA_U64 (v : Z)
  | NLA_STRING (s : string)
  | NLA_DATA (bytes : list Z).

(** A message under construction: the generic-netlink header fields, the
    size of the buffer, the bytes used and the attributes appended. *)
Record nl_msg : Type := mk_nl_msg {
  nm_family : Z;
  nm_flags : Z;
  nm_cmd : Z;
  nm_size : Z;
  nm_len : Z;
  nm_attrs : list (nl80211_attr * nla_payload)
}.

Definition NLMSG_HDRLEN : Z := 16.
Definition GENL_HDRLEN : Z := 4.
Definition NLA_HDRLEN : Z := 4.
Definition NLA_ALIGN (z : Z) : Z := (z + 3) / 4 * 4.

Definition payload_len (p : nla_payload) : Z :=
  match p with
  | NLA_U32 _ | NLA_S32 _ => 4
  | NLA_U64 _ => 8
  | NLA_STRING s => Z.of_nat (String.length (c_str s)) + 1
  | NLA_DATA b => Z.of_nat (length b)
  end.

Definition nlmsg_alloc (size : Z) : nl_msg :=
  mk_nl_msg 0 0 0 size NLMSG_HDRLEN [].

(** [genlmsg_put]: the family and the flags go into the 16-bit fields
    [nlmsg_type] and [nlmsg_flags] of the header, the command into the 8-bit
    field [cmd] of the generic header. *)
Definition genlmsg_put (msg : nl_msg) (family flags cmd : Z) : nl_msg :=
  mk_nl_msg (u16 family) (u16 flags) (u8 cmd) (nm_size msg)
    (NLMSG_HDRLEN + GENL_HDRLEN) (nm_attrs msg).

(** [nla_put]: fails ([None], the [nla_put_failure] label of the [NLA_PUT]
    macros) when the attribute does not fit the buffer. *)
Definition nla_put (msg : nl_msg) (attr : nl80211_attr) (p : nla_payload)
    : option nl_msg :=
  let tlen := NLA_ALIGN (nm_len msg) + NLA_ALIGN (NLA_HDRLEN + payload_len p) in
  if nm_size msg <? tlen then None
  else Some (mk_nl_msg (nm_family msg) (nm_flags msg) (nm_cmd msg)
               (nm_size msg) tlen (nm_attrs msg ++ [(attr, p)])).

(** *** Incoming messages *)

(** What [nla_parse] finds in a message: the payload of each attribute the
    controller looks at, [None] when the attribute is absent.  The power
    level is the raw 32-bit payload.  The address attribute is read through
    [nla_data] without a look at its length, so the table also tells which
    bytes the receive buffer holds behind that payload, by offset. *)
Record attr_table : Type := mk_attr_table {
  tb_IFNAME : option string;
  tb_IFTYPE : option Z;
  tb_IFINDEX : option Z;
  tb_WIPHY : option Z;
  tb_WDEV : option Z;
  tb_MAC : option (list Z);
  tb_WIPHY_FREQ : option Z;
  tb_WIPHY_TX_POWER_LEVEL : option Z;
  tb_behind_MAC : nat -> Z
}.

Definition empty_table : attr_table :=
  mk_attr_table None None None None None None None None (fun _ => 0).

(** The bytes a reader of [ETH_ALEN] bytes finds at [nla_data] of an
    attribute: the payload, then what lies behind it. *)
Definition nla_data (payload : list Z) (behind : nat -> Z) : list Z :=
  (payload ++ map behind (seq 0 ETH_ALEN))%list.

(** [struct nlmsgerr] with the header before it and the extended-ack
    attributes behind the echoed request. *)
Record nlmsgerr : Type := mk_nlmsgerr {
  error : Z;
  nlmsg_flags : Z;
  nlmsg_len : Z;
  msg_nlmsg_len : Z;
  NLMSGERR_ATTR_MSG : option string;
  NLMSGERR_ATTR_OFFS : option Z
}.

(** The kinds of message libnl tells apart.  [NLMSG_ERROR] with error 0 is
    an acknowledgement.  [NLMSG_REJECTED rc] stands for a message libnl
    itself refuses after the raw callback (overrun, truncation, sequence
    mismatch): the batch ends with [rc]. *)
Inductive nlmsg_type : Type :=
  | NLMSG_NOOP
  | NLMSG_ERROR (e : nlmsgerr)
  | NLMSG_DONE
  | NLMSG_REJECTED (rc : Z)
  | NLMSG_VALID.

(** A received message: its kind, whether its header carries
    [NLM_F_DUMP_INTR], and what [nla_parse] returns and finds when a
    handler reads its payload as generic-netlink attributes. *)
Record in_msg : Type := mk_in_msg {
  m_type : nlmsg_type;
  m_dump_intr : bool;
  m_parse_rc : Z;
  m_attrs : attr_table
}.

(** What one call of [nl_recvmsgs] reads: the messages in order, and the
    library's result when no callback ends the batch early. *)
Record Batch : Type := mk_Batch {
  b_msgs : list in_msg;
  b_rc : Z
}.

(** The surroundings of one [nlExecCommand]: whether the three allocations
    succeed, the size of the message buffer, the result of [nl_send_auto]
    and the batches the kernel answers with. *)
Record Exchange : Type := mk_Exchange {
  x_msg_alloc : bool;
  x_cb_alloc : bool;
  x_s_cb_alloc : bool;
  x_nm_size : Z;
  x_send : Z;
  x_batches : list Batch
}.

(** *** Interface records *)

(** [struct InterfaceInfo]; the members [build] never writes are [None]. *)
Record InterfaceInfo : Type := mk_InterfaceInfo {
  ifName : string;
  ifType : Z;
  ifIndex : Z;
  wiphy : Z;
  wdev : Z;
  mac : string;
  ssid : string;
  freq : Z;
  channel : option Z;
  channelWidth : option Z;
  centerFreq1 : option Z;
  centerFreq2 : option Z;
  channelType : option Z;
  txdBm : Z
}.

(** [class InterfaceInfoBuilder]: its private optional members. *)
Record InterfaceInfoBuilder : Type := mk_InterfaceInfoBuilder {
  _interfaceName : option string;
  _interfaceType : option Z;
  _interfaceIndex : option Z;
  _phyIndex : option Z;
  _wdevIndex : option Z;
  _macAddress : option string;
  _frequency : option Z;
  _tx_dbm : option Z
}.

Definition new_builder : InterfaceInfoBuilder :=
  mk_InterfaceInfoBuilder None None None None None None None None.

Definition set_interfaceName (v : string) (b : InterfaceInfoBuilder) :=
  mk_InterfaceInfoBuilder (Some v) (_interfaceType b) (_interfaceIndex b)
    (_phyIndex b) (_wdevIndex b) (_macAddress b) (_frequency b) (_tx_dbm b).
Definition set_interfaceType (v : Z) (b : InterfaceInfoBuilder) :=
  mk_InterfaceInfoBuilder (_interfaceName b) (Some v) (_interfaceIndex b)
    (_phyIndex b) (_wdevIndex b) (_macAddress b) (_frequency b) (_tx_dbm b).
Definition set_interfaceIndex (v : Z) (b : InterfaceInfoBuilder) :=
  mk_InterfaceInfoBuilder (_interfaceName b) (_interfaceType b) (Some (u32 v))
    (_phyIndex b) (_wdevIndex b) (_macAddress b) (_frequency b) (_tx_dbm b).
Definition set_phyIndex (v : Z) (b : InterfaceInfoBuilder) :=
  mk_InterfaceInfoBuilder (_interfaceName b) (_interfaceType b)
    (_interfaceIndex b) (Some (u32 v)) (_wdevIndex b) (_macAddress b)
    (_frequency b) (_tx_dbm b).
(** The setter takes a [uint32_t]: a 64-bit identifier is cut to 32 bits. *)
Definition set_wdevIndex (v : Z) (b : InterfaceInfoBuilder) :=
  mk_InterfaceInfoBuilder (_interfaceName b) (_interfaceType b)
    (_interfaceIndex b) (_phyIndex b) (Some (u32 v)) (_macAddress b)
    (_frequency b) (_tx_dbm b).
Definition set_mac (v : string) (b : InterfaceInfoBuilder) :=
  mk_InterfaceInfoBuilder (_interfaceName b) (_interfaceType b)
    (_interfaceIndex b) (_phyIndex b) (_wdevIndex b) (Some v) (_frequency b)
    (_tx_dbm b).
Definition set_frequency (v : Z) (b : InterfaceInfoBuilder) :=
  mk_InterfaceInfoBuilder (_interfaceName b) (_interfaceType b)
    (_interfaceIndex b) (_phyIndex b) (_wdevIndex b) (_macAddress b)
    (Some (u32 v)) (_tx_dbm b).
Definition set_txPowerDbm (v : Z) (b : InterfaceInfoBuilder) :=
  mk_InterfaceInfoBuilder (_interfaceName b) (_interfaceType b)
    (_interfaceIndex b) (_phyIndex b) (_wdevIndex b) (_macAddress b)
    (_frequency b) (Some (s32 v)).

Definition value_or {A : Type} (o : option A) (d : A) : A :=
  match o with Some v => v | None => d end.

(** [InterfaceInfoBuilder::build]. *)
Definition build (b : InterfaceInfoBuilder) : option InterfaceInfo :=
  Some (mk_InterfaceInfo
          (value_or (_interfaceName b) "Unnamed/non-netdev interface")
          (value_or (_interfaceType b) NL80211_IFTYPE_UNSPECIFIED)
          (value_or (_interfaceIndex b) 0)
          (value_or (_phyIndex b) 0)
          (value_or (_wdevIndex b) 0)
          (value_or (_macAddress b) "")
          ""
          (value_or (_frequency b) 0)
          None None None None None
          (value_or (_tx_dbm b) 0)).

(** *** Exceptions and outcomes *)

Inductive exn : Type :=
  | ios_base_failure (what : string)
  | bad_optional_access.

(** How a call ends: it returns, throws, never returns (the kernel stays
    silent), or has no defined behaviour (a null pointer is dereferenced). *)
Inductive Res (A : Type) : Type :=
  | Ret (a : A)
  | Throw (e : exn)
  | Blocked
  | Undefined.
Arguments Ret {A} a.
Arguments Throw {A} e.
Arguments Blocked {A}.
Arguments Undefined {A}.

(** The roles of libnl's dispatcher: the raw-message callback, the error
    callback with the code of the message, the finish and the acknowledge
    callbacks. *)
Inductive Role : Type :=
  | RoleMsgIn
  | RoleError (kerr : Z)
  | RoleFinish
  | RoleAck.

(** What lies outside the program: libc, libnl, the macros and options of
    the files that are not part of the core, the kernel's answers to the
    successive commands, and the order in which the buckets of the
    [std::unordered_map] of interfaces hold its keys once a given number of
    commands has been issued. *)
Record Env : Type := mk_Env {
  if_nametoindex : string -> Z;
  nl_syserr2nlerr : Z -> Z;
  NLE_DUMP_INTR : Z;
  nl_geterror : Z -> string;
  strerror : Z -> string;
  verbose : bool;
  MONITOR_INTERFACE_NAME : string;
  nl_socket_alloc_gnl : option Z;
  genl_connect : Z;
  genl_ctrl_resolve : Z;
  nl_socket_alloc_rnl : option Z;
  nl_connect : Z;
  kernel : nat -> Exchange;
  unordered_map_order : nat -> list string
}.

(** The state of the process: the members of [Netlink], [WiFIController]
    and [MainController] the core touches, then what it did to the world:
    commands issued, messages sent, lines logged, sockets freed, threads
    cancelled, and the roles libnl's dispatcher invoked (a record kept
    beside the run; the code does not read it). *)
Record State : Type := mk_State {
  nlstate : nl80211_state;
  interfaces : gmap string InterfaceInfo;
  interfacesToRestore : list InterfaceInfo;
  measureCsiThread : Z;
  injectPacketThread : Z;
  w_calls : nat;
  w_sent : list nl_msg;
  w_log : list string;
  w_freed : list Z;
  w_cancelled : list Z;
  w_roles : list Role
}.

(** A range-[for] over a [std::unordered_map] follows the buckets: the
    order is not given by the contents.  A visit takes the keys in the
    order [order] lists them, then the entries it does not list; every
    entry is met once, and every order of the entries is the visit of some
    [order]. *)
Definition visit {V : Type} (order : list string) (m : gmap string V)
    : list (string * V) :=
  (omap (fun k => pair k <$> m !! k) (remove_dups order) ++
   filter (fun e => fst e ∉ order) (map_to_list m))%list.

(** [for (const auto& [_, interface] : interfaces)] in state [s]. *)
Definition entries (env : Env) (s : State) : list (string * InterfaceInfo) :=
  visit (unordered_map_order env (w_calls s)) (interfaces s).

Definition set_nlstate (v : nl80211_state) (s : State) : State :=
  mk_State v (interfaces s) (interfacesToRestore s) (measureCsiThread s)
    (injectPacketThread s) (w_calls s) (w_sent s) (w_log s) (w_freed s)
    (w_cancelled s) (w_roles s).
Definition set_interfaces (v : gmap string InterfaceInfo) (s : State) : State :=
  mk_State (nlstate s) v (interfacesToRestore s) (measureCsiThread s)
    (injectPacketThread s) (w_calls s) (w_sent s) (w_log s) (w_freed s)
    (w_cancelled s) (w_roles s).
Definition set_interfacesToRestore (v : list InterfaceInfo) (s : State) : State :=
  mk_State (nlstate s) (interfaces s) v (measureCsiThread s)
    (injectPacketThread s) (w_calls s) (w_sent s) (w_log s) (w_freed s)
    (w_cancelled s) (w_roles s).
Definition set_calls (v : nat) (s : State) : State :=
  mk_State (nlstate s) (interfaces s) (interfacesToRestore s)
    (measureCsiThread s) (injectPacketThread s) v (w_sent s) (w_log s)
    (w_freed s) (w_cancelled s) (w_roles s).
Definition add_sent (m : nl_msg) (s : State) : State :=
  mk_State (nlstate s) (interfaces s) (interfacesToRestore s)
    (measureCsiThread s) (injectPacketThread s) (w_calls s) (w_sent s ++ [m])
    (w_log s) (w_freed s) (w_cancelled s) (w_roles s).
Definition add_log (l : string) (s : State) : State :=
  mk_State (nlstate s) (interfaces s) (interfacesToRestore s)
    (measureCsiThread s) (injectPacketThread s) (w_calls s) (w_sent s)
    (w_log s ++ [l]) (w_freed s) (w_cancelled s) (w_roles s).
Definition add_logs (ls : list string) (s : State) : State :=
  mk_State (nlstate s) (interfaces s) (interfacesToRestore s)
    (measureCsiThread s) (injectPacketThread s) (w_calls s) (w_sent s)
    (w_log s ++ ls) (w_freed s) (w_cancelled s) (w_roles s).
Definition add_cancelled (t : Z) (s : State) : State :=
  mk_State (nlstate s) (interfaces s) (interfacesToRestore s)
    (measureCsiThread s) (injectPacketThread s) (w_calls s) (w_sent s)
    (w_log s) (w_freed s) (w_cancelled s ++ [t]) (w_roles s).

Definition add_roles (r : list Role) (s : State) : State :=
  mk_State (nlstate s) (interfaces s) (interfacesToRestore s)
    (measureCsiThread s) (injectPacketThread s) (w_calls s) (w_sent s)
    (w_log s) (w_freed s) (w_cancelled s) (w_roles s ++ r).

(** [nl_socket_free]: a null handle is ignored. *)
Definition nl_socket_free (sk : option Z) (s : State) : State :=
  match sk with
  | None => s
  | Some h =>
      mk_State (nlstate s) (interfaces s) (interfacesToRestore s)
        (measureCsiThread s) (injectPacketThread s) (w_calls s) (w_sent s)
        (w_log s) (w_freed s ++ [h]) (w_cancelled s) (w_roles s)
  end.

(** *** The monad of calls *)

Definition M (A : Type) : Type := State -> Res A * State.

Definition ret {A : Type} (a : A) : M A := fun s => (Ret a, s).
Definition throw {A : Type} (e : exn) : M A := fun s => (Throw e, s).
Definition bind {A B : Type} (c : M A) (k : A -> M B) : M B :=
  fun s =>
    match c s with
    | (Ret a, s') => k a s'
    | (Throw e, s') => (Throw e, s')
    | (Blocked, s') => (Blocked, s')
    | (Undefined, s') => (Undefined, s')
    end.
Definition get : M State := fun s => (Ret s, s).
Definition modify (f : State -> State) : M unit := fun s => (Ret tt, f s).

(** Decimal text of an integer, as [operator<<] and [std::to_string] give. *)
Definition dec (z : Z) : string := NilZero.string_of_int (Z.to_int z).

Definition LF : string := String (chr 10) EmptyString.

End Data.
Import Data.

Declare Scope cmd_scope.
Delimit Scope cmd_scope with cmd.
Notation "x <- c1 ;; c2" := (bind c1 (fun x => c2))
  (at level 100, c1 at next level, right associativity) : cmd_scope.
Notation "c1 ;;; c2" := (bind c1 (fun _ => c2))
  (at level 100, right associativity) : cmd_scope.

(** ** [Netlink.cpp]: session set-up and the command engine *)

Module Netlink.

Local Open Scope cmd_scope.

(** [struct Cmd].  [P] is what [pre_execute_handler_args] points to and [A]
    what [valid_handler_args] points to; a handler returns its code and the
    pointee as it leaves it, a valid handler also the lines it logs, and
    [None] when it dereferences a null pointer. *)
Record Cmd (P A : Type) : Type := mk_Cmd {
  id : Z;
  idby : commandIdentifiedBy;
  nlFlags : Z;
  device : Z;
  pre_execute_handler : option (nl80211_state -> nl_msg -> P -> Z * nl_msg);
  valid_handler : option (in_msg -> A -> option (Z * A * list string));
  pre_execute_handler_args : P;
  valid_handler_args : A
}.
Arguments mk_Cmd {P A}.
Arguments id {P A}.
Arguments idby {P A}.
Arguments nlFlags {P A}.
Arguments device {P A}.
Arguments pre_execute_handler {P A}.
Arguments valid_handler {P A}.
Arguments pre_execute_handler_args {P A}.
Arguments valid_handler_args {P A}.

(** [struct RxCtx]. *)
Record RxCtx : Type := mk_RxCtx {
  err : Z;
  extack : string
}.

(** [error_handler]; [arg] is the [RxCtx*], [None] when null. *)
Definition error_handler (nlerr : nlmsgerr) (arg : option RxCtx)
    : Z * option RxCtx :=
  match arg with
  | None => (NL_STOP, None)
  | Some ctx =>
      let kerr := error nlerr in
      let kerr := if 0 <? kerr then - EPROTO else kerr in
      let ctx := mk_RxCtx kerr (extack ctx) in
      let len := s32 (nlmsg_len nlerr) in
      let ack_len := NLMSG_HDRLEN + 4 + NLMSG_HDRLEN in
      if Z.land (nlmsg_flags nlerr) NLM_F_ACK_TLVS =? 0 then (NL_STOP, Some ctx)
      else
        let ack_len :=
          if Z.land (nlmsg_flags nlerr) NLM_F_CAPPED =? 0
          then s32 (ack_len + (msg_nlmsg_len nlerr - NLMSG_HDRLEN))
          else ack_len in
        if len <=? ack_len then (NL_STOP, Some ctx)
        else
          let ext :=
            match NLMSGERR_ATTR_MSG nlerr with
            | Some s => c_str s
            | None => EmptyString
            end in
          let ext :=
            match NLMSGERR_ATTR_OFFS nlerr with
            | Some offs =>
                (if String.eqb ext EmptyString then ext else ext +:+ "; ")
                  +:+ "at attribute offset " +:+ dec (u32 offs)
            | None => ext
            end in
          (NL_STOP, Some (mk_RxCtx (err ctx) ext))
  end.

(** [nlValidHandler], [finish_handler], [ack_handler]; [arg] of the last two
    is the [int] behind the pointer. *)
Definition nlValidHandler {A : Type} (msg : in_msg) (arg : A)
    : option (Z * A * list string) :=
  Some (NL_OK, arg, []).
Definition finish_handler (msg : in_msg) (arg : Z) : Z * Z := (NL_SKIP, 0).
Definition ack_handler (msg : in_msg) (arg : Z) : Z * Z := (NL_STOP, 0).

(** *** libnl's dispatcher, for the callbacks [nlExecCommand] installs *)

(** The callback table: the error callback works on the [RxCtx], the finish
    and acknowledge callbacks on its [err] member, the raw-message callback
    on the caller's argument. *)
Record nl_cb (A : Type) : Type := mk_nl_cb {
  cb_err : option (nlmsgerr -> option RxCtx -> Z * option RxCtx);
  cb_finish : option (in_msg -> Z -> Z * Z);
  cb_ack : option (in_msg -> Z -> Z * Z);
  cb_msg_in : option (in_msg -> A -> option (Z * A * list string))
}.
Arguments mk_nl_cb {A}.
Arguments cb_err {A}.
Arguments cb_finish {A}.
Arguments cb_ack {A}.
Arguments cb_msg_in {A}.

(** The receive state: the context, the caller's argument, the lines the
    handlers logged and the roles. *)
Record rx_state (A : Type) : Type := mk_rx {
  rctx : RxCtx;
  uarg : A;
  rx_log : list string;
  roles : list Role
}.
Arguments mk_rx {A}.
Arguments rctx {A}.
Arguments uarg {A}.
Arguments rx_log {A}.
Arguments roles {A}.

(** What libnl does with a callback's result ([NL_CB_CALL]). *)
Inductive cb_action : Type :=
  | Proceed
  | Skip
  | Stop
  | Out (rc : Z).

Definition NL_CB_CALL (rc : Z) : cb_action :=
  if rc =? NL_OK then Proceed
  else if rc =? NL_SKIP then Skip
  else if rc =? NL_STOP then Stop
  else Out rc.

Definition set_err (e : Z) (c : RxCtx) : RxCtx := mk_RxCtx e (extack c).

Section Dispatch.
Context {A : Type}.
Variable env : Env.
Variable cb : nl_cb A.

(** The raw-message callback is called first, on every message. *)
Definition call_msg_in (m : in_msg) (st : rx_state A)
    : option (cb_action * rx_state A) :=
  match cb_msg_in cb with
  | None => Some (Proceed, st)
  | Some h =>
      match h m (uarg st) with
      | None => None
      | Some (rc, a, lines) =>
          Some (NL_CB_CALL rc,
                mk_rx (rctx st) a (rx_log st ++ lines) (roles st ++ [RoleMsgIn]))
      end
  end.

(** Then the message is treated by its kind. *)
Definition by_type (m : in_msg) (st : rx_state A) : cb_action * rx_state A :=
  match m_type m with
  | NLMSG_DONE =>
      match cb_finish cb with
      | None => (Proceed, st)
      | Some h =>
          let '(rc, e) := h m (err (rctx st)) in
          (NL_CB_CALL rc,
           mk_rx (set_err e (rctx st)) (uarg st) (rx_log st)
             (roles st ++ [RoleFinish]))
      end
  | NLMSG_NOOP => (Skip, st)
  | NLMSG_REJECTED rc => (Out rc, st)
  | NLMSG_ERROR e =>
      if error e =? 0 then
        match cb_ack cb with
        | None => (Proceed, st)
        | Some h =>
            let '(rc, v) := h m (err (rctx st)) in
            (NL_CB_CALL rc,
             mk_rx (set_err v (rctx st)) (uarg st) (rx_log st)
               (roles st ++ [RoleAck]))
        end
      else
        match cb_err cb with
        | None => (Out (- nl_syserr2nlerr env (error e)), st)
        | Some h =>
            let '(rc, c) := h e (Some (rctx st)) in
            let st' :=
              mk_rx (value_or c (rctx st)) (uarg st) (rx_log st)
                (roles st ++ [RoleError (error e)]) in
            if rc <? 0 then (Out rc, st')
            else if rc =? NL_SKIP then (Skip, st')
            else if rc =? NL_STOP
                 then (Out (- nl_syserr2nlerr env (error e)), st')
            else (Proceed, st')
        end
  | NLMSG_VALID => (Proceed, st)
  end.

Definition dispatch (m : in_msg) (st : rx_state A)
    : option (cb_action * rx_state A) :=
  match call_msg_in m st with
  | None => None
  | Some (Proceed, st') => Some (by_type m st')
  | Some other => Some other
  end.

(** An interrupted dump is noticed on a message the raw callback lets
    through. *)
Definition sees_intr (m : in_msg) (st : rx_state A) : bool :=
  match call_msg_in m st with
  | Some (Proceed, _) => m_dump_intr m
  | _ => false
  end.

(** The result with which a batch is left: an interrupted dump overrides
    whatever ended it. *)
Definition leave (interrupted : bool) (rc : Z) : Z :=
  if interrupted then - NLE_DUMP_INTR env else rc.

(** The messages of one batch, until a callback ends it. *)
Fixpoint recvmsgs (msgs : list in_msg) (tail : Z) (interrupted : bool)
    (st : rx_state A) : option (Z * rx_state A) :=
  match msgs with
  | [] => Some (leave interrupted tail, st)
  | m :: rest =>
      match dispatch m st with
      | None => None
      | Some (act, st') =>
          let interrupted := interrupted || sees_intr m st in
          match act with
          | Proceed | Skip => recvmsgs rest tail interrupted st'
          | Stop => Some (leave interrupted 0, st')
          | Out rc => Some (leave interrupted rc, st')
          end
      end
  end.

(** [nl_recvmsgs]: a positive count of messages is reported as 0. *)
Definition nl_recvmsgs (b : Batch) (st : rx_state A) : option (Z * rx_state A) :=
  match recvmsgs (b_msgs b) (b_rc b) false st with
  | None => None
  | Some (rc, st') => Some (if 0 <? rc then 0 else rc, st')
  end.

(** [while (rctx.err > 0) { err = nl_recvmsgs(...); if (err < 0) break; }]:
    the value of [err] and the state after the loop.  When the answers run
    out with the status still in progress the call blocks.  The roles
    invoked are recorded when the loop is left. *)
Fixpoint recv_loop (batches : list Batch) (e : Z) (st : rx_state A) (s : State)
    : Res (Z * rx_state A) * State :=
  if 0 <? err (rctx st) then
    match batches with
    | [] => (Blocked, add_roles (roles st) s)
    | b :: rest =>
        match nl_recvmsgs b st with
        | None => (Undefined, add_roles (roles st) s)
        | Some (rc, st') =>
            let s := add_logs (rx_log st') s in
            let st' := mk_rx (rctx st') (uarg st') [] (roles st') in
            if rc <? 0 then
              (Ret (rc, st'),
               add_roles (roles st')
                 (add_log ("nl_recvmsgs failed (" +:+ dec rc +:+ "): "
                           +:+ nl_geterror env rc +:+ LF) s))
            else recv_loop rest rc st' s
        end
    end
  else (Ret (e, st), add_roles (roles st) s).

End Dispatch.

Section Engine.
Variable env : Env.

(** [nlInit]. *)
Definition nlInit : M Z := fun s =>
  let out_handle_destroy_generic (e : Z) (errMsg : string) (s : State) :=
    let s := nl_socket_free (gnl_socket (nlstate s)) s in
    let s :=
      set_nlstate (mk_nl80211_state None (rnl_socket (nlstate s))
                     (nl80211_id (nlstate s))) s in
    let s := if String.eqb errMsg EmptyString then s else add_log errMsg s in
    (Ret e, s) in
  let out_handle_destroy_route (e : Z) (errMsg : string) (s : State) :=
    let s := nl_socket_free (rnl_socket (nlstate s)) s in
    let s :=
      set_nlstate (mk_nl80211_state (gnl_socket (nlstate s)) None
                     (nl80211_id (nlstate s))) s in
    out_handle_destroy_generic e errMsg s in
  let st := nlstate s in
  let s :=
    set_nlstate (mk_nl80211_state (nl_socket_alloc_gnl env) (rnl_socket st)
                   (nl80211_id st)) s in
  match nl_socket_alloc_gnl env with
  | None =>
      out_handle_destroy_generic (- ENOMEM)
        ("Failed to allocate generic netlink socket." +:+ LF) s
  | Some _ =>
      if negb (genl_connect env =? 0) then
        out_handle_destroy_generic (- ENOLINK)
          ("Failed to connect to generic netlink." +:+ LF) s
      else
        let st := nlstate s in
        let s :=
          set_nlstate (mk_nl80211_state (gnl_socket st) (rnl_socket st)
                         (genl_ctrl_resolve env)) s in
        if genl_ctrl_resolve env <? 0 then
          out_handle_destroy_generic (- ENOENT) ("nl80211 not found." +:+ LF) s
        else
          let st := nlstate s in
          let s :=
            set_nlstate (mk_nl80211_state (gnl_socket st)
                           (nl_socket_alloc_rnl env) (nl80211_id st)) s in
          match nl_socket_alloc_rnl env with
          | None =>
              (Throw (ios_base_failure "Failed to allocate route socket."), s)
          | Some _ =>
              if nl_connect env <? 0 then
                out_handle_destroy_route (- ENOLINK)
                  ("Failed to connect to NETLINK_ROUTE: "
                   +:+ nl_geterror env (nl_connect env) +:+ LF) s
              else (Ret 0, s)
          end
  end.

(** [Netlink::init]. *)
Definition init : M unit :=
  e <- nlInit ;;
  if e <? 0
  then modify (add_log ("Unable to initialize netlink " +:+ dec e +:+ LF))
  else ret tt.

(** The [switch (cmd.idby)] of [nlExecCommand]. *)
Definition put_device {P A : Type} (cmd : Cmd P A) (msg : nl_msg) : option nl_msg :=
  match idby cmd with
  | CIB_PHY => nla_put msg NL80211_ATTR_WIPHY (NLA_U32 (u32 (device cmd)))
  | CIB_NETDEV => nla_put msg NL80211_ATTR_IFINDEX (NLA_U32 (u32 (device cmd)))
  | CIB_WDEV => nla_put msg NL80211_ATTR_WDEV (NLA_U64 (u64 (device cmd)))
  | CIB_NONE => Some msg
  end.

(** The callbacks [nlExecCommand] registers. *)
Definition make_cb {P A : Type} (cmd : Cmd P A) : nl_cb A :=
  mk_nl_cb (Some error_handler) (Some finish_handler)
    (if Z.land (nlFlags cmd) NLM_F_DUMP =? 0 then Some ack_handler else None)
    (Some (match valid_handler cmd with
           | Some h => h
           | None => nlValidHandler
           end)).

(** What [nlExecCommand] does once the loop is left. *)
Definition after_loop {P A : Type} (cmd : Cmd P A) (e : Z) (st : rx_state A)
    : M (Z * A) :=
  if err (rctx st) <? 0 then
    let why := strerror env (- err (rctx st)) in
    let line :=
      "nl80211 cmd(" +:+ dec (id cmd) +:+ ") failed: " +:+ why +:+ " ("
      +:+ dec (err (rctx st)) +:+ ")" in
    let line :=
      if String.eqb (extack (rctx st)) EmptyString then line +:+ LF
      else line +:+ " — " +:+ extack (rctx st) +:+ LF in
    modify (add_log line) ;;;
    ret (err (rctx st), uarg st)
  else if e <? 0 then ret (e, uarg st)
  else ret (0, uarg st).

(** [nlExecCommand]: the result code and the caller's argument as the valid
    handler left it. *)
Definition nlExecCommand {P A : Type} (cmd : Cmd P A) : M (Z * A) := fun s =>
  let x := kernel env (w_calls s) in
  let s := set_calls (S (w_calls s)) s in
  if negb (x_msg_alloc x) then
    (Throw (ios_base_failure ("failed to allocate netlink message" +:+ LF)), s)
  else if negb (x_cb_alloc x) || negb (x_s_cb_alloc x) then
    (Throw (ios_base_failure ("failed to allocate netlink callback" +:+ LF)), s)
  else
    let msg :=
      genlmsg_put (nlmsg_alloc (x_nm_size x)) (nl80211_id (nlstate s))
        (nlFlags cmd) (id cmd) in
    match put_device cmd msg with
    | None => (Throw (ios_base_failure ("building message failed" +:+ LF)), s)
    | Some msg =>
        let '(e, msg) :=
          match pre_execute_handler cmd with
          | Some h => h (nlstate s) msg (pre_execute_handler_args cmd)
          | None => (0, msg)
          end in
        if negb (e =? 0) then
          (Throw (ios_base_failure "pre-execute handler failed"), s)
        else
          let e := x_send x in
          if e <? 0 then
            (Throw (ios_base_failure ("Failed to send netlink message: "
                                      +:+ nl_geterror env e)), s)
          else
            let s := add_sent msg s in
            let st0 :=
              mk_rx (mk_RxCtx 1 EmptyString) (valid_handler_args cmd) [] [] in
            bind (recv_loop env (make_cb cmd) (x_batches x) e st0)
                 (fun r => after_loop cmd (fst r) (snd r)) s
    end.

End Engine.

End Netlink.

(** ** The platform under the interface set-up

    What [setInterfaceStatus], [rfkill_unblock] and the creation of the
    monitor and access-point interfaces reach beside nl80211: libnl-route,
    [system], the standard streams and the clock. *)

Module Platform.

(** [struct rtnl_link] as far as the controller uses it: the reference the
    process holds (a handle), the interface index, the flags and the mask
    of the flags that were set or unset. *)
Record rtnl_link : Type := mk_rtnl_link {
  l_ref : nat;
  l_index : Z;
  l_flags : Z;
  l_flag_mask : Z
}.

Definition rtnl_link_set_ifindex (l : rtnl_link) (ifindex : Z) : rtnl_link :=
  mk_rtnl_link (l_ref l) ifindex (l_flags l) (l_flag_mask l).
Definition rtnl_link_set_flags (l : rtnl_link) (flags : Z) : rtnl_link :=
  mk_rtnl_link (l_ref l) (l_index l) (Z.lor (l_flags l) flags)
    (Z.lor (l_flag_mask l) flags).
Definition rtnl_link_unset_flags (l : rtnl_link) (flags : Z) : rtnl_link :=
  mk_rtnl_link (l_ref l) (l_index l) (Z.land (l_flags l) (Z.lnot flags))
    (Z.lor (l_flag_mask l) flags).

(** The answers of the platform; the first argument of a call is the number
    of calls made before it.  [rtnl_link_get_kernel] gives its result and
    the index and flags of the link it stores when the result is not
    negative; [rtnl_link_alloc] tells whether the allocation succeeds.
    The last four are members of [Arguments::arguments]. *)
Record Host : Type := mk_Host {
  rtnl_link_get_kernel : nat -> string -> Z * (Z * Z);
  rtnl_link_alloc : nat -> bool;
  rtnl_link_change : nat -> rtnl_link -> rtnl_link -> Z;
  system : nat -> string -> Z;
  AP_INTERFACE_NAME : string;
  arguments_bandwidth : string;
  arguments_frequency : Z;
  arguments_txPower : Z;
  arguments_mac : list Z
}.

(** The process and what it did to the platform: calls made, link
    references held (their number for each handle), change requests
    issued, commands run, lines written to [std::cout] and [std::cerr],
    milliseconds slept. *)
Record World : Type := mk_World {
  controller : State;
  p_calls : nat;
  p_links : nat -> nat;
  p_changes : list (rtnl_link * rtnl_link);
  p_commands : list string;
  p_cout : list string;
  p_cerr : list string;
  p_slept : Z
}.

Definition set_controller (v : State) (w : World) : World :=
  mk_World v (p_calls w) (p_links w) (p_changes w) (p_commands w) (p_cout w)
    (p_cerr w) (p_slept w).
Definition set_p_calls (v : nat) (w : World) : World :=
  mk_World (controller w) v (p_links w) (p_changes w) (p_commands w) (p_cout w)
    (p_cerr w) (p_slept w).
Definition set_p_links (v : nat -> nat) (w : World) : World :=
  mk_World (controller w) (p_calls w) v (p_changes w) (p_commands w) (p_cout w)
    (p_cerr w) (p_slept w).
Definition add_change (c : rtnl_link * rtnl_link) (w : World) : World :=
  mk_World (controller w) (p_calls w) (p_links w) (p_changes w ++ [c])
    (p_commands w) (p_cout w) (p_cerr w) (p_slept w).
Definition add_command (c : string) (w : World) : World :=
  mk_World (controller w) (p_calls w) (p_links w) (p_changes w)
    (p_commands w ++ [c]) (p_cout w) (p_cerr w) (p_slept w).
Definition add_cout (l : string) (w : World) : World :=
  mk_World (controller w) (p_calls w) (p_links w) (p_changes w) (p_commands w)
    (p_cout w ++ [l]) (p_cerr w) (p_slept w).
Definition add_cerr (l : string) (w : World) : World :=
  mk_World (controller w) (p_calls w) (p_links w) (p_changes w) (p_commands w)
    (p_cout w) (p_cerr w ++ [l]) (p_slept w).
Definition add_slept (ms : Z) (w : World) : World :=
  mk_World (controller w) (p_calls w) (p_links w) (p_changes w) (p_commands w)
    (p_cout w) (p_cerr w) (p_slept w + ms).

(** *** The monad of calls that reach the platform *)

Definition W (A : Type) : Type := World -> Res A * World.

Definition wret {A : Type} (a : A) : W A := fun w => (Ret a, w).
Definition wbind {A B : Type} (c : W A) (k : A -> W B) : W B :=
  fun w =>
    match c w with
    | (Ret a, w') => k a w'
    | (Throw e, w') => (Throw e, w')
    | (Blocked, w') => (Blocked, w')
    | (Undefined, w') => (Undefined, w')
    end.
Definition wget : W World := fun w => (Ret w, w).
Definition wmodify (f : World -> World) : W unit := fun w => (Ret tt, f w).

(** A call of the controller, run on the process inside the world. *)
Definition lift {A : Type} (c : M A) : W A :=
  fun w => let '(r, s) := c (controller w) in (r, set_controller s w).

(** [Logger::log(...) << line]. *)
Definition logger (line : string) : W unit :=
  wmodify (fun w => set_controller (add_log line (controller w)) w).

(** One more call to the platform: its number in the sequence. *)
Definition call : W nat :=
  fun w => (Ret (p_calls w), set_p_calls (S (p_calls w)) w).

(** One reference more, one reference less on the handle [h]. *)
Definition retain (h : nat) (refs : nat -> nat) : nat -> nat :=
  fun x => if (x =? h)%nat then S (refs x) else refs x.
Definition give_back (h : nat) (refs : nat -> nat) : nat -> nat :=
  fun x => if (x =? h)%nat then pred (refs x) else refs x.

(** A reference obtained, and [rtnl_link_put]: the reference is given back;
    giving back a reference that is not held has no defined behaviour. *)
Definition hold (l : rtnl_link) : W unit :=
  wmodify (fun w => set_p_links (retain (l_ref l) (p_links w)) w).

Definition rtnl_link_put (l : rtnl_link) : W unit :=
  fun w =>
    match p_links w (l_ref l) with
    | O => (Undefined, w)
    | S _ => (Ret tt, set_p_links (give_back (l_ref l) (p_links w)) w)
    end.

(** [std::this_thread::sleep_for(std::chrono::milliseconds(ms))]. *)
Definition sleep_for (ms : Z) : W unit := wmodify (add_slept ms).

(** The outcome of a loop run with a bound on its iterations. *)
Inductive bounded (A : Type) : Type :=
  | Done (a : A)
  | OutOfFuel.
Arguments Done {A} a.
Arguments OutOfFuel {A}.

End Platform.
Import Platform.

Declare Scope host_scope.
Delimit Scope host_scope with host.
Notation "x <- c1 ;; c2" := (wbind c1 (fun x => c2))
  (at level 100, c1 at next level, right associativity) : host_scope.
Notation "c1 ;;; c2" := (wbind c1 (fun _ => c2))
  (at level 100, right associativity) : host_scope.

(** ** [WiFIController.cpp]: queries and settings *)

Module WiFIController.

Import Netlink.
Local Open Scope cmd_scope.

(** [std::optional::value]. *)
Definition value {A : Type} (o : option A) : M A :=
  match o with
  | Some v => ret v
  | None => throw bad_optional_access
  end.

Definition parse_failure (e : Z) : string :=
  "Unable to parse attribute table for Netlink message: " +:+ dec e +:+ LF.

(** The attribute reads of [getInterfaceInfoHandler] before the final test
    of the index attribute. *)
Definition decode_interface (tb : attr_table) : InterfaceInfoBuilder * list string :=
  let ifInfo := new_builder in
  let ifInfo :=
    match tb_IFNAME tb with
    | Some n => set_interfaceName (c_str n) ifInfo
    | None => ifInfo
    end in
  let ifInfo :=
    match tb_IFTYPE tb with
    | Some v => set_interfaceType (u32 v) ifInfo
    | None => ifInfo
    end in
  let ifInfo :=
    match tb_IFINDEX tb with
    | Some v => set_interfaceIndex (u32 v) ifInfo
    | None => ifInfo
    end in
  let ifInfo :=
    match tb_WIPHY tb with
    | Some v => set_phyIndex (u32 v) ifInfo
    | None => ifInfo
    end in
  let ifInfo :=
    match tb_WDEV tb with
    | Some v => set_wdevIndex (u64 v) ifInfo
    | None => ifInfo
    end in
  let ifInfo :=
    match tb_MAC tb with
    | Some bytes =>
        set_mac (Mac.mac_n2a (nla_data bytes (tb_behind_MAC tb))) ifInfo
    | None => ifInfo
    end in
  let ifInfo :=
    match tb_WIPHY_FREQ tb with
    | Some v => set_frequency (u32 v) ifInfo
    | None => ifInfo
    end in
  match tb_WIPHY_TX_POWER_LEVEL tb with
  | Some raw =>
      (set_txPowerDbm (u32 raw / 100) ifInfo,
       ["Magically received tx power!" +:+ LF])
  | None => (ifInfo, [])
  end.

(** [getInterfaceInfoHandler]; [builders] is the vector behind
    [arguments[1]], [None] when that pointer is null. *)
Definition getInterfaceInfoHandler (msg : in_msg)
    (builders : option (list InterfaceInfoBuilder))
    : option (Z * option (list InterfaceInfoBuilder) * list string) :=
  let e := m_parse_rc msg in
  if e <? 0 then Some (e, builders, [parse_failure e])
  else
    let '(ifInfo, lines) := decode_interface (m_attrs msg) in
    match tb_IFINDEX (m_attrs msg) with
    | Some v =>
        let ifInfo := set_interfaceIndex (u32 v) ifInfo in
        match builders with
        | None => None
        | Some l => Some (NL_OK, Some (l ++ [ifInfo])%list, lines)
        end
    | None => Some (NL_OK, builders, lines)
    end.

(** [getInterfaceInfoTxPowerHandler]; [builder] is the object behind
    [arguments[1]]. *)
Definition getInterfaceInfoTxPowerHandler (msg : in_msg)
    (builder : InterfaceInfoBuilder)
    : option (Z * InterfaceInfoBuilder * list string) :=
  let e := m_parse_rc msg in
  if e <? 0 then Some (e, builder, [parse_failure e])
  else
    match tb_WIPHY_TX_POWER_LEVEL (m_attrs msg) with
    | Some raw =>
        let tx_power_mbm := s32 raw in
        let tx_power_dbm := tx_power_mbm ÷ 100 in
        Some (NL_STOP, set_txPowerDbm tx_power_dbm builder, [])
    | None => Some (NL_OK, builder, [])
    end.

(** [setTxPowerHandler]; [arg] is the [int32_t] behind the pointer. *)
Definition setTxPowerHandler (state : nl80211_state) (msg : nl_msg)
    (arg : Z) : Z * nl_msg :=
  let power_dbm := arg in
  let power_mbm := s32 (power_dbm * 100) in
  match nla_put msg NL80211_ATTR_WIPHY_TX_POWER_SETTING
          (NLA_S32 NL80211_TX_POWER_FIXED) with
  | None => (- ENOBUFS, msg)
  | Some msg1 =>
      match nla_put msg1 NL80211_ATTR_WIPHY_TX_POWER_LEVEL (NLA_S32 power_mbm) with
      | None => (- ENOBUFS, msg1)
      | Some msg2 => (0, msg2)
      end
  end.

(** [createInterfaceHandler]; [arg] is the [settings] array: the name, the
    type and the six bytes at [mac]. *)
Definition createInterfaceHandler (state : nl80211_state) (msg : nl_msg)
    (arg : string * Z * list Z) : Z * nl_msg :=
  let '(name, type, mac) := arg in
  match nla_put msg NL80211_ATTR_IFNAME (NLA_STRING (c_str name)) with
  | None => (- ENOBUFS, msg)
  | Some msg1 =>
      match nla_put msg1 NL80211_ATTR_IFTYPE (NLA_U32 (u32 type)) with
      | None => (- ENOBUFS, msg1)
      | Some msg2 =>
          match nla_put msg2 NL80211_ATTR_MAC (NLA_DATA (take ETH_ALEN mac)) with
          | None => (- ENOBUFS, msg2)
          | Some msg3 => (0, msg3)
          end
      end
  end.

(** The [for (const auto& [_, interfaceInfo] : interfaces)] of
    [getInterfaceInfo(uint32_t)]. *)
Fixpoint find_by_index (l : list (string * InterfaceInfo)) (interfaceIndex : Z)
    : option InterfaceInfo :=
  match l with
  | [] => None
  | (_, interfaceInfo) :: rest =>
      if ifIndex interfaceInfo =? interfaceIndex then Some interfaceInfo
      else find_by_index rest interfaceIndex
  end.

(** [NLA_PUT_U32] inside a handler: the next step, or -ENOBUFS with the
    message as it stands. *)
Definition put_u32 (msg : nl_msg) (attr : nl80211_attr) (v : Z)
    (k : nl_msg -> Z * nl_msg) : Z * nl_msg :=
  match nla_put msg attr (NLA_U32 (u32 v)) with
  | None => (- ENOBUFS, msg)
  | Some msg' => k msg'
  end.

(** [setFrequencyHandler]; [arg] is the [settings] array: the integer whose
    low 16 bits are read as the frequency, and the bandwidth label. *)
Definition setFrequencyHandler (state : nl80211_state) (msg : nl_msg)
    (arg : Z * string) : Z * nl_msg :=
  let '(settings0, bandwidth) := arg in
  let frequency := u16 settings0 in
  let freq := frequency in
  let freq_offset := 0 in
  let control_freq := freq in
  let control_freq_offset := freq_offset in
  let center_freq1_offset := freq_offset in
  let selectedChanMode := Resolver.getChanMode bandwidth in
  let center_freq1 := u32 (Resolver.getCf1 selectedChanMode freq) in
  let center_freq1_offset :=
    if 1000 <? center_freq1 then 0 else center_freq1_offset in
  let width := Resolver.width selectedChanMode in
  put_u32 msg NL80211_ATTR_WIPHY_FREQ control_freq (fun msg =>
  put_u32 msg NL80211_ATTR_WIPHY_FREQ_OFFSET control_freq_offset (fun msg =>
  put_u32 msg NL80211_ATTR_CHANNEL_WIDTH width (fun msg =>
  let after_type (msg : nl_msg) : Z * nl_msg :=
    let after_cf1 (msg : nl_msg) : Z * nl_msg :=
      if center_freq1_offset =? 0 then (0, msg)
      else put_u32 msg NL80211_ATTR_CENTER_FREQ1_OFFSET center_freq1_offset
             (fun msg => (0, msg)) in
    if center_freq1 =? 0 then after_cf1 msg
    else put_u32 msg NL80211_ATTR_CENTER_FREQ1 center_freq1 after_cf1 in
  if width =? NL80211_CHAN_WIDTH_20_NOHT then
    put_u32 msg NL80211_ATTR_WIPHY_CHANNEL_TYPE NL80211_CHAN_NO_HT after_type
  else if width =? NL80211_CHAN_WIDTH_20 then
    put_u32 msg NL80211_ATTR_WIPHY_CHANNEL_TYPE NL80211_CHAN_HT20 after_type
  else if width =? NL80211_CHAN_WIDTH_40 then
    put_u32 msg NL80211_ATTR_WIPHY_CHANNEL_TYPE
      (if center_freq1 <? control_freq then NL80211_CHAN_HT40MINUS
       else NL80211_CHAN_HT40PLUS) after_type
  else after_type msg))).

Section Controller.
Variable env : Env.

Definition get_interface_cmd (flags : Z) (by_ : commandIdentifiedBy) (dev : Z)
    (args : option (list InterfaceInfoBuilder))
    : Cmd unit (option (list InterfaceInfoBuilder)) :=
  mk_Cmd NL80211_CMD_GET_INTERFACE by_ flags dev None
    (Some getInterfaceInfoHandler) tt args.

Definition get_tx_power_cmd (interfaceIndex : Z) (builder : InterfaceInfoBuilder)
    : Cmd unit InterfaceInfoBuilder :=
  mk_Cmd NL80211_CMD_GET_WIPHY CIB_NETDEV NLM_F_DUMP interfaceIndex None
    (Some getInterfaceInfoTxPowerHandler) tt builder.

(** [this->interfaces[info.ifName] = info]. *)
Definition store (info : InterfaceInfo) : M unit :=
  modify (fun s => set_interfaces (<[ifName info := info]> (interfaces s)) s).

(** A local vector read back after the handler wrote through its address. *)
Definition vector_of (p : option (list InterfaceInfoBuilder))
    : list InterfaceInfoBuilder :=
  match p with Some l => l | None => [] end.

(** The [for (auto& builder : interfaces)] of [getAllInterfaces]. *)
Fixpoint getAllInterfaces_loop (builders : list InterfaceInfoBuilder) : M unit :=
  match builders with
  | [] => ret tt
  | builder :: rest =>
      interfaceIndex <- value (_interfaceIndex builder) ;;
      r <- nlExecCommand env (get_tx_power_cmd interfaceIndex builder) ;;
      match build (snd r) with
      | None => getAllInterfaces_loop rest
      | Some info => store info ;;; getAllInterfaces_loop rest
      end
  end.

Definition getAllInterfaces : M unit :=
  r <- nlExecCommand env
         (get_interface_cmd NLM_F_DUMP CIB_NONE 0 (Some [])) ;;
  getAllInterfaces_loop (vector_of (snd r)).

(** [getInterfaceInfo(const std::string)]. *)
Definition getInterfaceInfo (interfaceName : string) : M (option InterfaceInfo) :=
  r <- nlExecCommand env
         (get_interface_cmd 0 CIB_NETDEV
            (if_nametoindex env (c_str interfaceName)) (Some [])) ;;
  let interfaces := vector_of (snd r) in
  match interfaces with
  | [] => ret None
  | builder :: more =>
      (match more with
       | [] => ret tt
       | _ :: _ =>
           modify (add_log ("Multiple interfaces found with name "
                            +:+ interfaceName +:+ ". Using the first one."
                            +:+ LF))
       end) ;;;
      interfaceIndex <- value (_interfaceIndex builder) ;;
      r <- nlExecCommand env (get_tx_power_cmd interfaceIndex builder) ;;
      match build (snd r) with
      | None => ret None
      | Some info => store info ;;; ret (Some info)
      end
  end.

(** [getInterfaceInfo(uint32_t)].  The command names no
    [valid_handler_args]: the member is a null pointer.  The directory is
    walked in the order of its buckets. *)
Definition getInterfaceInfo_byIndex (interfaceIndex : Z) : M (option InterfaceInfo) :=
  nlExecCommand env (get_interface_cmd 0 CIB_NETDEV interfaceIndex None) ;;;
  s <- get ;;
  ret (find_by_index (entries env s) (u32 interfaceIndex)).

Definition set_tx_power_cmd (dev : Z) (power_dbm : Z) : Cmd Z unit :=
  mk_Cmd NL80211_CMD_SET_WIPHY CIB_NETDEV 0 dev (Some setTxPowerHandler)
    None power_dbm tt.

(** [abortScan]. *)
Definition abortScan (interfaceName : string) : M Z :=
  r <- nlExecCommand env
         (mk_Cmd NL80211_CMD_ABORT_SCAN CIB_NETDEV 0
            (if_nametoindex env (c_str interfaceName)) None None tt tt) ;;
  ret (fst r).

(** [setInterfaceTxPower(const std::string, int32_t)]. *)
Definition setInterfaceTxPower (interfaceName : string) (power_dbm : Z) : M Z :=
  nlExecCommand env
    (set_tx_power_cmd (if_nametoindex env (c_str interfaceName)) power_dbm) ;;;
  info <- getInterfaceInfo interfaceName ;;
  match info with
  | None => ret (-1)
  | Some i => ret (if power_dbm =? txdBm i then 0 else -1)
  end.

(** [setInterfaceTxPower(uint32_t, int32_t)]. *)
Definition setInterfaceTxPower_byIndex (interfaceIndex : Z) (power_dbm : Z) : M Z :=
  nlExecCommand env (set_tx_power_cmd interfaceIndex power_dbm) ;;;
  q <- getInterfaceInfo_byIndex interfaceIndex ;;
  i <- value q ;;
  ret (if power_dbm =? txdBm i then 0 else -1).

(** [setInterfaceFrequency(const std::string, uint32_t, const std::string)]. *)
Definition setInterfaceFrequency (interfaceName : string) (frequency_mhz : Z)
    (bandwidth : string) : M Z :=
  nlExecCommand env
    (mk_Cmd NL80211_CMD_SET_WIPHY CIB_NETDEV 0
       (if_nametoindex env (c_str interfaceName)) (Some setFrequencyHandler)
       None (u32 frequency_mhz, c_str bandwidth) tt) ;;;
  info <- getInterfaceInfo interfaceName ;;
  match info with
  | None => ret (- ENOENT)
  | Some i => ret (if freq i =? u32 frequency_mhz then 0 else -1)
  end.

(** [setInterfaceFrequency(uint32_t, uint16_t, const std::string)]. *)
Definition setInterfaceFrequency_byIndex (interfaceIndex : Z) (frequency : Z)
    (bandwidth : string) : M Z :=
  nlExecCommand env
    (mk_Cmd NL80211_CMD_SET_WIPHY CIB_NETDEV 0 interfaceIndex
       (Some setFrequencyHandler) None (u16 frequency, c_str bandwidth) tt) ;;;
  q <- getInterfaceInfo_byIndex interfaceIndex ;;
  i <- value q ;;
  ret (if freq i =? u16 frequency then 0 else -1).

(** [createInterface]. *)
Definition createInterface (interfaceName : string) (type : Z) (mac : list Z)
    (phyIndex : Z) : M Z :=
  nlExecCommand env
    (mk_Cmd NL80211_CMD_NEW_INTERFACE CIB_PHY 0 phyIndex
       (Some createInterfaceHandler) None (interfaceName, type, mac) tt) ;;;
  info <- getInterfaceInfo interfaceName ;;
  ret (match info with Some _ => 0 | None => -1 end).

(** [deleteInterface(const std::string)] and [deleteInterface(uint32_t)]. *)
Definition deleteInterface (name : string) : M unit :=
  nlExecCommand env
    (mk_Cmd NL80211_CMD_DEL_INTERFACE CIB_NETDEV 0
       (if_nametoindex env (c_str name)) None None tt tt) ;;;
  ret tt.

Definition deleteInterface_byIndex (interfaceIndex : Z) : M unit :=
  nlExecCommand env
    (mk_Cmd NL80211_CMD_DEL_INTERFACE CIB_NETDEV 0 interfaceIndex
       None None tt tt) ;;;
  ret tt.

End Controller.

Section Setup.
Variable env : Env.
Variable host : Host.

Local Open Scope host_scope.

(** [setInterfaceStatus]. *)
Definition setInterfaceStatus (interfaceName : string) (up : bool) : W Z :=
  w <- wget ;;
  match rnl_socket (nlstate (controller w)) with
  | None =>
      logger ("route socket is not initialized" +:+ LF) ;;;
      wret (- ENOTCONN)
  | Some _ =>
      n <- call ;;
      let '(err, (ifindex, flags)) :=
        rtnl_link_get_kernel host n (c_str interfaceName) in
      if err <? 0 then
        logger ("rtnl_link_get_kernel(" +:+ interfaceName +:+ "): "
                +:+ nl_geterror env err +:+ LF) ;;;
        wret err
      else
        let original_link := mk_rtnl_link n ifindex flags 0 in
        hold original_link ;;;
        n <- call ;;
        if negb (rtnl_link_alloc host n) then
          rtnl_link_put original_link ;;;
          wret (- NLE_NOMEM)
        else
          let modified_link := mk_rtnl_link n 0 0 0 in
          hold modified_link ;;;
          let modified_link :=
            rtnl_link_set_ifindex modified_link (l_index original_link) in
          let modified_link :=
            if up then rtnl_link_set_flags modified_link IFF_UP
            else rtnl_link_unset_flags modified_link IFF_UP in
          n <- call ;;
          let err := rtnl_link_change host n original_link modified_link in
          wmodify (add_change (original_link, modified_link)) ;;;
          rtnl_link_put modified_link ;;;
          rtnl_link_put original_link ;;;
          if err <? 0 then
            logger ("rtnl_link_change(" +:+ interfaceName +:+ "): "
                    +:+ nl_geterror env err +:+ LF) ;;;
            wret err
          else
            (if verbose env then
               logger ("Interface " +:+ interfaceName +:+ " has been brought "
                       +:+ (if up then "up" else "down") +:+ LF)
             else wret tt) ;;;
            wret 0
  end.

(** [rfkill_unblock]. *)
Definition rfkill_unblock : W unit :=
  let command := "rfkill unblock all" in
  n <- call ;;
  let result := system host n command in
  wmodify (add_command command) ;;;
  (if result =? 0 then
     wmodify (add_cout ("Successfully executed: " +:+ command +:+ LF))
   else
     wmodify (add_cerr ("Failed to execute: " +:+ command
                        +:+ ". Return code: " +:+ dec result +:+ LF))) ;;;
  sleep_for 250.

(** [while ((err = setInterfaceFrequency(MONITOR_INTERFACE_NAME, frequency,
    bandwidth.c_str())) < 0) { ... }], run for at most [fuel] iterations. *)
Fixpoint frequency_loop (fuel : nat) (frequency : Z) : W (bounded unit) :=
  match fuel with
  | O => wret OutOfFuel
  | S fuel =>
      err <- lift (setInterfaceFrequency env (MONITOR_INTERFACE_NAME env)
                     frequency (c_str (arguments_bandwidth host))) ;;
      if err <? 0 then
        logger ("Failed to set frequency (" +:+ dec err +:+ ")" +:+ LF) ;;;
        rfkill_unblock ;;;
        sleep_for 250 ;;;
        frequency_loop fuel frequency
      else wret (Done tt)
  end.

(** [createMonitorInterface]. *)
Definition createMonitorInterface (fuel : nat)
    (phy_index frequency tx_power_dbm : Z) (mac : list Z) : W (bounded unit) :=
  rc <- lift (createInterface env (MONITOR_INTERFACE_NAME env)
                NL80211_IFTYPE_MONITOR mac phy_index) ;;
  if rc <? 0 then
    logger ("Failed to create monitor mode interface" +:+ LF) ;;;
    wret (Done tt)
  else
    rc <- setInterfaceStatus (MONITOR_INTERFACE_NAME env) true ;;
    if rc <? 0 then
      logger ("Failed to set interface to up" +:+ LF) ;;;
      wret (Done tt)
    else
      sleep_for 250 ;;;
      frequency_loop fuel frequency.

(** [while ((err = setInterfaceTxPower(AP_INTERFACE_NAME, tx_power_dbm)) > 0)
    { ... }], run for at most [fuel] iterations; [tx_power_dbm] is a
    [uint32_t] handed to an [int32_t] parameter. *)
Fixpoint txpower_loop (fuel : nat) (tx_power_dbm : Z) : W (bounded unit) :=
  match fuel with
  | O => wret OutOfFuel
  | S fuel =>
      err <- lift (setInterfaceTxPower env (AP_INTERFACE_NAME host)
                     (s32 tx_power_dbm)) ;;
      if 0 <? err then
        logger ("Failed to set TX power(" +:+ dec err +:+ ")" +:+ LF) ;;;
        rfkill_unblock ;;;
        sleep_for 250 ;;;
        txpower_loop fuel tx_power_dbm
      else wret (Done tt)
  end.

(** [createApInterface]; each of its two loops runs for at most [fuel]
    iterations. *)
Definition createApInterface (fuel : nat)
    (phy_index frequency tx_power_dbm : Z) (mac : list Z) : W (bounded unit) :=
  rc <- lift (createInterface env (AP_INTERFACE_NAME host) NL80211_IFTYPE_AP
                mac phy_index) ;;
  if rc <? 0 then
    logger ("Failed to create AP mode interface" +:+ LF) ;;;
    wret (Done tt)
  else
    rc <- setInterfaceStatus (AP_INTERFACE_NAME host) true ;;
    if rc <? 0 then
      logger ("Failed to set interface to up" +:+ LF) ;;;
      wret (Done tt)
    else
      sleep_for 250 ;;;
      r <- frequency_loop fuel frequency ;;
      match r with
      | OutOfFuel => wret OutOfFuel
      | Done _ => txpower_loop fuel tx_power_dbm
      end.

End Setup.

End WiFIController.

(** ** [MainController.cpp]: restoring and initialising the interfaces *)

Module MainController.

(** *** [MainController::restoreState] *)

Import Netlink WiFIController.
Local Open Scope cmd_scope.

Section Restore.
Variable env : Env.

Definition when (b : bool) (c : M unit) : M unit := if b then c else ret tt.

(** The [for (InterfaceInfo interface : interfacesToRestore)] loop.  The
    local array [mac] starts with the bytes [mac0]. *)
Fixpoint restore_loop (l : list InterfaceInfo) (mac0 : list Z) : M unit :=
  match l with
  | [] => ret tt
  | interface :: rest =>
      when (verbose env)
        (modify (add_log ("Recovering interface " +:+ ifName interface +:+ LF))) ;;;
      let '(ok, mac) := Mac.mac_a2n (Data.mac interface) mac0 in
      if negb ok then
        modify (add_log ("Failed to convert mac address "
                         +:+ Data.mac interface +:+ LF)) ;;;
        restore_loop rest mac0
      else
        rc <- createInterface env (ifName interface) (ifType interface) mac
                (wiphy interface) ;;
        when (rc <? 0)
          (modify (add_log ("Failed to restore " +:+ ifName interface
                            +:+ " with mac: " +:+ Data.mac interface +:+ LF))) ;;;
        restore_loop rest mac0
  end.

Definition restoreState (mac0 : list Z) : M unit :=
  s <- get ;;
  when (negb (measureCsiThread s =? 0))
    (modify (add_cancelled (measureCsiThread s))) ;;;
  when (negb (injectPacketThread s =? 0))
    (modify (add_cancelled (injectPacketThread s))) ;;;
  deleteInterface env (MONITOR_INTERFACE_NAME env) ;;;
  restore_loop (interfacesToRestore s) mac0 ;;;
  modify (set_interfacesToRestore []) ;;;
  modify (set_interfaces ∅) ;;;
  when (verbose env) (modify (add_log ("Exiting recovery state..." +:+ LF))).

End Restore.

(** *** [MainController::initInterface] *)

Section Init.
Variable env : Env.
Variable host : Host.

Local Open Scope host_scope.

(** [interfacesToRestore.push_back(interface)]. *)
Definition push_back (interface : InterfaceInfo) (w : World) : World :=
  set_controller
    (set_interfacesToRestore
       (interfacesToRestore (controller w) ++ [interface])%list (controller w)) w.

(** The [for (const auto& [_, interface] : interfaces)] of [initInterface],
    left by [break] at the first record named wlp4s0: the value of
    [intel_phy] after it. *)
Fixpoint find_intel (l : list (string * InterfaceInfo)) (intel_phy : Z) : W Z :=
  match l with
  | [] => wret intel_phy
  | (_, interface) :: rest =>
      logger ("interface " +:+ ifName interface +:+ LF) ;;;
      if String.eqb (ifName interface) "wlp4s0" then
        wmodify (push_back interface) ;;;
        lift (deleteInterface env (ifName interface)) ;;;
        wret (wiphy interface)
      else find_intel rest intel_phy
  end.

(** The [try] block of [initInterface]; the loops of
    [createMonitorInterface] run for at most [fuel] iterations.  The
    directory is walked in the order of its buckets.  (The handler of
    the [catch] clause shows the message in the window or ends the
    process; it is not part of this definition.) *)
Definition initInterface_try (fuel : nat) : W (bounded unit) :=
  logger ("Initializing the WiFi Controller" +:+ LF) ;;;
  lift (Netlink.init env) ;;;
  logger ("Obtaining all WiFi Interfaces" +:+ LF) ;;;
  lift (getAllInterfaces env) ;;;
  w <- wget ;;
  intel_phy <- find_intel (entries env (controller w)) 0 ;;
  logger ("Using phy " +:+ dec intel_phy +:+ LF) ;;;
  r <- createMonitorInterface env host fuel intel_phy
         (arguments_frequency host) (arguments_txPower host)
         (arguments_mac host) ;;
  match r with
  | OutOfFuel => wret OutOfFuel
  | Done _ =>
      logger ("Monitor interface created" +:+ LF) ;;;
      sleep_for 500 ;;;
      sleep_for 500 ;;;
      wret (Done tt)
  end.

End Init.

End MainController.

(** * Properties *)

(** ** Statement vocabulary *)

Module Spec.

Import Resolver.

(** [freq] lies in the segment of width [span] that starts at [s]. *)
Definition in_segment (s span freq : Z) : Prop := s <= freq < s + span.

(** No two distinct starts of [bw] have overlapping segments of width
    [span] (a check that computes). *)
Definition disjoint_starts (bw : list Z) (span : Z) : bool :=
  forallb (fun s =>
    forallb (fun t => (s =? t) || (s + span <=? t) || (t + span <=? s)) bw) bw.

(** Every start of [bw] plus [span] fits an [unsigned int]. *)
Definition starts_fit (bw : list Z) (span : Z) : bool :=
  forallb (fun s => (0 <=? s) && (s + span <? 2 ^ 31)) bw.

(** The label is the name of the entry up to letter case. *)
Definition matches (label : string) (e : ChanMode) : Prop :=
  lower (c_str label) = lower (name_of e).

(** In the table the modes of width 80, 160 and 320 have no offset, and
    no offset exceeds 10 MHz (a check that computes). *)
Definition offset_check (m : ChanMode) : bool :=
  (-10 <=? freq1_diff m) && (freq1_diff m <=? 10) &&
  (if (width m =? NL80211_CHAN_WIDTH_80) || (width m =? NL80211_CHAN_WIDTH_160)
      || (width m =? NL80211_CHAN_WIDTH_320)
   then freq1_diff m =? 0 else true).

(** A hex digit, in the sense of [hexval]. *)
Definition is_hex (c : ascii) : bool := 0 <=? Mac.hexval c.





(** *** The command engine *)

(** The code [error_handler] stores for a kernel error code. *)
Definition coerce (kerr : Z) : Z := if 0 <? kerr then - EPROTO else kerr.







(** The request of [cmd] is built and sent in state [s]: the three
    allocations succeed, the device attribute fits the buffer, the pre-send
    handler, if there is one, returns 0, and [nl_send_auto] does not
    fail. *)
Definition request_sent {P A : Type} (env : Env) (cmd : Netlink.Cmd P A)
    (s : State) : Prop :=
  let x := kernel env (w_calls s) in
  x_msg_alloc x = true /\ x_cb_alloc x = true /\ x_s_cb_alloc x = true /\
  (exists msg0,
     Netlink.put_device cmd
       (genlmsg_put (nlmsg_alloc (x_nm_size x)) (nl80211_id (nlstate s))
          (Netlink.nlFlags cmd) (Netlink.id cmd)) = Some msg0 /\
     fst (match Netlink.pre_execute_handler cmd with
          | Some h => h (nlstate s) msg0 (Netlink.pre_execute_handler_args cmd)
          | None => (0, msg0)
          end) = 0) /\
  0 <= x_send x.

(** The raw-message callback of an exchange: the valid handler of the
    command, or [nlValidHandler]. *)
Definition raw_handler {P A : Type} (cmd : Netlink.Cmd P A)
    : in_msg -> A -> option (Z * A * list string) :=
  match Netlink.valid_handler cmd with
  | Some h => h
  | None => Netlink.nlValidHandler
  end.

(** Messages that carry no signal and do not end their batch: data and
    no-op messages without the mark of an interrupted dump, on each of
    which the raw-message handler [h] returns [NL_OK] or [NL_SKIP].  The
    result is the caller's argument as [h] leaves it after the last of
    them, [None] when some message is of another kind. *)
Fixpoint let_through {A : Type}
    (h : in_msg -> A -> option (Z * A * list string)) (msgs : list in_msg)
    (a : A) : option A :=
  match msgs with
  | [] => Some a
  | m :: rest =>
      match m_type m, h m a with
      | (NLMSG_VALID | NLMSG_NOOP), Some (rc, a', _) =>
          if negb (m_dump_intr m) && ((rc =? NL_OK) || (rc =? NL_SKIP))
          then let_through h rest a'
          else None
      | _, _ => None
      end
  end.

(** Batches read to their end without a signal: all their messages are
    let through and libnl's result for each is not negative. *)
Fixpoint passed {A : Type}
    (h : in_msg -> A -> option (Z * A * list string)) (bs : list Batch)
    (a : A) : option A :=
  match bs with
  | [] => Some a
  | b :: rest =>
      if b_rc b <? 0 then None
      else match let_through h (b_msgs b) a with
           | Some a' => passed h rest a'
           | None => None
           end
  end.





(** *** The controller *)

(** The members of the controller, as opposed to the record of effects. *)
Definition members (s : State) :=
  (nlstate s, interfaces s, interfacesToRestore s, measureCsiThread s,
   injectPacketThread s).

(** A builder that holds an interface index. *)
Definition has_index (b : InterfaceInfoBuilder) : Prop :=
  _interfaceIndex b <> None.

(** The name [build] gives the record of a builder. *)
Definition built_name (b : InterfaceInfoBuilder) : string :=
  value_or (_interfaceName b) "Unnamed/non-netdev interface".

(** The legacy channel type [setFrequencyHandler] writes for a width, a
    control frequency and a centre frequency. *)
Definition type_by_width (w control_freq center_freq1 : Z)
    : list (nl80211_attr * nla_payload) :=
  if w =? NL80211_CHAN_WIDTH_20_NOHT then
    [(NL80211_ATTR_WIPHY_CHANNEL_TYPE, NLA_U32 (u32 NL80211_CHAN_NO_HT))]
  else if w =? NL80211_CHAN_WIDTH_20 then
    [(NL80211_ATTR_WIPHY_CHANNEL_TYPE, NLA_U32 (u32 NL80211_CHAN_HT20))]
  else if w =? NL80211_CHAN_WIDTH_40 then
    [(NL80211_ATTR_WIPHY_CHANNEL_TYPE,
      NLA_U32 (u32 (if center_freq1 <? control_freq
                    then NL80211_CHAN_HT40MINUS else NL80211_CHAN_HT40PLUS)))]
  else [].

(** The legacy channel type the table lists for a mode: none for -1. *)
Definition listed_type (m : ChanMode) : list (nl80211_attr * nla_payload) :=
  if chantype m =? -1 then []
  else [(NL80211_ATTR_WIPHY_CHANNEL_TYPE, NLA_U32 (chantype m))].

(** Every record of the directory is stored under its own name. *)
Definition keyed (m : gmap string InterfaceInfo) : Prop :=
  forall k i, m !! k = Some i -> ifName i = k.

(** The directory lost no entry between two states. *)
Definition keeps_entries (s s' : State) : Prop :=
  forall k, is_Some (interfaces s !! k) -> is_Some (interfaces s' !! k).

(** The messages sent up to [s0] are the first of those sent up to [s]. *)
Definition sent_from (s0 s : State) : Prop :=
  exists more, w_sent s = (w_sent s0 ++ more)%list.

(** An outcome other than the exception of [std::optional::value]. *)
Definition value_safe {A : Type} (r : Res A) : Prop :=
  r <> Throw bad_optional_access.

End Spec.
Import Spec.

(** ** Concrete surroundings used as instances *)

Module Examples.

Definition no_exchange : Exchange := mk_Exchange true true true 4096 28 [].

Definition s_boot : State :=
  mk_State (mk_nl80211_state None None 0) ∅ [] 0 0 0 [] [] [] [] [].

(** A host whose route socket cannot be connected. *)
Definition env_route_down : Env :=
  mk_Env (fun _ => 3) (fun _ => 1) 33 (fun _ => "refused") (fun _ => "error")
    false "mon0" (Some 1) 0 28 (Some 2) (-5) (fun _ => no_exchange)
    (fun _ => []).

(** Replies of the kernel. *)
Definition reply (t : nlmsg_type) (tb : attr_table) : in_msg :=
  mk_in_msg t false 0 tb.

Definition ack : in_msg :=
  reply (NLMSG_ERROR (mk_nlmsgerr 0 0 36 28 None None)) empty_table.

Definition done : in_msg := reply NLMSG_DONE empty_table.

Definition kernel_error (e : Z) : in_msg :=
  reply (NLMSG_ERROR (mk_nlmsgerr e 0 36 28 None None)) empty_table.

Definition reply_interface (name : string) (idx : Z) : in_msg :=
  reply NLMSG_VALID
    (mk_attr_table (Some name) (Some 2) (Some idx) (Some 0) (Some 1)
       (Some [0; 17; 34; 51; 68; 85]) (Some 2412) None (fun _ => 0)).

Definition reply_index_zero : in_msg :=
  reply NLMSG_VALID
    (mk_attr_table None None (Some 0) None None None None None (fun _ => 0)).

Definition reply_tx_power (mbm : Z) : in_msg :=
  reply NLMSG_VALID
    (mk_attr_table None None None None None None None (Some (u32 mbm))
       (fun _ => 0)).

Definition exchange (bs : list Batch) : Exchange :=
  mk_Exchange true true true 4096 28 bs.

Definition s_ready : State :=
  mk_State (mk_nl80211_state (Some 1) (Some 2) 28) ∅ [] 0 0 0 [] [] [] [] [].

Definition host (k : nat -> Exchange) : Env :=
  mk_Env (fun _ => 3) (fun _ => 1) 33 (fun _ => "refused") (fun _ => "error")
    false "mon0" (Some 1) 0 28 (Some 2) 0 k (fun _ => []).

(** The kernel acknowledges the power command, answers the interface
    query with wlan0 (index 3) and the power query with [mbm] hundredths
    of dBm. *)
Definition kernel_power (mbm : Z) (n : nat) : Exchange :=
  match n with
  | 0%nat => exchange [mk_Batch [ack] 0]
  | 1%nat => exchange [mk_Batch [reply_interface "wlan0" 3; ack] 0]
  | 2%nat => exchange [mk_Batch [reply_tx_power mbm] 0; mk_Batch [done] 0]
  | _ => no_exchange
  end.

(** The kernel acknowledges every command and reports nothing. *)
Definition kernel_silent (n : nat) : Exchange := exchange [mk_Batch [ack] 0].

(** The kernel refuses the first command with the code [e]. *)
Definition kernel_refusing (e : Z) (n : nat) : Exchange :=
  exchange [mk_Batch [kernel_error e] 0].

(** The kernel answers the first command with the record of wlan0. *)
Definition kernel_reporting (n : nat) : Exchange :=
  exchange [mk_Batch [reply_interface "wlan0" 3; ack] 0].

(** A record as a query would have stored it, and a directory holding it. *)
Definition wlan0_record (dbm : Z) : InterfaceInfo :=
  mk_InterfaceInfo "wlan0" 2 3 0 1 "00:11:22:33:44:55" "" 2412
    None None None None None dbm.

Definition s_known (dbm : Z) : State :=
  mk_State (mk_nl80211_state (Some 1) (Some 2) 28)
    (<["wlan0" := wlan0_record dbm]> ∅) [] 0 0 0 [] [] [] [] [].

(** The kernel answers the interface query with wlan0 (index 3) and the
    power query with 20 dBm. *)
Definition kernel_query (n : nat) : Exchange :=
  match n with
  | 0%nat => exchange [mk_Batch [reply_interface "wlan0" 3; ack] 0]
  | 1%nat => exchange [mk_Batch [reply_tx_power 2000] 0; mk_Batch [done] 0]
  | _ => no_exchange
  end.

(** A controller with one interface to restore, and a kernel that
    acknowledges the deletion and the creation and then reports wlan0. *)
Definition s_restoring : State :=
  mk_State (mk_nl80211_state (Some 1) (Some 2) 28)
    (<["mon0" := wlan0_record 20]> ∅) [wlan0_record 20] 7 0 0 [] [] [] [] [].

Definition kernel_restore (n : nat) : Exchange :=
  match n with
  | 0%nat | 1%nat => exchange [mk_Batch [ack] 0]
  | S (S n') => kernel_query n'
  end.

(** The command of [deleteInterface(3)], and a dump request without
    handlers. *)
Definition delete_cmd : Netlink.Cmd unit unit :=
  Netlink.mk_Cmd NL80211_CMD_DEL_INTERFACE CIB_NETDEV 0 3 None None tt tt.

Definition dump_cmd : Netlink.Cmd unit unit :=
  Netlink.mk_Cmd NL80211_CMD_GET_WIPHY CIB_NETDEV NLM_F_DUMP 3 None None tt tt.

(** The kernel answers every command like the power query above. *)
Definition kernel_query1 (n : nat) : Exchange := kernel_query 1.

(** The kernel refuses the first command with -EEXIST and answers the
    following ones like [kernel_query]. *)
Definition kernel_existing (n : nat) : Exchange :=
  match n with
  | 0%nat => kernel_refusing (-17) 0
  | S n' => kernel_query n'
  end.

(** A kernel whose exchanges offer a message buffer of 40 bytes. *)
Definition kernel_cramped (n : nat) : Exchange :=
  mk_Exchange true true true 40 28 [].

(** The builder the decoder makes of [reply_interface "wlan0" 3]. *)
Definition wlan0_builder : InterfaceInfoBuilder :=
  mk_InterfaceInfoBuilder (Some "wlan0") (Some 2) (Some 3) (Some 0) (Some 1)
    (Some "00:11:22:33:44:55") (Some 2412) None.



(** The host above with the directory visited in a given order of keys. *)
Definition host_visiting (order : list string) (k : nat -> Exchange) : Env :=
  mk_Env (fun _ => 3) (fun _ => 1) 33 (fun _ => "refused") (fun _ => "error")
    false "mon0" (Some 1) 0 28 (Some 2) 0 k (fun _ => order).

(** A second record of index 3, and a directory holding both. *)
Definition mon0_record (dbm : Z) : InterfaceInfo :=
  mk_InterfaceInfo "mon0" 6 3 0 2 "00:11:22:33:44:55" "" 2412
    None None None None None dbm.

Definition s_twins : State :=
  mk_State (mk_nl80211_state (Some 1) (Some 2) 28)
    (<["mon0" := mon0_record 17]> (<["wlan0" := wlan0_record 20]> ∅))
    [] 0 0 0 [] [] [] [] [].

(** A platform that finds every link (index 3, down), allocates, accepts
    every change and runs every command with success; and a world around
    the ready controller. *)
Definition platform : Host :=
  mk_Host (fun _ _ => (0, (3, 0))) (fun _ => true) (fun _ _ _ => 0)
    (fun _ _ => 0) "ap0" "20" 2412 20 [0; 17; 34; 51; 68; 85].

Definition w_ready : World :=
  mk_World s_ready 0 (fun _ => 0%nat) [] [] [] [] 0.

(** A world around the controller before [init]. *)
Definition w_boot : World :=
  mk_World s_boot 0 (fun _ => 0%nat) [] [] [] [] 0.


(** A record named wlp4s0 on phy 1, and a world whose directory holds it
    beside wlan0. *)
Definition wlp4s0_record : InterfaceInfo :=
  mk_InterfaceInfo "wlp4s0" 2 4 1 2 "00:11:22:33:44:66" "" 2412
    None None None None None 20.

Definition w_intel : World :=
  mk_World
    (mk_State (mk_nl80211_state (Some 1) (Some 2) 28)
       (<["wlp4s0" := wlp4s0_record]> (<["wlan0" := wlan0_record 20]> ∅))
       [] 0 0 0 [] [] [] [] [])
    0 (fun _ => 0%nat) [] [] [] [] 0.

End Examples.
Import Examples.

(** ** Machine integers *)

Section CIntFacts.

Lemma u32_small z : 0 <= z < 2 ^ 32 -> u32 z = z.
Proof. intros H. unfold u32. apply Z.mod_small. exact H. Qed.

Lemma u8_small z : 0 <= z < 256 -> u8 z = z.
Proof. intros H. unfold u8. apply Z.mod_small. exact H. Qed.

Lemma s32_exact z : - 2 ^ 31 <= z < 2 ^ 31 -> s32 z = z.
Proof.
  intros H. unfold s32. cbv zeta.
  destruct (Z.ltb_spec (z mod 2 ^ 32) (2 ^ 31)) as [Hlt | Hge];
    Z.div_mod_to_equations; lia.
Qed.

Lemma s32_u32 z : s32 (u32 z) = s32 z.
Proof. unfold s32, u32. rewrite Z.mod_mod by lia. reflexivity. Qed.

Lemma u32_u64 z : u32 (u64 z) = u32 z.
Proof.
  unfold u32, u64. apply Z.mod_mod_divide. exists (2 ^ 32). reflexivity.
Qed.

Lemma u64_add_u64 a d : u64 (a + u64 d) = u64 (a + d).
Proof. unfold u64. apply Zplus_mod_idemp_r. Qed.

(** The arithmetic of the default branch of [getCf1]: an [unsigned long]
    sum cut to [unsigned int] and returned as [int]. *)
Lemma default_branch_exact freq d :
  - 2 ^ 31 <= freq + d < 2 ^ 31 -> s32 (u32 (u64 (freq + u64 d))) = freq + d.
Proof.
  intros H. rewrite u64_add_u64, u32_u64, s32_u32. apply s32_exact. exact H.
Qed.

End CIntFacts.

(** ** The frequency tables *)

Section Segments.

Import Resolver.

Lemma seg_loop_range bw span freq j :
  (j <= seg_loop bw span freq j <= j + length bw)%nat.
Proof.
  revert j. induction bw as [| s rest IH]; intros j; simpl.
  - lia.
  - destruct ((s <=? freq) && (freq <? u32 (s + span))); [lia |].
    specialize (IH (S j)). lia.
Qed.

(** The loop runs off the end exactly when no entry's window holds [freq]. *)
Lemma seg_loop_miss bw span freq j :
  seg_loop bw span freq j = (j + length bw)%nat <->
  forall s, In s bw -> ~ (s <= freq < u32 (s + span)).
Proof.
  revert j. induction bw as [| s rest IH]; intros j; simpl.
  - split; [intros _ s [] | lia].
  - destruct ((s <=? freq) && (freq <? u32 (s + span))) eqn:E.
    + apply andb_true_iff in E. destruct E as [E1 E2].
      apply Z.leb_le in E1. apply Z.ltb_lt in E2.
      split; [lia | intros H; exfalso; apply (H s); [now left | lia]].
    + replace (j + S (length rest))%nat with (S j + length rest)%nat by lia.
      rewrite (IH (S j)).
      apply andb_false_iff in E.
      split.
      * intros H t [<- | Ht]; [| now apply H].
        destruct E as [E | E]; [apply Z.leb_gt in E | apply Z.ltb_ge in E]; lia.
      * intros H t Ht. apply H. now right.
Qed.

(** Where the loop stops, the entry's window holds [freq]. *)
Lemma seg_loop_hit bw span freq j :
  (seg_loop bw span freq j < j + length bw)%nat ->
  let s := nth (seg_loop bw span freq j - j) bw 0 in
  In s bw /\ s <= freq < u32 (s + span).
Proof.
  revert j. induction bw as [| s rest IH]; intros j; simpl.
  - lia.
  - destruct ((s <=? freq) && (freq <? u32 (s + span))) eqn:E.
    + intros _. replace (j - j)%nat with 0%nat by lia. simpl.
      apply andb_true_iff in E. destruct E as [E1 E2].
      apply Z.leb_le in E1. apply Z.ltb_lt in E2. split; [now left | lia].
    + intros H. pose proof (seg_loop_range rest span freq (S j)) as R.
      destruct (IH (S j)) as [I1 I2]; [lia |].
      replace (seg_loop rest span freq (S j) - j)%nat
        with (S (seg_loop rest span freq (S j) - S j))%nat by lia.
      simpl. split; [now right | exact I2].
Qed.

Lemma cf1_case_miss bw span off freq cf1 :
  (forall s, In s bw -> ~ (s <= freq < u32 (s + span))) ->
  cf1_case bw span off freq cf1 = cf1.
Proof.
  intros H. unfold cf1_case. apply (seg_loop_miss bw span freq 0) in H.
  simpl in H. rewrite H. rewrite Nat.eqb_refl. reflexivity.
Qed.

Lemma cf1_case_hit bw span off freq cf1 s0 :
  In s0 bw -> s0 <= freq < u32 (s0 + span) ->
  exists s, In s bw /\ s <= freq < u32 (s + span) /\
            cf1_case bw span off freq cf1 = u32 (s + off).
Proof.
  intros Hin Hseg. unfold cf1_case.
  pose proof (seg_loop_range bw span freq 0) as R.
  destruct (Nat.eqb_spec (seg_loop bw span freq 0) (length bw)) as [E | NE].
  - exfalso. apply (proj1 (seg_loop_miss bw span freq 0) E s0 Hin Hseg).
  - destruct (seg_loop_hit bw span freq 0) as [I1 I2]; [simpl; lia |].
    rewrite Nat.sub_0_r in I1, I2.
    exists (nth (seg_loop bw span freq 0) bw 0). auto.
Qed.

Lemma starts_fit_u32 bw span s k :
  starts_fit bw span = true -> In s bw -> 0 <= k <= span ->
  u32 (s + k) = s + k /\ 0 <= s < 2 ^ 31 - span.
Proof.
  unfold starts_fit. intros H Hin Hk. rewrite forallb_forall in H.
  specialize (H s Hin). apply andb_true_iff in H. destruct H as [H1 H2].
  apply Z.leb_le in H1. apply Z.ltb_lt in H2.
  split; [apply u32_small; lia | lia].
Qed.

Lemma disjoint_starts_same bw span s t freq :
  disjoint_starts bw span = true -> In s bw -> In t bw ->
  in_segment s span freq -> in_segment t span freq -> s = t.
Proof.
  unfold disjoint_starts, in_segment. intros H Hs Ht Fs Ft.
  rewrite forallb_forall in H. specialize (H s Hs).
  rewrite forallb_forall in H. specialize (H t Ht).
  apply orb_true_iff in H. destruct H as [H | H].
  - apply orb_true_iff in H. destruct H as [H | H].
    + now apply Z.eqb_eq in H.
    + apply Z.leb_le in H. lia.
  - apply Z.leb_le in H. lia.
Qed.

(** A table-driven case of [getCf1] on a table whose windows do not
    overlap: inside a window the result is its start plus the offset,
    outside all windows the value is left as it was. *)
Lemma cf1_case_table bw span off freq cf1 :
  starts_fit bw span = true -> disjoint_starts bw span = true ->
  0 <= off <= span ->
  (forall s, In s bw -> in_segment s span freq ->
             cf1_case bw span off freq cf1 = s + off) /\
  ((forall s, In s bw -> ~ in_segment s span freq) ->
   cf1_case bw span off freq cf1 = cf1).
Proof.
  intros Hfit Hdis Hoff. split.
  - intros s Hin Hseg.
    destruct (starts_fit_u32 bw span s span Hfit Hin) as [Es _]; [lia |].
    destruct (cf1_case_hit bw span off freq cf1 s Hin) as (t & Ht & Hw & ->).
    { rewrite Es. exact Hseg. }
    destruct (starts_fit_u32 bw span t span Hfit Ht) as [Et _]; [lia |].
    destruct (starts_fit_u32 bw span t off Hfit Ht) as [Eo _]; [lia |].
    rewrite Et in Hw.
    rewrite (disjoint_starts_same bw span s t freq Hdis Hin Ht Hseg Hw).
    exact Eo.
  - intros Hnone. apply cf1_case_miss. intros s Hin.
    destruct (starts_fit_u32 bw span s span Hfit Hin) as [Es _]; [lia |].
    rewrite Es. apply Hnone. exact Hin.
Qed.

End Segments.

(** ** [getChanMode] and [getCf1] *)

Section ResolverFacts.

Import Resolver.

Lemma getChanMode_loop_cases tbl w sel :
  getChanMode_loop tbl w sel = sel \/ In (getChanMode_loop tbl w sel) tbl.
Proof.
  induction tbl as [| e rest IH]; simpl.
  - now left.
  - destruct (strcasecmp (name_of e) w =? 0).
    + right. now left.
    + destruct IH as [IH | IH]; [now left | right; now right].
Qed.

(** A resolved mode is the zero mode or an entry of the table. *)
Lemma getChanMode_cases label :
  In (getChanMode label) (zeroChanMode :: chanMode).
Proof.
  unfold getChanMode.
  destruct (getChanMode_loop_cases chanMode label zeroChanMode) as [E | E].
  - rewrite E. now left.
  - now right.
Qed.

Lemma resolved_offset label :
  let m := getChanMode label in
  -10 <= freq1_diff m <= 10 /\
  (width m = NL80211_CHAN_WIDTH_80 \/ width m = NL80211_CHAN_WIDTH_160 \/
   width m = NL80211_CHAN_WIDTH_320 -> freq1_diff m = 0).
Proof.
  intros m.
  assert (H : forallb offset_check (zeroChanMode :: chanMode) = true)
    by reflexivity.
  rewrite forallb_forall in H. specialize (H m (getChanMode_cases label)).
  unfold offset_check in H.
  apply andb_true_iff in H. destruct H as [H H3].
  apply andb_true_iff in H. destruct H as [H1 H2].
  apply Z.leb_le in H1. apply Z.leb_le in H2. split; [lia |].
  intros W.
  destruct W as [W | [W | W]]; rewrite W in H3; simpl in H3;
    now apply Z.eqb_eq in H3.
Qed.

(** [getCf1] on any mode of a table-driven width. *)
Lemma getCf1_table (m : ChanMode) (freq : Z) bw span off :
  0 <= freq < 2 ^ 31 ->
  starts_fit bw span = true -> disjoint_starts bw span = true ->
  0 <= off <= span ->
  getCf1 m freq = s32 (cf1_case bw span off freq (u32 freq)) ->
  (forall s, In s bw -> in_segment s span freq -> getCf1 m freq = s + off) /\
  ((forall s, In s bw -> ~ in_segment s span freq) -> getCf1 m freq = freq).
Proof.
  intros Hf Hfit Hdis Hoff E. rewrite E.
  destruct (cf1_case_table bw span off freq (u32 freq) Hfit Hdis Hoff)
    as [Hhit Hmiss].
  split.
  - intros s Hin Hseg. rewrite (Hhit s Hin Hseg).
    destruct (starts_fit_u32 bw span s off Hfit Hin Hoff) as [_ B].
    apply s32_exact. lia.
  - intros Hnone. rewrite (Hmiss Hnone). rewrite s32_u32.
    apply s32_exact. lia.
Qed.

Lemma getCf1_80 m freq :
  width m = NL80211_CHAN_WIDTH_80 -> 0 <= freq < 2 ^ 31 ->
  (forall s, In s bw80 -> in_segment s 80 freq -> getCf1 m freq = s + 30) /\
  ((forall s, In s bw80 -> ~ in_segment s 80 freq) -> getCf1 m freq = freq).
Proof.
  intros W Hf. apply getCf1_table; try reflexivity; try lia.
  unfold getCf1. rewrite W. reflexivity.
Qed.

Lemma getCf1_160 m freq :
  width m = NL80211_CHAN_WIDTH_160 -> 0 <= freq < 2 ^ 31 ->
  (forall s, In s bw160 -> in_segment s 160 freq -> getCf1 m freq = s + 70) /\
  ((forall s, In s bw160 -> ~ in_segment s 160 freq) -> getCf1 m freq = freq).
Proof.
  intros W Hf. apply getCf1_table; try reflexivity; try lia.
  unfold getCf1. rewrite W. reflexivity.
Qed.

(** For 320 MHz the window tested is 160 MHz wide. *)
Lemma getCf1_320 m freq :
  width m = NL80211_CHAN_WIDTH_320 -> 0 <= freq < 2 ^ 31 ->
  (forall s, In s bw320 -> in_segment s 160 freq -> getCf1 m freq = s + 150) /\
  ((forall s, In s bw320 -> ~ in_segment s 160 freq) -> getCf1 m freq = freq).
Proof.
  intros W Hf. apply getCf1_table; try reflexivity; try lia.
  unfold getCf1. rewrite W. reflexivity.
Qed.

Lemma getCf1_other m freq :
  width m <> NL80211_CHAN_WIDTH_80 -> width m <> NL80211_CHAN_WIDTH_160 ->
  width m <> NL80211_CHAN_WIDTH_320 ->
  - 2 ^ 31 <= freq + freq1_diff m < 2 ^ 31 ->
  getCf1 m freq = freq + freq1_diff m.
Proof.
  intros W1 W2 W3 H. unfold getCf1. cbv zeta.
  destruct (Z.eqb_spec (width m) NL80211_CHAN_WIDTH_80); [contradiction |].
  destruct (Z.eqb_spec (width m) NL80211_CHAN_WIDTH_160); [contradiction |].
  destruct (Z.eqb_spec (width m) NL80211_CHAN_WIDTH_320); [contradiction |].
  apply default_branch_exact. exact H.
Qed.

End ResolverFacts.

(** C2, as stated, fails: 6950 MHz lies in the full-width 320 MHz segment
    that starts at the table entry 6755, yet [getCf1] on the resolved
    320 MHz mode returns 6950, which is no table entry plus 150. *)
Lemma getCf1_320_full_width_fails :
  Resolver.width (Resolver.getChanMode "320MHz") = NL80211_CHAN_WIDTH_320 /\
  In 6755 Resolver.bw320 /\ in_segment 6755 320 6950 /\
  Resolver.getCf1 (Resolver.getChanMode "320MHz") 6950 = 6950 /\
  (forall s, In s Resolver.bw320 ->
     Resolver.getCf1 (Resolver.getChanMode "320MHz") 6950 <> s + 150).
Proof.
  split; [reflexivity |]. split; [simpl; tauto |].
  split; [unfold in_segment; lia |]. split; [reflexivity |].
  intros s Hin.
  replace (Resolver.getCf1 (Resolver.getChanMode "320MHz") 6950) with 6950
    by reflexivity.
  simpl in Hin. lia.
Qed.

(** C2 (amended): on a resolved mode and a frequency an [int] holds,
    [getCf1] returns start + 30 inside an 80 MHz segment of the 20-entry
    table, start + 70 inside a 160 MHz segment of the 9-entry table, and
    start + 150 inside the 160 MHz window that opens a segment of the
    6-entry 320 MHz table; outside all of them, and for every other width,
    it returns freq + freq1_diff. *)
Theorem getCf1_resolved (label : string) (freq : Z) :
  0 <= freq < 2 ^ 31 - 10 ->
  (Resolver.width (Resolver.getChanMode label) = NL80211_CHAN_WIDTH_80 ->
   (forall s, In s Resolver.bw80 -> in_segment s 80 freq ->
      Resolver.getCf1 (Resolver.getChanMode label) freq = s + 30) /\
   ((forall s, In s Resolver.bw80 -> ~ in_segment s 80 freq) ->
      Resolver.getCf1 (Resolver.getChanMode label) freq
      = freq + Resolver.freq1_diff (Resolver.getChanMode label))) /\
  (Resolver.width (Resolver.getChanMode label) = NL80211_CHAN_WIDTH_160 ->
   (forall s, In s Resolver.bw160 -> in_segment s 160 freq ->
      Resolver.getCf1 (Resolver.getChanMode label) freq = s + 70) /\
   ((forall s, In s Resolver.bw160 -> ~ in_segment s 160 freq) ->
      Resolver.getCf1 (Resolver.getChanMode label) freq
      = freq + Resolver.freq1_diff (Resolver.getChanMode label))) /\
  (Resolver.width (Resolver.getChanMode label) = NL80211_CHAN_WIDTH_320 ->
   (forall s, In s Resolver.bw320 -> in_segment s 160 freq ->
      Resolver.getCf1 (Resolver.getChanMode label) freq = s + 150) /\
   ((forall s, In s Resolver.bw320 -> ~ in_segment s 160 freq) ->
      Resolver.getCf1 (Resolver.getChanMode label) freq
      = freq + Resolver.freq1_diff (Resolver.getChanMode label))) /\
  (Resolver.width (Resolver.getChanMode label) <> NL80211_CHAN_WIDTH_80 ->
   Resolver.width (Resolver.getChanMode label) <> NL80211_CHAN_WIDTH_160 ->
   Resolver.width (Resolver.getChanMode label) <> NL80211_CHAN_WIDTH_320 ->
   Resolver.getCf1 (Resolver.getChanMode label) freq
   = freq + Resolver.freq1_diff (Resolver.getChanMode label)) /\
  length Resolver.bw80 = 20%nat /\ length Resolver.bw160 = 9%nat /\
  length Resolver.bw320 = 6%nat.
Proof.
  intros Hf.
  destruct (resolved_offset label) as [Hd Hz].
  repeat split; try reflexivity.
  - intros s Hin Hseg. now apply (getCf1_80 _ freq H); [lia | |].
  - intros Hnone. rewrite (Hz (or_introl H)), Z.add_0_r.
    now apply (getCf1_80 _ freq H); [lia |].
  - intros s Hin Hseg. now apply (getCf1_160 _ freq H); [lia | |].
  - intros Hnone. rewrite (Hz (or_intror (or_introl H))), Z.add_0_r.
    now apply (getCf1_160 _ freq H); [lia |].
  - intros s Hin Hseg. now apply (getCf1_320 _ freq H); [lia | |].
  - intros Hnone. rewrite (Hz (or_intror (or_intror H))), Z.add_0_r.
    now apply (getCf1_320 _ freq H); [lia |].
  - intros W1 W2 W3. apply getCf1_other; auto. lia.
Qed.

(** The scenario of the specification: 5180 MHz with bandwidth "80". *)
Lemma getCf1_resolved_witness :
  Resolver.getCf1 (Resolver.getChanMode "80") 5180 = 5180 + 30.
Proof.
  refine (proj1 (proj1 (getCf1_resolved "80" 5180 _) _) 5180 _ _).
  - lia.
  - reflexivity.
  - simpl. tauto.
  - unfold in_segment. lia.
Defined.

(** ** [frequencyToChannel] *)

(** C5: the band-specific conversion, band by band. *)
Theorem frequencyToChannel_bands (freq : Z) :
  (freq < 1000 -> Resolver.frequencyToChannel freq = 0) /\
  (freq = 2484 -> Resolver.frequencyToChannel freq = 14) /\
  (freq = 5935 -> Resolver.frequencyToChannel freq = 2) /\
  (1000 <= freq < 2484 ->
     Resolver.frequencyToChannel freq = (freq - 2407) ÷ 5) /\
  (4910 <= freq <= 4980 ->
     Resolver.frequencyToChannel freq = (freq - 4000) ÷ 5) /\
  (2484 < freq < 5950 -> ~ (4910 <= freq <= 4980) -> freq <> 5935 ->
     Resolver.frequencyToChannel freq = (freq - 5000) ÷ 5) /\
  (5950 <= freq <= 45000 ->
     Resolver.frequencyToChannel freq = (freq - 5950) ÷ 5) /\
  (58320 <= freq <= 70200 ->
     Resolver.frequencyToChannel freq = (freq - 56160) ÷ 2160) /\
  (45000 < freq < 58320 \/ 70200 < freq ->
     Resolver.frequencyToChannel freq = 0).
Proof.
  unfold Resolver.frequencyToChannel.
  repeat split; intros;
    repeat match goal with
    | |- context [if ?a <? ?b then _ else _] => destruct (Z.ltb_spec a b)
    | |- context [if ?a =? ?b then _ else _] => destruct (Z.eqb_spec a b)
    | |- context [if ?a <=? ?b then _ else _] => destruct (Z.leb_spec a b)
    | |- context [(?a <=? ?b) && _] => destruct (Z.leb_spec a b); simpl
    end; try reflexivity; try lia.
Qed.

Lemma frequencyToChannel_bands_witness :
  Resolver.frequencyToChannel 2412 = 1 /\ Resolver.frequencyToChannel 5180 = 36 /\
  Resolver.frequencyToChannel 999 = 0.
Proof.
  pose proof (frequencyToChannel_bands 2412) as A.
  pose proof (frequencyToChannel_bands 5180) as B.
  pose proof (frequencyToChannel_bands 999) as C.
  split; [| split].
  - rewrite (proj1 (proj2 (proj2 (proj2 A)))); [reflexivity | lia].
  - rewrite (proj1 (proj2 (proj2 (proj2 (proj2 (proj2 B)))))); [reflexivity | lia | lia | lia].
  - apply (proj1 C). lia.
Defined.

(** ** C strings *)

Section CStringFacts.


Lemma code_inj a b : code a = code b -> a = b.
Proof.
  unfold code. intros H. apply N2Z.inj in H.
  rewrite <- (ascii_N_embedding a), <- (ascii_N_embedding b). now rewrite H.
Qed.

Lemma code_chr z : 0 <= z < 256 -> code (chr z) = z.
Proof.
  intros H. unfold code, chr. rewrite N_ascii_embedding by lia. lia.
Qed.

Lemma code_tolower c :
  code (tolower c) =
  if (65 <=? code c) && (code c <=? 90) then code c + 32 else code c.
Proof.
  unfold tolower.
  destruct (Z.leb_spec 65 (code c)); destruct (Z.leb_spec (code c) 90);
    simpl; try reflexivity.
  apply code_chr. lia.
Qed.

Lemma code_tolower_zero c : code (tolower c) = 0 <-> code c = 0.
Proof.
  rewrite code_tolower.
  destruct (Z.leb_spec 65 (code c)); destruct (Z.leb_spec (code c) 90);
    simpl; lia.
Qed.

Lemma head_char_zero s : head_char s = 0 <-> c_str s = EmptyString.
Proof.
  destruct s as [| c r]; simpl.
  - tauto.
  - rewrite code_tolower_zero.
    destruct (Z.eqb_spec (code c) 0); split; intros; try easy.
Qed.

(** [strcasecmp] returns 0 exactly on C strings equal up to letter case. *)
Lemma strcasecmp_eq0 s1 s2 :
  strcasecmp s1 s2 = 0 <-> lower (c_str s1) = lower (c_str s2).
Proof.
  revert s2. induction s1 as [| c1 r1 IH]; intros s2.
  - simpl. split.
    + intros H. assert (E : head_char s2 = 0) by lia.
      apply head_char_zero in E. now rewrite E.
    + intros H. destruct (c_str s2) eqn:E; [| discriminate].
      apply head_char_zero in E. lia.
  - simpl. destruct (Z.eqb_spec (code c1) 0) as [Z1 | NZ1].
    + simpl. split.
      * intros H. assert (E : head_char s2 = 0) by lia.
        apply head_char_zero in E. now rewrite E.
      * intros H. destruct (c_str s2) eqn:E; [| discriminate].
        apply head_char_zero in E. lia.
    + assert (NZ : code (tolower c1) <> 0) by now rewrite code_tolower_zero.
      destruct s2 as [| c2 r2].
      * simpl. split; [lia | discriminate].
      * destruct (Z.eqb_spec (code (tolower c1)) (code (tolower c2))) as [E | NE].
        -- assert (NZ2 : code c2 <> 0).
           { rewrite <- code_tolower_zero. lia. }
           simpl. destruct (Z.eqb_spec (code c2) 0); [contradiction |].
           simpl. rewrite IH. apply code_inj in E. rewrite E.
           split; [intros ->; reflexivity | intros H; now inversion H].
        -- split; [lia |].
           simpl. destruct (Z.eqb_spec (code c2) 0); [discriminate |].
           simpl. intros H. inversion H as [[H1 H2]]. now rewrite H1 in NE.
Qed.

End CStringFacts.

(** ** [getChanMode] *)

Section ChanModeFacts.

Import Resolver.

(** The loop returns the entry that compares equal when it is the only one. *)
Lemma getChanMode_loop_unique tbl w sel e :
  In e tbl -> strcasecmp (name_of e) w = 0 ->
  (forall e', In e' tbl -> strcasecmp (name_of e') w = 0 -> e' = e) ->
  getChanMode_loop tbl w sel = e.
Proof.
  induction tbl as [| x rest IH]; intros Hin Hz Huniq; [destruct Hin |].
  simpl. destruct (Z.eqb_spec (strcasecmp (name_of x) w) 0) as [E | NE].
  - apply Huniq; [now left | exact E].
  - destruct Hin as [-> | Hin]; [contradiction |].
    apply IH; auto. intros e' He'. apply Huniq. now right.
Qed.

Lemma getChanMode_loop_none tbl w sel :
  (forall e, In e tbl -> strcasecmp (name_of e) w <> 0) ->
  getChanMode_loop tbl w sel = sel.
Proof.
  induction tbl as [| x rest IH]; intros H; [reflexivity |].
  simpl. destruct (Z.eqb_spec (strcasecmp (name_of x) w) 0) as [E | NE].
  - exfalso. apply (H x); [now left | exact E].
  - apply IH. intros e He. apply H. now right.
Qed.

(** The names of the table hold no NUL and differ pairwise, letter case
    apart. *)
Lemma chanMode_names_plain e :
  In e chanMode -> c_str (name_of e) = name_of e.
Proof.
  intros H. simpl in H.
  repeat (destruct H as [<- | H]; [reflexivity |]). destruct H.
Qed.

Lemma chanMode_names_unique e e' :
  In e chanMode -> In e' chanMode ->
  lower (name_of e) = lower (name_of e') -> e = e'.
Proof.
  intros H H'. simpl in H, H'.
  repeat (destruct H as [<- | H];
          [repeat (destruct H' as [<- | H'];
                   [first [reflexivity | intros E; discriminate E] |]);
           destruct H' |]).
  destruct H.
Qed.

Lemma strcasecmp_matches label e :
  In e chanMode -> (strcasecmp (name_of e) label = 0 <-> matches label e).
Proof.
  intros H. rewrite strcasecmp_eq0, (chanMode_names_plain e H).
  unfold matches. split; intros E; now rewrite E.
Qed.

End ChanModeFacts.

(** C4: [getChanMode] is a function from every label to a mode: a label
    equal to the name of a table entry up to letter case yields that
    entry, a label matching no entry yields the zero mode, of width 0; the
    table holds the fourteen labels listed. *)
Theorem getChanMode_case_insensitive (label : string) :
  (forall e, In e Resolver.chanMode -> matches label e ->
     Resolver.getChanMode label = e) /\
  ((forall e, In e Resolver.chanMode -> ~ matches label e) ->
     Resolver.getChanMode label = Resolver.zeroChanMode /\
     Resolver.width (Resolver.getChanMode label) = 0) /\
  In (Resolver.getChanMode label) (Resolver.zeroChanMode :: Resolver.chanMode) /\
  map Resolver.name_of Resolver.chanMode =
    ["20"; "40"; "HT40-"; "NOHT"; "5MHz"; "10MHz"; "80"; "160"; "320MHz";
     "1MHz"; "2MHz"; "4MHz"; "8MHz"; "16MHz"]%string.
Proof.
  split; [| split; [| split]].
  - intros e Hin Hm. unfold Resolver.getChanMode.
    apply getChanMode_loop_unique; [exact Hin | | ].
    + now apply strcasecmp_matches.
    + intros e' Hin' Hz. apply strcasecmp_matches in Hz; [| exact Hin'].
      apply chanMode_names_unique; auto.
      unfold matches in *. congruence.
  - intros Hnone.
    assert (E : Resolver.getChanMode label = Resolver.zeroChanMode).
    { unfold Resolver.getChanMode. apply getChanMode_loop_none.
      intros e Hin Hz. apply (Hnone e Hin). now apply strcasecmp_matches. }
    rewrite E. split; reflexivity.
  - apply getChanMode_cases.
  - reflexivity.
Qed.

Lemma getChanMode_case_insensitive_witness :
  Resolver.getChanMode "ht40-" =
    Resolver.mkChanMode (Some "HT40-"%string) NL80211_CHAN_WIDTH_40 (-10)
      NL80211_CHAN_HT40MINUS /\
  Resolver.width (Resolver.getChanMode "45") = 0.
Proof.
  split.
  - apply (proj1 (getChanMode_case_insensitive "ht40-")).
    + simpl. tauto.
    + reflexivity.
  - apply (proj1 (proj2 (getChanMode_case_insensitive "45"))).
    intros e Hin. simpl in Hin.
    repeat (destruct Hin as [<- | Hin]; [intros E; discriminate E |]).
    destruct Hin.
Defined.

(** ** MAC addresses *)

Section MacFacts.

Import Mac.

Lemma nibble_cases n :
  0 <= n < 16 -> In n [0; 1; 2; 3; 4; 5; 6; 7; 8; 9; 10; 11; 12; 13; 14; 15].
Proof. intros H. simpl. lia. Qed.

Ltac nibble n H :=
  let C := fresh "C" in
  pose proof (nibble_cases n H) as C; simpl in C;
  repeat (destruct C as [C | C]; [subst n |]); [.. | destruct C].

Lemma hexval_hex_digit n : 0 <= n < 16 -> hexval (hex_digit n) = n.
Proof. intros H. nibble n H; reflexivity. Qed.

Lemma hex_digit_not_separator n :
  0 <= n < 16 -> is_separator (hex_digit n) = false.
Proof. intros H. nibble n H; reflexivity. Qed.

(** [(hi << 4) | v] on two nibbles. *)
Lemma nibbles_byte hi v :
  0 <= hi < 16 -> 0 <= v < 16 -> u8 (Z.lor (Z.shiftl hi 4) v) = 16 * hi + v.
Proof. intros Hh Hv. nibble hi Hh; nibble v Hv; reflexivity. Qed.


Lemma separator_not_hex c : is_separator c = true -> hexval c = -1.
Proof.
  unfold is_separator, hexval. cbv zeta. intros H.
  repeat (apply orb_true_iff in H; destruct H as [H | H]);
    apply Z.eqb_eq in H; rewrite H; reflexivity.
Qed.

Lemma is_hex_not_separator c : is_hex c = true -> is_separator c = false.
Proof.
  unfold is_hex. intros H. destruct (is_separator c) eqn:E; [| reflexivity].
  apply separator_not_hex in E. apply Z.leb_le in H. lia.
Qed.





(** Two digits written by [%02x] are read back as one byte. *)
Lemma mac_a2n_loop_pair b rest idx out :
  0 <= b < 256 -> (idx < 6)%nat ->
  mac_a2n_loop
    (String (hex_digit (u8 b / 16)) (String (hex_digit (u8 b mod 16)) rest))
    (-1) idx out =
  mac_a2n_loop rest (-1) (S idx) (<[idx := b]> out).
Proof.
  intros Hb Hi. rewrite (u8_small b) by lia.
  assert (H1 : 0 <= b / 16 < 16) by (Z.div_mod_to_equations; lia).
  assert (H2 : 0 <= b mod 16 < 16) by (Z.div_mod_to_equations; lia).
  cbn [mac_a2n_loop].
  rewrite !hex_digit_not_separator, !hexval_hex_digit by assumption.
  destruct (Z.ltb_spec (b / 16) 0) as [? | _]; [lia |].
  destruct (Z.ltb_spec (b mod 16) 0) as [? | _]; [lia |].
  change (-1 <? 0) with true. cbv iota.
  destruct (Nat.leb_spec ETH_ALEN idx) as [G | _];
    [unfold ETH_ALEN in G; lia |].
  rewrite nibbles_byte by assumption.
  replace (16 * (b / 16) + b mod 16) with b by (Z.div_mod_to_equations; lia).
  reflexivity.
Qed.

Lemma mac_a2n_loop_colon rest hi idx out :
  mac_a2n_loop (String ":" rest) hi idx out = mac_a2n_loop rest hi idx out.
Proof. reflexivity. Qed.

End MacFacts.



(** ** Session set-up *)

Section InitFacts.

Import Netlink.

Lemma nlInit_generic_ready env s g :
  nl_socket_alloc_gnl env = Some g -> genl_connect env = 0 ->
  0 <= genl_ctrl_resolve env ->
  nlInit env s =
    match nl_socket_alloc_rnl env with
    | None =>
        (Throw (ios_base_failure "Failed to allocate route socket."),
         set_nlstate (mk_nl80211_state (Some g) None (genl_ctrl_resolve env)) s)
    | Some r =>
        if nl_connect env <? 0 then
          (Ret (- ENOLINK),
           add_log ("Failed to connect to NETLINK_ROUTE: "
                    +:+ nl_geterror env (nl_connect env) +:+ LF)
             (set_nlstate (mk_nl80211_state None None (genl_ctrl_resolve env))
                (nl_socket_free (Some g) (nl_socket_free (Some r) s))))
        else
          (Ret 0,
           set_nlstate (mk_nl80211_state (Some g) (Some r)
                          (genl_ctrl_resolve env)) s)
    end.
Proof.
  intros Hg Hc Hr. unfold nlInit. rewrite Hg, Hc. cbn [Z.eqb negb].
  destruct (Z.ltb_spec (genl_ctrl_resolve env) 0) as [? | _]; [lia |].
  destruct (nl_socket_alloc_rnl env) as [r |]; [| reflexivity].
  destruct (nl_connect env <? 0); reflexivity.
Qed.

End InitFacts.

(** C3, as stated, fails: with the generic socket allocated (handle 1),
    connected and resolved (family 28), a route socket (handle 2) whose
    connect fails makes [nlInit] free handle 1 as well and reset
    [gnl_socket] to null. *)
Lemma nlInit_route_failure_frees_generic :
  nl_socket_alloc_gnl env_route_down = Some 1 /\
  genl_connect env_route_down = 0 /\
  genl_ctrl_resolve env_route_down = 28 /\
  nl_socket_alloc_rnl env_route_down = Some 2 /\
  nl_connect env_route_down < 0 /\
  gnl_socket (nlstate (snd (Netlink.nlInit env_route_down s_boot))) = None /\
  w_freed (snd (Netlink.nlInit env_route_down s_boot)) = [2; 1].
Proof. repeat split; reflexivity. Qed.

(** C3 (amended): once the generic socket is allocated, connected and
    resolved, a failing connect of the route socket makes [nlInit] return
    -ENOLINK after releasing the route socket and then the generic socket,
    both handles being reset to null and only the resolved [nl80211_id]
    kept; a failing allocation of the route socket throws, releases
    nothing and leaves [gnl_socket] and [nl80211_id] as they were set. *)
Theorem nlInit_route_failure (env : Env) (s : State) (g : Z) :
  nl_socket_alloc_gnl env = Some g -> genl_connect env = 0 ->
  0 <= genl_ctrl_resolve env ->
  (forall r, nl_socket_alloc_rnl env = Some r -> nl_connect env < 0 ->
     fst (Netlink.nlInit env s) = Ret (- ENOLINK) /\
     nlstate (snd (Netlink.nlInit env s))
       = mk_nl80211_state None None (genl_ctrl_resolve env) /\
     w_freed (snd (Netlink.nlInit env s)) = (w_freed s ++ [r; g])%list) /\
  (nl_socket_alloc_rnl env = None ->
     fst (Netlink.nlInit env s)
       = Throw (ios_base_failure "Failed to allocate route socket.") /\
     nlstate (snd (Netlink.nlInit env s))
       = mk_nl80211_state (Some g) None (genl_ctrl_resolve env) /\
     w_freed (snd (Netlink.nlInit env s)) = w_freed s).
Proof.
  intros Hg Hc Hr. rewrite (nlInit_generic_ready env s g Hg Hc Hr). split.
  - intros r Ha Hn. rewrite Ha.
    destruct (Z.ltb_spec (nl_connect env) 0) as [_ | ?]; [| lia].
    cbn. rewrite <- app_assoc. repeat split.
  - intros Ha. rewrite Ha. repeat split.
Qed.

Lemma nlInit_route_failure_witness :
  fst (Netlink.nlInit env_route_down s_boot) = Ret (- ENOLINK) /\
  nlstate (snd (Netlink.nlInit env_route_down s_boot))
    = mk_nl80211_state None None 28 /\
  w_freed (snd (Netlink.nlInit env_route_down s_boot)) = [2; 1].
Proof.
  refine (proj1 (nlInit_route_failure env_route_down s_boot 1 _ _ _) 2 _ _);
    first [reflexivity | cbn; lia].
Defined.

(** ** The command engine *)

Section EngineFacts.

Import Netlink.

Context {P A : Type}.
Variable env : Env.
Variable cmd : Cmd P A.

Lemma coerce_negative k : k <> 0 -> coerce k < 0.
Proof.
  intros H. unfold coerce, EPROTO. destruct (Z.ltb_spec 0 k); lia.
Qed.

(** [error_handler] stores the coerced code and ends the batch. *)
Lemma error_handler_stores e c :
  exists c', error_handler e (Some c) = (NL_STOP, Some c') /\
             err c' = coerce (error e).
Proof.
  unfold error_handler, coerce. cbv zeta.
  repeat match goal with
  | |- context [if ?b then _ else _] => destruct b
  end; eexists; split; reflexivity.
Qed.









Lemma after_loop_roles e st s :
  w_roles (snd (after_loop env cmd e st s)) = w_roles s.
Proof.
  unfold after_loop. destruct (err (rctx st) <? 0); [reflexivity |].
  destruct (e <? 0); reflexivity.
Qed.

Lemma after_loop_result e st s :
  fst (after_loop env cmd e st s) =
  Ret (if err (rctx st) <? 0 then err (rctx st)
       else if e <? 0 then e else 0, uarg st).
Proof.
  unfold after_loop. destruct (err (rctx st) <? 0); [reflexivity |].
  destruct (e <? 0); reflexivity.
Qed.




(** Once the status is no longer in progress the loop is left at once. *)
Lemma recv_loop_stopped (cb : nl_cb A) batches e st s :
  err (rctx st) <= 0 ->
  recv_loop env cb batches e st s = (Ret (e, st), add_roles (roles st) s).
Proof.
  intros H. destruct batches; cbn [recv_loop];
    destruct (Z.ltb_spec 0 (err (rctx st))); try lia; reflexivity.
Qed.

(** *** Kernel errors that reach the error callback *)

(** Messages that are let through leave the batch going, with the context
    as it was. *)
Lemma recvmsgs_let_through (cb : nl_cb A) h msgs rest tail a a' :
  cb_msg_in cb = Some h ->
  let_through h msgs a = Some a' ->
  forall st, uarg st = a ->
  exists st',
    recvmsgs env cb (msgs ++ rest) tail false st
      = recvmsgs env cb rest tail false st' /\
    rctx st' = rctx st /\ uarg st' = a'.
Proof.
  intros Hcb. revert a. induction msgs as [| m msgs IH]; intros a L st Ua.
  - injection L as <-. exists st. auto.
  - cbn [let_through] in L. cbn [app recvmsgs].
    unfold sees_intr, dispatch, call_msg_in. rewrite Hcb, Ua.
    destruct (m_type m) eqn:Ty; try discriminate L;
      destruct (h m a) as [[[rc a1] lines] |]; try discriminate L;
      destruct (m_dump_intr m); cbn [negb andb] in L; try discriminate L;
      destruct (Z.eqb_spec rc NL_OK) as [-> | N0]; cbn [orb] in L.
    all: try (destruct (Z.eqb_spec rc NL_SKIP) as [-> | N1];
              [| discriminate L]).
    all: cbn [NL_CB_CALL NL_OK NL_SKIP NL_STOP Z.eqb Pos.eqb orb];
      unfold by_type; rewrite ?Ty;
      match goal with
      | |- context [recvmsgs _ _ (_ ++ _) _ false ?st1] =>
          destruct (IH a1 L st1 eq_refl) as (st' & Er & Ec & Eu);
          exists st'; split; [exact Er | split; [exact Ec | exact Eu]]
      end.
Qed.

(** Batches that are passed leave the loop going. *)
Lemma recv_loop_passed (cb : nl_cb A) h pre more a a' :
  cb_msg_in cb = Some h ->
  passed h pre a = Some a' ->
  forall e st s, uarg st = a -> 0 < err (rctx st) ->
  exists e' st' s',
    recv_loop env cb (pre ++ more) e st s = recv_loop env cb more e' st' s' /\
    rctx st' = rctx st /\ uarg st' = a'.
Proof.
  intros Hcb. revert a. induction pre as [| b pre IH]; intros a Pa e st s Ua G.
  - injection Pa as <-. exists e, st, s. auto.
  - cbn [passed] in Pa.
    destruct (Z.ltb_spec (b_rc b) 0) as [? | Rc]; [discriminate Pa |].
    destruct (let_through h (b_msgs b) a) as [a1 |] eqn:L; [| discriminate Pa].
    destruct (recvmsgs_let_through cb h (b_msgs b) [] (b_rc b) a a1 Hcb L st Ua)
      as (st1 & Er & Ec & Eu).
    rewrite app_nil_r in Er. cbn [recvmsgs] in Er.
    cbn [app recv_loop].
    destruct (Z.ltb_spec 0 (err (rctx st))) as [_ | ?]; [| lia].
    unfold nl_recvmsgs. rewrite Er. unfold leave.
    destruct (Z.ltb_spec (if 0 <? b_rc b then 0 else b_rc b) 0) as [Neg | _].
    { destruct (Z.ltb_spec 0 (b_rc b)); lia. }
    match goal with
    | |- context [recv_loop _ _ (_ ++ _) ?e1 ?st2 ?s2] =>
        destruct (IH a1 Pa e1 st2 s2 Eu) as (e' & st' & s' & El & Ec' & Eu');
          [cbn [rctx]; rewrite Ec; exact G |];
        exists e', st', s'; split; [exact El |];
        split; [rewrite Ec'; exact Ec | exact Eu']
    end.
Qed.

(** A batch in which an error message is reached ends with the coerced
    code stored. *)
Lemma nl_recvmsgs_error (cb : nl_cb A) h b before m rest e a a1 a2 lines :
  cb_msg_in cb = Some h -> cb_err cb = Some error_handler ->
  b_msgs b = (before ++ m :: rest)%list ->
  let_through h before a = Some a1 ->
  m_type m = NLMSG_ERROR e -> error e <> 0 ->
  h m a1 = Some (NL_OK, a2, lines) ->
  forall st, uarg st = a ->
  exists rc st',
    nl_recvmsgs env cb b st = Some (rc, st') /\
    err (rctx st') = coerce (error e) /\ uarg st' = a2.
Proof.
  intros Hcb Herr Bm L Ty Ne Hm st Ua. unfold nl_recvmsgs. rewrite Bm.
  destruct (recvmsgs_let_through cb h before (m :: rest) (b_rc b) a a1 Hcb L
              st Ua) as (st1 & Er & Ec & Eu).
  rewrite Er. cbn [recvmsgs]. unfold sees_intr, dispatch, call_msg_in.
  rewrite Hcb, Eu, Hm. cbn [NL_CB_CALL NL_OK Z.eqb].
  unfold by_type. rewrite Ty, Herr.
  destruct (Z.eqb_spec (error e) 0) as [? | _]; [contradiction |].
  cbn [rctx].
  destruct (error_handler_stores e (rctx st1)) as (c' & Eh & Ee).
  rewrite Eh. cbn [NL_STOP Z.ltb Z.eqb Z.compare NL_SKIP Pos.compare
                   Pos.compare_cont Pos.eqb value_or].
  eexists. eexists. split; [reflexivity |]. cbn [rctx uarg]. auto.
Qed.

(** An error message that is reached decides the result of the call. *)
Lemma nlExecCommand_error_reached s pre b more before m rest e a1 a2 a3 lines :
  request_sent env cmd s ->
  x_batches (kernel env (w_calls s)) = (pre ++ b :: more)%list ->
  b_msgs b = (before ++ m :: rest)%list ->
  passed (raw_handler cmd) pre (valid_handler_args cmd) = Some a1 ->
  let_through (raw_handler cmd) before a1 = Some a2 ->
  m_type m = NLMSG_ERROR e -> error e <> 0 ->
  raw_handler cmd m a2 = Some (NL_OK, a3, lines) ->
  fst (nlExecCommand env cmd s) = Ret (coerce (error e), a3).
Proof.
  intros (H1 & H2 & H3 & (msg0 & Put & Pre) & Send) Bs Bm Pa L Ty Ne Hm.
  unfold nlExecCommand. rewrite H1, H2, H3. cbn [negb orb].
  change (nlstate (set_calls (S (w_calls s)) s)) with (nlstate s).
  rewrite Put.
  destruct (match pre_execute_handler cmd with
            | Some h => h (nlstate s) msg0 (pre_execute_handler_args cmd)
            | None => (0, msg0)
            end) as [e0 msg']. cbn [fst] in Pre. subst e0. cbn [Z.eqb negb].
  destruct (Z.ltb_spec (x_send (kernel env (w_calls s))) 0) as [? | _]; [lia |].
  rewrite Bs. unfold bind.
  assert (Hcb : cb_msg_in (make_cb cmd) = Some (raw_handler cmd)) by reflexivity.
  match goal with
  | |- context [recv_loop _ _ (_ ++ _ :: _) ?e0 ?st0 ?s0] =>
      destruct (recv_loop_passed (make_cb cmd) (raw_handler cmd) pre (b :: more)
                  _ a1 Hcb Pa e0 st0 s0 eq_refl)
        as (e1 & st1 & s1 & El & Ec & Eu); [cbn; lia |]; rewrite El
  end.
  cbn [recv_loop]. rewrite Ec. cbn [rctx err Z.ltb Z.compare].
  destruct (nl_recvmsgs_error (make_cb cmd) (raw_handler cmd) b before m rest
              e a1 a2 a3 lines Hcb eq_refl Bm L Ty Ne Hm st1 Eu)
    as (rc & st2 & En & Ee & Eu2).
  rewrite En.
  pose proof (coerce_negative (error e) Ne) as CN.
  destruct (rc <? 0).
  - cbn [fst snd]. rewrite after_loop_result. cbn [rctx uarg]. rewrite Ee, Eu2.
    destruct (Z.ltb_spec (coerce (error e)) 0); [reflexivity | lia].
  - rewrite recv_loop_stopped by (cbn [rctx]; lia).
    cbn [fst snd]. rewrite after_loop_result. cbn [rctx uarg]. rewrite Ee, Eu2.
    destruct (Z.ltb_spec (coerce (error e)) 0); [reflexivity | lia].
Qed.

(** X1: a kernel error message that opens the first batch and passes the
    raw callback makes the call return its code (-EPROTO for a positive
    one), provided the message could be built and sent. *)
Lemma nlExecCommand_first_error s e m rest tail more a lines :
  request_sent env cmd s ->
  x_batches (kernel env (w_calls s)) = mk_Batch (m :: rest) tail :: more ->
  m_type m = NLMSG_ERROR e -> error e <> 0 ->
  raw_handler cmd m (valid_handler_args cmd) = Some (NL_OK, a, lines) ->
  fst (nlExecCommand env cmd s) = Ret (coerce (error e), a).
Proof.
  intros Sent Bs Ty Ne Hm.
  apply (nlExecCommand_error_reached s [] (mk_Batch (m :: rest) tail) more []
           m rest e (valid_handler_args cmd) (valid_handler_args cmd) a lines);
    try assumption; reflexivity.
Qed.

(** *** The roles and the messages behind them *)








End EngineFacts.




(** ** What a command leaves untouched *)

Section Frame.

Import Netlink.

Context {P A : Type}.
Variable env : Env.

Lemma recv_loop_frame (cb : nl_cb A) batches e st s :
  members (snd (recv_loop env cb batches e st s)) = members s /\
  w_sent (snd (recv_loop env cb batches e st s)) = w_sent s.
Proof.
  revert e st s. induction batches as [| b rest IH]; intros e st s;
    cbn [recv_loop].
  - destruct (0 <? err (rctx st)); split; reflexivity.
  - destruct (0 <? err (rctx st)); [| split; reflexivity].
    destruct (nl_recvmsgs env cb b st) as [[rc st1] |]; [| split; reflexivity].
    destruct (rc <? 0); [split; reflexivity |].
    destruct (IH rc (mk_rx (rctx st1) (uarg st1) [] (roles st1))
                (add_logs (rx_log st1) s)) as [I1 I2].
    split; [rewrite I1 | rewrite I2]; reflexivity.
Qed.

Lemma after_loop_frame (cmd : Cmd P A) e st s :
  members (snd (after_loop env cmd e st s)) = members s /\
  w_sent (snd (after_loop env cmd e st s)) = w_sent s.
Proof.
  unfold after_loop. destruct (err (rctx st) <? 0); [split; reflexivity |].
  destruct (e <? 0); split; reflexivity.
Qed.

Lemma bind_snd_frame {X Y B : Type} (f : State -> B) (c : M X) (k : X -> M Y) s :
  f (snd (c s)) = f s -> (forall x s1, f (snd (k x s1)) = f s1) ->
  f (snd (bind c k s)) = f s.
Proof.
  intros Hc Hk. unfold bind. destruct (c s) as [[x | ex | |] s1]; cbn in *;
    try exact Hc.
  rewrite Hk. exact Hc.
Qed.

(** [nlExecCommand] changes no member of the controller: not the session,
    not the directory. *)
Lemma nlExecCommand_members (cmd : Cmd P A) s :
  members (snd (nlExecCommand env cmd s)) = members s.
Proof.
  unfold nlExecCommand.
  destruct (x_msg_alloc _); cbn [negb]; [| reflexivity].
  destruct (x_cb_alloc _); cbn [negb orb]; [| reflexivity].
  destruct (x_s_cb_alloc _); cbn [negb orb]; [| reflexivity].
  destruct (put_device cmd _) as [msg |]; [| reflexivity].
  destruct (match pre_execute_handler cmd with
            | Some h => h _ msg (pre_execute_handler_args cmd)
            | None => (0, msg)
            end) as [e0 msg'].
  destruct (e0 =? 0); cbn [negb]; [| reflexivity].
  destruct (x_send _ <? 0); [reflexivity |].
  rewrite (bind_snd_frame members).
  - reflexivity.
  - apply recv_loop_frame.
  - intros x s1. apply after_loop_frame.
Qed.

Lemma nlExecCommand_interfaces (cmd : Cmd P A) s :
  interfaces (snd (nlExecCommand env cmd s)) = interfaces s.
Proof.
  pose proof (nlExecCommand_members cmd s) as H. unfold members in H.
  now injection H.
Qed.

(** A command that returns has sent the message it built: the header, the
    device attribute, then what the pre-send handler appended. *)
Lemma nlExecCommand_sent (cmd : Cmd P A) s r s1 :
  nlExecCommand env cmd s = (Ret r, s1) ->
  exists msg0 msg,
    put_device cmd
      (genlmsg_put (nlmsg_alloc (x_nm_size (kernel env (w_calls s))))
         (nl80211_id (nlstate s)) (nlFlags cmd) (id cmd)) = Some msg0 /\
    match pre_execute_handler cmd with
    | Some h => h (nlstate s) msg0 (pre_execute_handler_args cmd)
    | None => (0, msg0)
    end = (0, msg) /\
    w_sent s1 = (w_sent s ++ [msg])%list.
Proof.
  unfold nlExecCommand.
  destruct (x_msg_alloc _); cbn [negb]; [| discriminate].
  destruct (x_cb_alloc _); cbn [negb orb]; [| discriminate].
  destruct (x_s_cb_alloc _); cbn [negb orb]; [| discriminate].
  change (nlstate (set_calls (S (w_calls s)) s)) with (nlstate s).
  destruct (put_device cmd _) as [msg0 |] eqn:Put; [| discriminate].
  destruct (match pre_execute_handler cmd with
            | Some h => h _ msg0 (pre_execute_handler_args cmd)
            | None => (0, msg0)
            end) as [e0 msg'] eqn:Pre.
  destruct (Z.eqb_spec e0 0) as [-> | ?]; cbn [negb]; [| discriminate].
  destruct (x_send _ <? 0); [discriminate |].
  intros E. exists msg0, msg'.
  split; [first [exact Put | reflexivity] |].
  split; [first [exact Pre | reflexivity] |].
  assert (W : w_sent (snd (bind
              (recv_loop env (make_cb cmd)
                 (x_batches (kernel env (w_calls s)))
                 (x_send (kernel env (w_calls s)))
                 (mk_rx (mk_RxCtx 1 EmptyString) (valid_handler_args cmd) [] []))
              (fun r0 => after_loop env cmd (fst r0) (snd r0))
              (add_sent msg' (set_calls (S (w_calls s)) s))))
            = w_sent (add_sent msg' (set_calls (S (w_calls s)) s))).
  { apply (bind_snd_frame w_sent).
    - apply recv_loop_frame.
    - intros x s2. apply after_loop_frame. }
  rewrite E in W. exact W.
Qed.

End Frame.

(** ** The decoder of interface replies *)

Section DecoderFacts.

Import WiFIController.

Lemma u32_idem z : u32 (u32 z) = u32 z.
Proof. unfold u32. apply Z.mod_mod. lia. Qed.

(** The handler on a vector that exists: one builder more when the reply
    parses and carries an index, the vector as it was otherwise. *)
Lemma getInterfaceInfoHandler_cases msg l :
  getInterfaceInfoHandler msg (Some l) =
  if m_parse_rc msg <? 0
  then Some (m_parse_rc msg, Some l, [parse_failure (m_parse_rc msg)])
  else
    match tb_IFINDEX (m_attrs msg) with
    | Some v =>
        Some (NL_OK,
              Some (l ++ [set_interfaceIndex (u32 v)
                            (fst (decode_interface (m_attrs msg)))])%list,
              snd (decode_interface (m_attrs msg)))
    | None => Some (NL_OK, Some l, snd (decode_interface (m_attrs msg)))
    end.
Proof.
  unfold getInterfaceInfoHandler. cbv zeta.
  destruct (m_parse_rc msg <? 0); [reflexivity |].
  destruct (decode_interface (m_attrs msg)) as [b lines].
  destruct (tb_IFINDEX (m_attrs msg)); reflexivity.
Qed.

End DecoderFacts.

(** C8, as stated, fails: a reply that carries the index attribute with
    the value 0 is appended to the collection, and the record finalized
    from its builder has interface index 0 although the reply supplied an
    index attribute. *)
Lemma getInterfaceInfoHandler_index_zero :
  tb_IFINDEX (m_attrs reply_index_zero) = Some 0 /\
  exists b info,
    WiFIController.getInterfaceInfoHandler reply_index_zero (Some [])
      = Some (NL_OK, Some [b], []) /\
    build b = Some info /\ ifIndex info = 0.
Proof.
  split; [reflexivity |]. eexists. eexists.
  split; [reflexivity |]. split; reflexivity.
Qed.

(** C8 (amended): on a reply whose attributes parse, the decoder appends
    one builder exactly when the reply carries an index attribute, and the
    builder holds that index, so that no builder of the collection lacks
    an index; the record finalized from it has the attribute's value as
    its index, hence index 0 only when the attribute carries 0; a reply
    without the attribute, or one that does not parse, appends nothing. *)
Theorem getInterfaceInfoHandler_index (msg : in_msg)
    (l : list InterfaceInfoBuilder) :
  (0 <= m_parse_rc msg ->
   (forall v, tb_IFINDEX (m_attrs msg) = Some v ->
      exists b lines,
        WiFIController.getInterfaceInfoHandler msg (Some l)
          = Some (NL_OK, Some (l ++ [b])%list, lines) /\
        _interfaceIndex b = Some (u32 v) /\
        (forall info, build b = Some info ->
           ifIndex info = u32 v /\ (ifIndex info = 0 -> u32 v = 0))) /\
   (tb_IFINDEX (m_attrs msg) = None ->
      exists lines,
        WiFIController.getInterfaceInfoHandler msg (Some l)
          = Some (NL_OK, Some l, lines))) /\
  (m_parse_rc msg < 0 ->
   exists lines,
     WiFIController.getInterfaceInfoHandler msg (Some l)
       = Some (m_parse_rc msg, Some l, lines)) /\
  (forall rc l' lines,
     WiFIController.getInterfaceInfoHandler msg (Some l)
       = Some (rc, Some l', lines) ->
     Forall has_index l -> Forall has_index l').
Proof.
  rewrite getInterfaceInfoHandler_cases.
  split; [| split].
  - intros Hp. destruct (Z.ltb_spec (m_parse_rc msg) 0) as [? | _]; [lia |].
    split.
    + intros v Hv. rewrite Hv. eexists. eexists. split; [reflexivity |].
      split.
      * cbn [_interfaceIndex set_interfaceIndex]. now rewrite u32_idem.
      * intros info [= <-].
        cbn [ifIndex build value_or _interfaceIndex set_interfaceIndex].
        rewrite u32_idem. tauto.
    + intros Hn. rewrite Hn. eexists. reflexivity.
  - intros Hn. destruct (Z.ltb_spec (m_parse_rc msg) 0) as [_ | ?]; [| lia].
    eexists. reflexivity.
  - intros rc l' lines. destruct (m_parse_rc msg <? 0).
    + intros [= _ <- _] F. exact F.
    + destruct (tb_IFINDEX (m_attrs msg)) as [v |].
      * intros [= _ <- _] F. apply Forall_app. split; [exact F |].
        constructor; [discriminate | constructor].
      * intros [= _ <- _] F. exact F.
Qed.

Lemma getInterfaceInfoHandler_index_witness :
  exists b lines,
    WiFIController.getInterfaceInfoHandler (reply_interface "wlan0" 3) (Some [])
      = Some (NL_OK, Some [b], lines) /\
    _interfaceIndex b = Some 3.
Proof.
  destruct (proj1 (proj1 (getInterfaceInfoHandler_index
                            (reply_interface "wlan0" 3) [])
                     ltac:(cbn; lia)) 3 eq_refl)
    as (b & lines & E & I & _).
  exists b, lines. split; [exact E | exact I].
Defined.

(** ** Setting the transmit power *)

Section TxPowerFacts.

Import Netlink WiFIController.

Variable env : Env.

(** A [bind] that returns went through both of its halves. *)
Lemma bind_ret {X Y : Type} (c : M X) (k : X -> M Y) s y s' :
  bind c k s = (Ret y, s') ->
  exists x s1, c s = (Ret x, s1) /\ k x s1 = (Ret y, s').
Proof.
  unfold bind. destruct (c s) as [[x | ex | |] s1]; try discriminate.
  intros E. exists x, s1. split; [reflexivity | exact E].
Qed.

Lemma nla_put_some msg attr p msg' :
  nla_put msg attr p = Some msg' ->
  nm_attrs msg' = (nm_attrs msg ++ [(attr, p)])%list /\
  nm_cmd msg' = nm_cmd msg /\ nm_family msg' = nm_family msg /\
  nm_flags msg' = nm_flags msg.
Proof.
  unfold nla_put. destruct (nm_size msg <? _); [discriminate |].
  intros [= <-]. repeat split.
Qed.

(** When [setTxPowerHandler] reports success it has appended the fixed
    setting and the level in hundredths of dBm. *)
Lemma setTxPowerHandler_ok state msg p msg' :
  - 2 ^ 31 <= p * 100 < 2 ^ 31 ->
  setTxPowerHandler state msg p = (0, msg') ->
  nm_attrs msg' =
    (nm_attrs msg ++
     [(NL80211_ATTR_WIPHY_TX_POWER_SETTING, NLA_S32 NL80211_TX_POWER_FIXED);
      (NL80211_ATTR_WIPHY_TX_POWER_LEVEL, NLA_S32 (p * 100))])%list /\
  nm_cmd msg' = nm_cmd msg.
Proof.
  intros Hp. unfold setTxPowerHandler. cbv zeta. rewrite (s32_exact _ Hp).
  destruct (nla_put msg _ _) as [msg1 |] eqn:E1; [| discriminate].
  destruct (nla_put msg1 _ _) as [msg2 |] eqn:E2; [| discriminate].
  intros [= <-].
  apply nla_put_some in E1. apply nla_put_some in E2.
  destruct E1 as (A1 & C1 & _). destruct E2 as (A2 & C2 & _).
  rewrite A2, A1, C2, C1, <- app_assoc. split; reflexivity.
Qed.

(** The message a returning [SET_WIPHY] power command has sent. *)
Lemma set_tx_power_sent dev p s r s1 :
  - 2 ^ 31 <= p * 100 < 2 ^ 31 ->
  nlExecCommand env (set_tx_power_cmd dev p) s = (Ret r, s1) ->
  exists msg,
    w_sent s1 = (w_sent s ++ [msg])%list /\
    nm_cmd msg = NL80211_CMD_SET_WIPHY /\
    nm_attrs msg =
      [(NL80211_ATTR_IFINDEX, NLA_U32 (u32 dev));
       (NL80211_ATTR_WIPHY_TX_POWER_SETTING, NLA_S32 NL80211_TX_POWER_FIXED);
       (NL80211_ATTR_WIPHY_TX_POWER_LEVEL, NLA_S32 (p * 100))].
Proof.
  intros Hp E. apply nlExecCommand_sent in E.
  destruct E as (msg0 & msg & Put & Pre & Sent).
  exists msg. split; [exact Sent |].
  cbn in Put. apply nla_put_some in Put. destruct Put as (A0 & C0 & _).
  cbn in Pre. apply (setTxPowerHandler_ok _ _ _ _ Hp) in Pre.
  destruct Pre as (A1 & C1). rewrite A1, A0, C1, C0. split; reflexivity.
Qed.

End TxPowerFacts.

(** C7: for a power [p] whose hundredfold fits [int32_t], whenever
    [setInterfaceTxPower(name, p)] returns, the [SET_WIPHY] exchange was
    issued with the interface index, the fixed-power setting and the level
    [p * 100], the interface was queried again, and the result is 0
    exactly when that query yields a record whose [txdBm] is [p], and -1
    otherwise, whatever code the kernel answered the command with. *)
Theorem setInterfaceTxPower_verifies (env : Env) (name : string) (p : Z)
    (s s' : State) (r : Z) :
  - 21474836 <= p <= 21474836 ->
  WiFIController.setInterfaceTxPower env name p s = (Ret r, s') ->
  exists (rc : Z) (s1 : State) (q : option InterfaceInfo) (msg : nl_msg),
    Netlink.nlExecCommand env
      (WiFIController.set_tx_power_cmd (if_nametoindex env (c_str name)) p) s
      = (Ret (rc, tt), s1) /\
    w_sent s1 = (w_sent s ++ [msg])%list /\
    nm_cmd msg = NL80211_CMD_SET_WIPHY /\
    nm_attrs msg =
      [(NL80211_ATTR_IFINDEX, NLA_U32 (u32 (if_nametoindex env (c_str name))));
       (NL80211_ATTR_WIPHY_TX_POWER_SETTING, NLA_S32 NL80211_TX_POWER_FIXED);
       (NL80211_ATTR_WIPHY_TX_POWER_LEVEL, NLA_S32 (p * 100))] /\
    WiFIController.getInterfaceInfo env name s1 = (Ret q, s') /\
    (r = 0 <-> exists info, q = Some info /\ txdBm info = p) /\
    (r <> 0 -> r = -1).
Proof.
  intros Hp E. unfold WiFIController.setInterfaceTxPower in E.
  apply bind_ret in E. destruct E as ([rc []] & s1 & E1 & E).
  apply bind_ret in E. destruct E as (q & s2 & E2 & E).
  assert (Hr : - 2 ^ 31 <= p * 100 < 2 ^ 31) by lia.
  destruct (set_tx_power_sent env _ p s _ s1 Hr E1) as (msg & Sent & Cm & At).
  exists rc, s1, q, msg.
  assert (S2 : s2 = s') by (destruct q; now injection E).
  subst s2. repeat (split; [assumption |]).
  destruct q as [info |]; cbn in E; injection E as <-.
  - destruct (Z.eqb_spec p (txdBm info)) as [Eq | Ne].
    + split; [| tauto]. split; [intros _; exists info; auto | reflexivity].
    + split; [| reflexivity]. split; [discriminate |].
      intros (i & [= <-] & Ep). congruence.
  - split; [| reflexivity]. split; [discriminate |].
    intros (i & D & _). discriminate D.
Qed.

(** The scenario of the specification: -5 dBm is sent as -500 and the
    call returns 0 when the interface then reports -5 dBm. *)
Lemma setInterfaceTxPower_verifies_witness :
  exists (rc : Z) (s1 : State) (q : option InterfaceInfo) (msg : nl_msg),
    Netlink.nlExecCommand (host (kernel_power (-500)))
      (WiFIController.set_tx_power_cmd 3 (-5)) s_ready = (Ret (rc, tt), s1) /\
    w_sent s1 = [msg] /\
    nm_cmd msg = NL80211_CMD_SET_WIPHY /\
    nm_attrs msg =
      [(NL80211_ATTR_IFINDEX, NLA_U32 3);
       (NL80211_ATTR_WIPHY_TX_POWER_SETTING, NLA_S32 NL80211_TX_POWER_FIXED);
       (NL80211_ATTR_WIPHY_TX_POWER_LEVEL, NLA_S32 (-500))] /\
    WiFIController.getInterfaceInfo (host (kernel_power (-500))) "wlan0" s1
      = (Ret q,
         snd (WiFIController.setInterfaceTxPower (host (kernel_power (-500)))
                "wlan0" (-5) s_ready)) /\
    (0 = 0 <-> exists info, q = Some info /\ txdBm info = -5) /\
    (0 <> 0 -> 0 = -1).
Proof.
  apply (setInterfaceTxPower_verifies (host (kernel_power (-500))) "wlan0"
           (-5) s_ready).
  - lia.
  - vm_compute. reflexivity.
Defined.

(** Outside that range the product [power_dbm * 100] does not fit the
    [int32_t] it is stored in: for 21474837 dBm the level sent is
    -2147483596, not 2147483700. *)
Lemma setInterfaceTxPower_level_wraps :
  exists msg more,
    fst (WiFIController.setInterfaceTxPower (host (kernel_power 2000))
           "wlan0" 21474837 s_ready) = Ret (-1) /\
    w_sent (snd (WiFIController.setInterfaceTxPower (host (kernel_power 2000))
                   "wlan0" 21474837 s_ready)) = msg :: more /\
    nm_cmd msg = NL80211_CMD_SET_WIPHY /\
    nm_attrs msg =
      [(NL80211_ATTR_IFINDEX, NLA_U32 3);
       (NL80211_ATTR_WIPHY_TX_POWER_SETTING, NLA_S32 NL80211_TX_POWER_FIXED);
       (NL80211_ATTR_WIPHY_TX_POWER_LEVEL, NLA_S32 (-2147483596))] /\
    NLA_S32 (-2147483596) <> NLA_S32 (21474837 * 100).
Proof.
  eexists. eexists. split; [vm_compute; reflexivity |].
  split; [vm_compute; reflexivity |].
  split; [reflexivity |]. split; [reflexivity | discriminate].
Qed.

(** The kernel acknowledges the command, yet the interface reports another
    power: the call fails. *)
Lemma setInterfaceTxPower_mismatch :
  fst (Netlink.nlExecCommand (host (kernel_power 2000))
         (WiFIController.set_tx_power_cmd 3 (-5)) s_ready) = Ret (0, tt) /\
  fst (WiFIController.setInterfaceTxPower (host (kernel_power 2000))
         "wlan0" (-5) s_ready) = Ret (-1).
Proof. split; vm_compute; reflexivity. Qed.

(** No record at the second query: the call fails as well. *)
Lemma setInterfaceTxPower_no_record :
  fst (WiFIController.setInterfaceTxPower (host kernel_silent)
         "wlan0" (-5) s_ready) = Ret (-1).
Proof. vm_compute. reflexivity. Qed.

(** ** The index overloads *)

Section ByIndexFacts.

Import Netlink WiFIController.

Variable env : Env.

(** [getInterfaceInfo(uint32_t)] writes nothing into the directory. *)
Lemma getInterfaceInfo_byIndex_interfaces idx s :
  interfaces (snd (getInterfaceInfo_byIndex env idx s)) = interfaces s.
Proof.
  unfold getInterfaceInfo_byIndex.
  apply (bind_snd_frame interfaces).
  - apply nlExecCommand_interfaces.
  - intros x s1. reflexivity.
Qed.

End ByIndexFacts.

(** C10: in [setInterfaceTxPower(uint32_t, int32_t)], once the command has
    run and the second query has returned, a record makes the call return
    0 if its [txdBm] is the requested power and -1 if not, and no record
    makes it leave by the exception of [std::optional::value], which the
    function does not catch; both happen. *)
Theorem setInterfaceTxPower_byIndex_unchecked (env : Env) (idx p : Z)
    (s s1 s2 : State) (rc : Z) (q : option InterfaceInfo) :
  Netlink.nlExecCommand env (WiFIController.set_tx_power_cmd idx p) s
    = (Ret (rc, tt), s1) ->
  WiFIController.getInterfaceInfo_byIndex env idx s1 = (Ret q, s2) ->
  (forall info, q = Some info ->
     WiFIController.setInterfaceTxPower_byIndex env idx p s
       = (Ret (if p =? txdBm info then 0 else -1), s2) /\
     (txdBm info = p ->
        WiFIController.setInterfaceTxPower_byIndex env idx p s = (Ret 0, s2)) /\
     (txdBm info <> p ->
        WiFIController.setInterfaceTxPower_byIndex env idx p s
          = (Ret (-1), s2))) /\
  (q = None ->
     WiFIController.setInterfaceTxPower_byIndex env idx p s
       = (Throw bad_optional_access, s2)).
Proof.
  intros E1 E2. unfold WiFIController.setInterfaceTxPower_byIndex, bind.
  rewrite E1, E2. split.
  - intros info ->. cbn. split; [reflexivity |].
    split; intros H.
    + destruct (Z.eqb_spec p (txdBm info)); [reflexivity | congruence].
    + destruct (Z.eqb_spec p (txdBm info)); [congruence | reflexivity].
  - intros ->. reflexivity.
Qed.

(** The interface is unknown when the second query runs: the exception
    leaves the function. *)
Lemma setInterfaceTxPower_byIndex_unchecked_witness :
  fst (WiFIController.setInterfaceTxPower_byIndex (host kernel_silent) 3 20
         s_ready) = Throw bad_optional_access /\
  fst (WiFIController.setInterfaceTxPower_byIndex (host kernel_silent) 3 20
         (s_known 20)) = Ret 0 /\
  fst (WiFIController.setInterfaceTxPower_byIndex (host kernel_silent) 3 20
         (s_known 17)) = Ret (-1).
Proof.
  split; [| split].
  - rewrite (proj2 (setInterfaceTxPower_byIndex_unchecked (host kernel_silent)
                      3 20 s_ready _ _ 0 None
                      ltac:(vm_compute; reflexivity)
                      ltac:(vm_compute; reflexivity)) eq_refl).
    reflexivity.
  - rewrite (proj1 (proj2 (proj1 (setInterfaceTxPower_byIndex_unchecked
                      (host kernel_silent) 3 20 (s_known 20) _ _ 0
                      (Some (wlan0_record 20))
                      ltac:(vm_compute; reflexivity)
                      ltac:(vm_compute; reflexivity)) _ eq_refl)) eq_refl).
    reflexivity.
  - rewrite (proj2 (proj2 (proj1 (setInterfaceTxPower_byIndex_unchecked
                      (host kernel_silent) 3 20 (s_known 17) _ _ 0
                      (Some (wlan0_record 17))
                      ltac:(vm_compute; reflexivity)
                      ltac:(vm_compute; reflexivity)) _ eq_refl))
               ltac:(cbn; lia)).
    reflexivity.
Defined.

(** ** The directory of interfaces *)

Section DirectoryFacts.

Import Netlink WiFIController MainController.

Variable env : Env.

(** What the valid handler keeps true of the caller's argument holds of
    the argument a returning command hands back. *)
Lemma recvmsgs_uarg {A : Type} (I : A -> Prop) (cb : nl_cb A) msgs tail intr
    st rc st' :
  (forall h m a r a' lines,
     cb_msg_in cb = Some h -> I a -> h m a = Some (r, a', lines) -> I a') ->
  I (uarg st) ->
  recvmsgs env cb msgs tail intr st = Some (rc, st') -> I (uarg st').
Proof.
  intros Hh. revert intr st.
  induction msgs as [| m rest IH]; intros intr st Hi; cbn [recvmsgs].
  - intros [= _ <-]. exact Hi.
  - unfold dispatch, call_msg_in.
    destruct (cb_msg_in cb) as [h |] eqn:Eh.
    + destruct (h m (uarg st)) as [[[r a] lines] |] eqn:Ea; [| discriminate].
      assert (Ia : I a) by (eapply Hh; eauto).
      set (st1 := mk_rx (rctx st) a (rx_log st ++ lines)%list
                    (roles st ++ [RoleMsgIn])%list).
      assert (Hb : uarg (snd (by_type env cb m st1)) = a).
      { unfold by_type.
        destruct (m_type m) as [| e | | k |]; try reflexivity.
        - destruct (error e =? 0).
          + destruct (cb_ack cb) as [g |]; [| reflexivity].
            destruct (g m (err (rctx st1))). reflexivity.
          + destruct (cb_err cb) as [g |]; [| reflexivity].
            destruct (g e (Some (rctx st1))) as [r1 c].
            destruct (r1 <? 0); [reflexivity |].
            destruct (r1 =? NL_SKIP); [reflexivity |].
            destruct (r1 =? NL_STOP); reflexivity.
        - destruct (cb_finish cb) as [g |]; [| reflexivity].
          destruct (g m (err (rctx st1))). reflexivity. }
      destruct (NL_CB_CALL r).
      * destruct (by_type env cb m st1) as [act st2]. cbn [snd] in Hb.
        destruct act; try (intros [= _ <-]; now rewrite Hb);
          apply IH; now rewrite Hb.
      * now apply IH.
      * intros [= _ <-]. exact Ia.
      * intros [= _ <-]. exact Ia.
    + assert (Hb : uarg (snd (by_type env cb m st)) = uarg st).
      { unfold by_type.
        destruct (m_type m) as [| e | | k |]; try reflexivity.
        - destruct (error e =? 0).
          + destruct (cb_ack cb) as [g |]; [| reflexivity].
            destruct (g m (err (rctx st))). reflexivity.
          + destruct (cb_err cb) as [g |]; [| reflexivity].
            destruct (g e (Some (rctx st))) as [r1 c].
            destruct (r1 <? 0); [reflexivity |].
            destruct (r1 =? NL_SKIP); [reflexivity |].
            destruct (r1 =? NL_STOP); reflexivity.
        - destruct (cb_finish cb) as [g |]; [| reflexivity].
          destruct (g m (err (rctx st))). reflexivity. }
      destruct (by_type env cb m st) as [act st2]. cbn [snd] in Hb.
      destruct act; try (intros [= _ <-]; now rewrite Hb);
        apply IH; now rewrite Hb.
Qed.

Lemma recv_loop_uarg {A : Type} (I : A -> Prop) (cb : nl_cb A) batches e st s
    e' st' s' :
  (forall h m a r a' lines,
     cb_msg_in cb = Some h -> I a -> h m a = Some (r, a', lines) -> I a') ->
  I (uarg st) ->
  recv_loop env cb batches e st s = (Ret (e', st'), s') -> I (uarg st').
Proof.
  intros Hh. revert e st s. induction batches as [| b rest IH]; intros e st s Hi;
    cbn [recv_loop].
  - destruct (0 <? err (rctx st)); [discriminate |].
    intros [= _ <- _]. exact Hi.
  - destruct (0 <? err (rctx st)); [| intros [= _ <- _]; exact Hi].
    unfold nl_recvmsgs.
    destruct (recvmsgs env cb (b_msgs b) (b_rc b) false st)
      as [[rc st1] |] eqn:R; [| discriminate].
    pose proof (recvmsgs_uarg I cb _ _ _ _ _ _ Hh Hi R) as I1.
    destruct ((if 0 <? rc then 0 else rc) <? 0).
    + intros [= _ <- _]. exact I1.
    + apply IH. exact I1.
Qed.

Lemma nlExecCommand_uarg {P A : Type} (I : A -> Prop) (cmd : Cmd P A) s rc a s' :
  (forall h m x r x' lines,
     valid_handler cmd = Some h -> I x -> h m x = Some (r, x', lines) -> I x') ->
  I (valid_handler_args cmd) ->
  nlExecCommand env cmd s = (Ret (rc, a), s') -> I a.
Proof.
  intros Hh Hi. unfold nlExecCommand.
  destruct (x_msg_alloc _); cbn [negb]; [| discriminate].
  destruct (x_cb_alloc _); cbn [negb orb]; [| discriminate].
  destruct (x_s_cb_alloc _); cbn [negb orb]; [| discriminate].
  destruct (put_device cmd _) as [msg0 |]; [| discriminate].
  destruct (match pre_execute_handler cmd with
            | Some h => h _ msg0 (pre_execute_handler_args cmd)
            | None => (0, msg0)
            end) as [e0 msg'].
  destruct (e0 =? 0); cbn [negb]; [| discriminate].
  destruct (x_send _ <? 0); [discriminate |].
  intros E. apply bind_ret in E. destruct E as ([e st] & s1 & E1 & E2).
  apply (recv_loop_uarg I) in E1.
  - pose proof (after_loop_result env cmd e st s1) as R.
    cbn [fst snd] in E2. rewrite E2 in R. cbn [fst] in R.
    injection R as _ Ea. rewrite Ea. exact E1.
  - intros h m x r x' lines Eh. cbn [make_cb cb_msg_in] in Eh.
    injection Eh as <-. destruct (valid_handler cmd) as [g |] eqn:Eg.
    + intros Ix Ex. eapply Hh; eauto.
    + intros Ix [= _ <- _]. exact Ix.
  - exact Hi.
Qed.

(** X4: the collection an interface query hands back exists and each of
    its builders holds an index (the invariant [getAllInterfaces] and
    [getInterfaceInfo] rely on when they read the index). *)
Lemma get_interface_collection flags by_ dev s rc v s' :
  nlExecCommand env (get_interface_cmd flags by_ dev (Some [])) s
    = (Ret (rc, v), s') ->
  exists l, v = Some l /\ Forall has_index l.
Proof.
  apply (nlExecCommand_uarg (fun a => exists l, a = Some l /\ Forall has_index l)).
  - intros h m x r x' lines [= <-] (l & -> & F).
    rewrite getInterfaceInfoHandler_cases.
    destruct (m_parse_rc m <? 0); [intros [= _ <- _]; eauto |].
    destruct (tb_IFINDEX (m_attrs m)) as [i |]; intros [= _ <- _]; [| eauto].
    eexists. split; [reflexivity |]. apply Forall_app. split; [exact F |].
    constructor; [discriminate | constructor].
  - exists []. split; [reflexivity | constructor].
Qed.

(** The power query leaves the name and the index of its builder alone. *)
Lemma get_tx_power_keeps idx b s rc b' s' :
  nlExecCommand env (get_tx_power_cmd idx b) s = (Ret (rc, b'), s') ->
  _interfaceName b' = _interfaceName b /\ _interfaceIndex b' = _interfaceIndex b.
Proof.
  apply (nlExecCommand_uarg
           (fun x => _interfaceName x = _interfaceName b /\
                     _interfaceIndex x = _interfaceIndex b)).
  - intros h m x r x' lines [= <-] [N I].
    unfold getInterfaceInfoTxPowerHandler. cbv zeta.
    destruct (m_parse_rc m <? 0); [intros [= _ <- _]; auto |].
    destruct (tb_WIPHY_TX_POWER_LEVEL (m_attrs m));
      intros [= _ <- _]; auto.
  - split; reflexivity.
Qed.

Lemma build_name b info : build b = Some info -> ifName info = built_name b.
Proof. intros [= <-]. reflexivity. Qed.

(** X2: [getInterfaceInfo(const std::string)] stores the record it returns
    in the directory under the record's name. *)
Lemma getInterfaceInfo_stores name s info s' :
  getInterfaceInfo env name s = (Ret (Some info), s') ->
  interfaces s' !! ifName info = Some info.
Proof.
  unfold getInterfaceInfo. intros E.
  apply bind_ret in E. destruct E as ([rc v] & s1 & _ & E). cbn [snd] in E.
  destruct (vector_of v) as [| builder more]; [discriminate E |].
  apply bind_ret in E. destruct E as ([] & s2 & _ & E).
  apply bind_ret in E. destruct E as (idx & s3 & _ & E).
  apply bind_ret in E. destruct E as ([rc2 b2] & s4 & _ & E). cbn [snd] in E.
  destruct (build b2) as [i |]; [| discriminate E].
  apply bind_ret in E. destruct E as ([] & s5 & E5 & E).
  injection E as <- <-. injection E5 as <-.
  cbn. apply lookup_insert_eq.
Qed.

(** X5: the loop of [getAllInterfaces], when it returns, has kept every
    entry of the directory and left one under the name of each builder. *)
Lemma getAllInterfaces_loop_stores builders s s' :
  getAllInterfaces_loop env builders s = (Ret tt, s') ->
  (forall k, is_Some (interfaces s !! k) -> is_Some (interfaces s' !! k)) /\
  (forall b, In b builders -> is_Some (interfaces s' !! built_name b)).
Proof.
  revert s. induction builders as [| b rest IH]; intros s E.
  - cbn in E. injection E as <-. split; [auto | intros b []].
  - cbn [getAllInterfaces_loop] in E.
    apply bind_ret in E. destruct E as (idx & s1 & E1 & E).
    apply bind_ret in E. destruct E as ([rc b'] & s2 & E2 & E). cbn [snd] in E.
    assert (S1 : s1 = s) by (destruct (_interfaceIndex b); now injection E1).
    subst s1.
    pose proof (nlExecCommand_interfaces env (get_tx_power_cmd idx b) s) as F.
    rewrite E2 in F.
    cbn [snd] in F.
    destruct (get_tx_power_keeps _ _ _ _ _ _ E2) as [Kn _].
    destruct (build b') as [info |] eqn:B; [| discriminate B].
    apply bind_ret in E. destruct E as ([] & s3 & E3 & E).
    injection E3 as <-.
    destruct (IH _ E) as [Keep New]. split.
    + intros k Hk. apply Keep. cbn. rewrite F.
      destruct (decide (ifName info = k)) as [-> | Ne].
      * rewrite lookup_insert_eq. eauto.
      * now rewrite lookup_insert_ne.
    + intros x [<- | Hx]; [| now apply New].
      apply Keep. cbn. rewrite (build_name _ _ B).
      unfold built_name. rewrite Kn. rewrite lookup_insert_eq. eauto.
Qed.

(** X3: [restoreState], when it returns, has emptied the directory and
    the list of interfaces to restore. *)
Lemma restoreState_clears mac0 s s' :
  restoreState env mac0 s = (Ret tt, s') ->
  interfaces s' = ∅ /\ interfacesToRestore s' = [].
Proof.
  unfold restoreState. intros E.
  apply bind_ret in E. destruct E as (s0 & s1 & _ & E).
  apply bind_ret in E. destruct E as ([] & s2 & _ & E).
  apply bind_ret in E. destruct E as ([] & s3 & _ & E).
  apply bind_ret in E. destruct E as ([] & s4 & _ & E).
  apply bind_ret in E. destruct E as ([] & s5 & _ & E).
  apply bind_ret in E. destruct E as ([] & s6 & E6 & E).
  apply bind_ret in E. destruct E as ([] & s7 & E7 & E).
  injection E6 as <-. injection E7 as <-.
  unfold when in E. destruct (verbose env); injection E as <-; split; reflexivity.
Qed.

End DirectoryFacts.

(** C9 at the failing input: the kernel answers [getInterfaceInfo(3)] with
    the record of wlan0, the decoder appends to the vector behind a null
    pointer, and the directory stays empty; when the kernel refuses the
    query, a record stored earlier is handed back as it was.  No run of
    [getInterfaceInfo(uint32_t)] changes the directory, whereas
    [getInterfaceInfo("wlan0")] on the same answers stores the record. *)
Lemma getInterfaceInfo_byIndex_stores_nothing :
  fst (WiFIController.getInterfaceInfo_byIndex (host kernel_reporting) 3 s_ready)
    = Undefined /\
  interfaces
    (snd (WiFIController.getInterfaceInfo_byIndex (host kernel_reporting) 3
            s_ready)) = ∅ /\
  WiFIController.getInterfaceInfo_byIndex (host (kernel_refusing (-19))) 3
    (s_known 17) =
    (Ret (Some (wlan0_record 17)),
     snd (WiFIController.getInterfaceInfo_byIndex
            (host (kernel_refusing (-19))) 3 (s_known 17))) /\
  (forall env idx s,
     interfaces (snd (WiFIController.getInterfaceInfo_byIndex env idx s))
       = interfaces s) /\
  interfaces
    (snd (WiFIController.getInterfaceInfo (host kernel_query) "wlan0" s_ready))
    !! "wlan0"%string = Some (wlan0_record 20).
Proof.
  split; [vm_compute; reflexivity |].
  split; [vm_compute; reflexivity |].
  split; [vm_compute; reflexivity |].
  split; [apply getInterfaceInfo_byIndex_interfaces |].
  vm_compute. reflexivity.
Qed.

(** ** Runs on concrete surroundings *)

Section Runs.

Import Netlink WiFIController MainController.

(** The kernel refuses with -EBUSY: the code comes back unchanged. *)
Example nlExecCommand_ebusy :
  fst (nlExecCommand (host (kernel_refusing (-16))) delete_cmd s_ready)
    = Ret (-16, tt) /\
  w_roles (snd (nlExecCommand (host (kernel_refusing (-16))) delete_cmd
                  s_ready)) = [RoleMsgIn; RoleError (-16)].
Proof. split; vm_compute; reflexivity. Qed.

(** A positive code in an error message comes back as -EPROTO. *)
Example nlExecCommand_positive_code :
  fst (nlExecCommand (host (kernel_refusing 5)) delete_cmd s_ready)
    = Ret (- EPROTO, tt).
Proof. vm_compute. reflexivity. Qed.

(** An acknowledgement ends a non-dump request with 0. *)
Example nlExecCommand_acknowledged :
  fst (nlExecCommand (host kernel_silent) delete_cmd s_ready) = Ret (0, tt) /\
  w_roles (snd (nlExecCommand (host kernel_silent) delete_cmd s_ready))
    = [RoleMsgIn; RoleAck].
Proof. split; vm_compute; reflexivity. Qed.

(** A dump with no data message ends on the finish signal; an
    acknowledgement alone leaves a dump request waiting. *)
Example nlExecCommand_empty_dump :
  fst (nlExecCommand (host (fun _ => exchange [mk_Batch [done] 0])) dump_cmd
         s_ready) = Ret (0, tt) /\
  fst (nlExecCommand (host kernel_silent) dump_cmd s_ready) = Blocked.
Proof. split; vm_compute; reflexivity. Qed.

(** A failure of the pump that is no kernel error comes back as such. *)
Example nlExecCommand_pump_failure :
  fst (nlExecCommand (host (fun _ => exchange [mk_Batch [] (-9)])) delete_cmd
         s_ready) = Ret (-9, tt).
Proof. vm_compute. reflexivity. Qed.

(** [getAllInterfaces] on a kernel that reports wlan0. *)
Example getAllInterfaces_run :
  fst (getAllInterfaces
         (host (fun n => match n with
                         | 0%nat => exchange [mk_Batch [reply_interface "wlan0" 3] 0;
                                              mk_Batch [done] 0]
                         | _ => kernel_query 1
                         end)) s_ready) = Ret tt /\
  interfaces
    (snd (getAllInterfaces
            (host (fun n => match n with
                            | 0%nat => exchange [mk_Batch [reply_interface "wlan0" 3] 0;
                                                 mk_Batch [done] 0]
                            | _ => kernel_query 1
                            end)) s_ready)) !! "wlan0"%string
    = Some (wlan0_record 20).
Proof. split; vm_compute; reflexivity. Qed.

(** [restoreState] deletes the monitor interface, recreates wlan0 and
    leaves an empty directory. *)
Example restoreState_run :
  fst (restoreState (host kernel_restore) [0; 0; 0; 0; 0; 0] s_restoring)
    = Ret tt /\
  interfaces
    (snd (restoreState (host kernel_restore) [0; 0; 0; 0; 0; 0] s_restoring))
    = ∅ /\
  w_cancelled
    (snd (restoreState (host kernel_restore) [0; 0; 0; 0; 0; 0] s_restoring))
    = [7] /\
  map nm_cmd
    (w_sent
       (snd (restoreState (host kernel_restore) [0; 0; 0; 0; 0; 0] s_restoring)))
    = [NL80211_CMD_DEL_INTERFACE; NL80211_CMD_NEW_INTERFACE;
       NL80211_CMD_GET_INTERFACE; NL80211_CMD_GET_WIPHY].
Proof. repeat split; vm_compute; reflexivity. Qed.

(** 5180 MHz with bandwidth "80": control frequency 5180, width
    [NL80211_CHAN_WIDTH_80], centre frequency 5210. *)
Example setFrequencyHandler_5180_80 :
  setFrequencyHandler (nlstate s_ready)
    (genlmsg_put (nlmsg_alloc 4096) 28 0 NL80211_CMD_SET_WIPHY) (5180, "80")
  = (0,
     mk_nl_msg 28 0 NL80211_CMD_SET_WIPHY 4096 52
       [(NL80211_ATTR_WIPHY_FREQ, NLA_U32 5180);
        (NL80211_ATTR_WIPHY_FREQ_OFFSET, NLA_U32 0);
        (NL80211_ATTR_CHANNEL_WIDTH, NLA_U32 NL80211_CHAN_WIDTH_80);
        (NL80211_ATTR_CENTER_FREQ1, NLA_U32 5210)]).
Proof. vm_compute. reflexivity. Qed.

(** 2437 MHz with bandwidth "HT40-": centre 2427 below the control
    frequency, legacy type HT40-. *)
Example setFrequencyHandler_2437_ht40minus :
  map fst (nm_attrs (snd (setFrequencyHandler (nlstate s_ready)
                            (genlmsg_put (nlmsg_alloc 4096) 28 0
                               NL80211_CMD_SET_WIPHY) (2437, "ht40-"))))
    = [NL80211_ATTR_WIPHY_FREQ; NL80211_ATTR_WIPHY_FREQ_OFFSET;
       NL80211_ATTR_CHANNEL_WIDTH; NL80211_ATTR_WIPHY_CHANNEL_TYPE;
       NL80211_ATTR_CENTER_FREQ1] /\
  nth 3 (map snd (nm_attrs (snd (setFrequencyHandler (nlstate s_ready)
                                   (genlmsg_put (nlmsg_alloc 4096) 28 0
                                      NL80211_CMD_SET_WIPHY) (2437, "ht40-")))))
      (NLA_U32 0) = NLA_U32 NL80211_CHAN_HT40MINUS /\
  nth 4 (map snd (nm_attrs (snd (setFrequencyHandler (nlstate s_ready)
                                   (genlmsg_put (nlmsg_alloc 4096) 28 0
                                      NL80211_CMD_SET_WIPHY) (2437, "ht40-")))))
      (NLA_U32 0) = NLA_U32 2427.
Proof. repeat split; vm_compute; reflexivity. Qed.

End Runs.

(** ** Instances of the properties above *)

(** A command with a pre-send handler, refused by the kernel. *)
Lemma nlExecCommand_first_error_witness :
  fst (Netlink.nlExecCommand (host (kernel_refusing (-16)))
         (WiFIController.set_tx_power_cmd 3 20) s_ready)
    = Ret (coerce (-16), tt).
Proof.
  apply (nlExecCommand_first_error (host (kernel_refusing (-16)))
           (WiFIController.set_tx_power_cmd 3 20) s_ready
           (mk_nlmsgerr (-16) 0 36 28 None None) (kernel_error (-16)) [] 0 []
           tt []).
  - repeat split; try reflexivity; [| cbn; lia].
    eexists. split; reflexivity.
  - reflexivity.
  - reflexivity.
  - cbn. lia.
  - reflexivity.
Defined.

Lemma getInterfaceInfo_stores_witness :
  interfaces
    (snd (WiFIController.getInterfaceInfo (host kernel_query) "wlan0" s_ready))
    !! ifName (wlan0_record 20) = Some (wlan0_record 20).
Proof.
  apply (getInterfaceInfo_stores (host kernel_query) "wlan0" s_ready).
  vm_compute. reflexivity.
Defined.

Lemma restoreState_clears_witness :
  interfaces
    (snd (MainController.restoreState (host kernel_restore) [0; 0; 0; 0; 0; 0]
            s_restoring)) = ∅ /\
  interfacesToRestore
    (snd (MainController.restoreState (host kernel_restore) [0; 0; 0; 0; 0; 0]
            s_restoring)) = [].
Proof.
  apply (restoreState_clears (host kernel_restore) [0; 0; 0; 0; 0; 0]
           s_restoring).
  vm_compute. reflexivity.
Defined.

Lemma get_interface_collection_witness :
  exists l, Some [wlan0_builder] = Some l /\ Forall has_index l.
Proof.
  apply (get_interface_collection (host kernel_query) 0 CIB_NETDEV 3 s_ready 0
           (Some [wlan0_builder])
           (snd (Netlink.nlExecCommand (host kernel_query)
                   (WiFIController.get_interface_cmd 0 CIB_NETDEV 3 (Some []))
                   s_ready))).
  vm_compute. reflexivity.
Defined.

Lemma getAllInterfaces_loop_stores_witness :
  is_Some
    (interfaces
       (snd (WiFIController.getAllInterfaces_loop (host kernel_query1)
               [wlan0_builder] s_ready))
     !! built_name wlan0_builder).
Proof.
  apply (proj2 (getAllInterfaces_loop_stores (host kernel_query1)
                  [wlan0_builder] s_ready _ ltac:(vm_compute; reflexivity))).
  now left.
Defined.

(** ** More on the session and the command engine *)

Section EngineOutcomes.

Import Netlink.

Context {P A : Type}.
Variable env : Env.

(** The receive loop and the code after it never throw. *)
Lemma recv_loop_no_throw (cb : nl_cb A) batches e st s ex :
  fst (recv_loop env cb batches e st s) <> Throw ex.
Proof.
  revert e st s. induction batches as [| b rest IH]; intros e st s;
    cbn [recv_loop].
  - destruct (0 <? err (rctx st)); discriminate.
  - destruct (0 <? err (rctx st)); [| discriminate].
    destruct (nl_recvmsgs env cb b st) as [[rc st1] |]; [| discriminate].
    destruct (rc <? 0); [discriminate | apply IH].
Qed.

(** Every exception of [nlExecCommand] is an [ios_base::failure] raised
    before the message is sent: the state is the one of the call but for
    the count of exchanges. *)
Lemma nlExecCommand_throw (cmd : Cmd P A) s ex :
  fst (nlExecCommand env cmd s) = Throw ex ->
  (exists what, ex = ios_base_failure what) /\
  snd (nlExecCommand env cmd s) = set_calls (S (w_calls s)) s.
Proof.
  unfold nlExecCommand.
  destruct (x_msg_alloc _); cbn [negb];
    [| intros [= <-]; split; [eauto | reflexivity]].
  destruct (x_cb_alloc _); cbn [negb orb];
    [| intros [= <-]; split; [eauto | reflexivity]].
  destruct (x_s_cb_alloc _); cbn [negb orb];
    [| intros [= <-]; split; [eauto | reflexivity]].
  destruct (put_device cmd _) as [msg |];
    [| intros [= <-]; split; [eauto | reflexivity]].
  destruct (match pre_execute_handler cmd with
            | Some h => h _ msg (pre_execute_handler_args cmd)
            | None => (0, msg)
            end) as [e0 msg'].
  destruct (e0 =? 0); cbn [negb];
    [| intros [= <-]; split; [eauto | reflexivity]].
  destruct (x_send _ <? 0); [intros [= <-]; split; [eauto | reflexivity] |].
  unfold bind.
  match goal with
  | |- context [recv_loop env ?cb ?bs ?e ?st ?s0] =>
      pose proof (recv_loop_no_throw cb bs e st s0) as NT;
      destruct (recv_loop env cb bs e st s0) as [[[e1 st1] | ex1 | |] s1]
  end; cbn [fst snd] in *.
  - rewrite after_loop_result. discriminate.
  - destruct (NT ex1 eq_refl).
  - discriminate.
  - discriminate.
Qed.

(** The code [nlExecCommand] returns is never positive. *)
Lemma nlExecCommand_code (cmd : Cmd P A) s rc a s' :
  nlExecCommand env cmd s = (Ret (rc, a), s') -> rc <= 0.
Proof.
  unfold nlExecCommand.
  destruct (x_msg_alloc _); cbn [negb]; [| discriminate].
  destruct (x_cb_alloc _); cbn [negb orb]; [| discriminate].
  destruct (x_s_cb_alloc _); cbn [negb orb]; [| discriminate].
  destruct (put_device cmd _) as [msg |]; [| discriminate].
  destruct (match pre_execute_handler cmd with
            | Some h => h _ msg (pre_execute_handler_args cmd)
            | None => (0, msg)
            end) as [e0 msg'].
  destruct (e0 =? 0); cbn [negb]; [| discriminate].
  destruct (x_send _ <? 0); [discriminate |].
  intros E. apply bind_ret in E. destruct E as ([e st] & s1 & _ & E).
  pose proof (after_loop_result env cmd e st s1) as R.
  cbn [fst snd] in E. rewrite E in R. cbn [fst] in R. injection R as -> _.
  destruct (Z.ltb_spec (err (rctx st)) 0); [lia |].
  destruct (Z.ltb_spec e 0); lia.
Qed.

End EngineOutcomes.

(** X6: Whenever [nlExecCommand] leaves by an exception, the exception is an
    [ios_base::failure] and it was raised before the send: no message
    went out, no callback ran, nothing was logged and no member of the
    controller changed. *)
Theorem nlExecCommand_throws_before_send {P A : Type} (env : Env)
    (cmd : Netlink.Cmd P A) (s : State) (ex : exn) :
  fst (Netlink.nlExecCommand env cmd s) = Throw ex ->
  (exists what, ex = ios_base_failure what) /\
  w_sent (snd (Netlink.nlExecCommand env cmd s)) = w_sent s /\
  w_roles (snd (Netlink.nlExecCommand env cmd s)) = w_roles s /\
  w_log (snd (Netlink.nlExecCommand env cmd s)) = w_log s /\
  members (snd (Netlink.nlExecCommand env cmd s)) = members s.
Proof.
  intros E. destruct (nlExecCommand_throw env cmd s ex E) as [W ->].
  split; [exact W |]. repeat split.
Qed.

Lemma nlExecCommand_throws_before_send_witness :
  (exists what,
     ios_base_failure "pre-execute handler failed" = ios_base_failure what) /\
  w_sent (snd (Netlink.nlExecCommand
                 (host kernel_cramped)
                 (WiFIController.set_tx_power_cmd 3 20) s_ready)) = [] /\
  w_roles (snd (Netlink.nlExecCommand
                  (host kernel_cramped)
                  (WiFIController.set_tx_power_cmd 3 20) s_ready)) = [] /\
  w_log (snd (Netlink.nlExecCommand
                (host kernel_cramped)
                (WiFIController.set_tx_power_cmd 3 20) s_ready)) = [] /\
  members (snd (Netlink.nlExecCommand
                  (host kernel_cramped)
                  (WiFIController.set_tx_power_cmd 3 20) s_ready))
    = members s_ready.
Proof.
  apply (nlExecCommand_throws_before_send
           (host kernel_cramped)
           (WiFIController.set_tx_power_cmd 3 20) s_ready).
  vm_compute. reflexivity.
Defined.

(** X7: [nlInit] returns 0 exactly when both sockets are allocated, both
    connects succeed and the family resolves; it then has stored the two
    handles and the family and has freed and logged nothing.  Every other
    code it returns is -ENOMEM, -ENOLINK or -ENOENT, and then the generic
    socket it had allocated is freed, [gnl_socket] is null and one line is
    logged. *)
Theorem nlInit_outcomes (env : Env) (s : State) :
  (fst (Netlink.nlInit env s) = Ret 0 <->
   (exists g r,
      nl_socket_alloc_gnl env = Some g /\ nl_socket_alloc_rnl env = Some r) /\
   genl_connect env = 0 /\ 0 <= genl_ctrl_resolve env /\ 0 <= nl_connect env) /\
  (fst (Netlink.nlInit env s) = Ret 0 ->
   nlstate (snd (Netlink.nlInit env s))
     = mk_nl80211_state (nl_socket_alloc_gnl env) (nl_socket_alloc_rnl env)
         (genl_ctrl_resolve env) /\
   w_freed (snd (Netlink.nlInit env s)) = w_freed s /\
   w_log (snd (Netlink.nlInit env s)) = w_log s) /\
  (forall e, fst (Netlink.nlInit env s) = Ret e -> e <> 0 ->
     (e = - ENOMEM \/ e = - ENOLINK \/ e = - ENOENT) /\
     gnl_socket (nlstate (snd (Netlink.nlInit env s))) = None /\
     (exists freed,
        w_freed (snd (Netlink.nlInit env s)) = (w_freed s ++ freed)%list /\
        forall g, nl_socket_alloc_gnl env = Some g -> last freed = Some g) /\
     exists line, w_log (snd (Netlink.nlInit env s)) = (w_log s ++ [line])%list).
Proof.
  unfold Netlink.nlInit.
  destruct (nl_socket_alloc_gnl env) as [g |] eqn:Eg.
  - destruct (Z.eqb_spec (genl_connect env) 0) as [Ec | Nc]; cbn [negb].
    + destruct (Z.ltb_spec (genl_ctrl_resolve env) 0) as [Nr | Hr].
      * split; [| split].
        -- split; [discriminate | intros (_ & _ & ? & _); lia].
        -- discriminate.
        -- intros e [= <-] _. cbn. split; [auto |]. split; [reflexivity |].
           split; [| eauto].
           exists [g]. split; [reflexivity |]. now intros ? [= <-].
      * destruct (nl_socket_alloc_rnl env) as [r |] eqn:Er.
        -- destruct (Z.ltb_spec (nl_connect env) 0) as [Nn | Hn].
           ++ split; [| split].
              ** split; [discriminate | intros (_ & _ & _ & ?); lia].
              ** discriminate.
              ** intros e [= <-] _. cbn. split; [auto |].
                 split; [reflexivity |]. split; [| eauto].
                 exists [r; g]. split; [now rewrite <- app_assoc |].
                 now intros ? [= <-].
           ++ split; [| split].
              ** split; [intros _; repeat split; eauto | reflexivity].
              ** intros _. repeat split.
              ** intros e [= <-] N. now destruct N.
        -- split; [| split].
           ++ split; [discriminate | intros ((? & ? & _ & D) & _); discriminate D].
           ++ discriminate.
           ++ discriminate.
    + split; [| split].
      * split; [discriminate | intros (_ & ? & _); contradiction].
      * discriminate.
      * intros e [= <-] _. cbn. split; [auto |]. split; [reflexivity |].
        split; [| eauto].
        exists [g]. split; [reflexivity |]. now intros ? [= <-].
  - split; [| split].
    + split; [discriminate | intros ((? & ? & D & _) & _); discriminate D].
    + discriminate.
    + intros e [= <-] _. cbn. split; [auto |]. split; [reflexivity |].
      split; [| eauto].
      exists []. split; [now rewrite app_nil_r | discriminate].
Qed.

Lemma nlInit_outcomes_witness :
  nlstate (snd (Netlink.nlInit (host kernel_silent) s_boot))
    = mk_nl80211_state (Some 1) (Some 2) 28 /\
  w_freed (snd (Netlink.nlInit (host kernel_silent) s_boot)) = [] /\
  w_log (snd (Netlink.nlInit (host kernel_silent) s_boot)) = [].
Proof.
  apply (proj1 (proj2 (nlInit_outcomes (host kernel_silent) s_boot))).
  apply (proj1 (nlInit_outcomes (host kernel_silent) s_boot)).
  repeat split; first [now eauto | cbn; lia].
Defined.

Section DumpFacts.

Import Netlink.

Context {A : Type}.
Variable env : Env.
Variable cb : nl_cb A.
Hypothesis no_ack : cb_ack cb = None.

Lemma not_in_snoc (rs : list Role) r :
  ~ In RoleAck rs -> r <> RoleAck -> ~ In RoleAck (rs ++ [r]).
Proof.
  intros H N Hin. apply in_app_or in Hin.
  destruct Hin as [Hin | [E | []]]; [exact (H Hin) | now apply N].
Qed.

Lemma by_type_no_ack m st :
  ~ In RoleAck (roles st) -> ~ In RoleAck (roles (snd (by_type env cb m st))).
Proof.
  intros H. unfold by_type. rewrite no_ack.
  destruct (m_type m) as [| e | | rc |]; cbn [snd]; try exact H.
  - destruct (error e =? 0); cbn [snd]; [exact H |].
    destruct (cb_err cb) as [g |]; cbn [snd]; [| exact H].
    destruct (g e (Some (rctx st))) as [r1 c].
    destruct (r1 <? 0); cbn [snd roles];
      [| destruct (r1 =? NL_SKIP); cbn [snd roles];
         [| destruct (r1 =? NL_STOP); cbn [snd roles]]];
      apply not_in_snoc; first [exact H | discriminate].
  - destruct (cb_finish cb) as [g |]; cbn [snd]; [| exact H].
    destruct (g m (err (rctx st))) as [r1 v]. cbn [snd roles].
    apply not_in_snoc; [exact H | discriminate].
Qed.

Lemma dispatch_no_ack m st act st' :
  dispatch env cb m st = Some (act, st') ->
  ~ In RoleAck (roles st) -> ~ In RoleAck (roles st').
Proof.
  unfold dispatch, call_msg_in. intros E H.
  destruct (cb_msg_in cb) as [h |].
  - destruct (h m (uarg st)) as [[[rc a] lines] |]; [| discriminate E].
    set (st1 := mk_rx (rctx st) a (rx_log st ++ lines)%list
                  (roles st ++ [RoleMsgIn])%list) in *.
    assert (H1 : ~ In RoleAck (roles st1))
      by (apply not_in_snoc; [exact H | discriminate]).
    destruct (NL_CB_CALL rc); try (injection E as _ <-; exact H1).
    pose proof (by_type_no_ack m st1 H1) as B.
    destruct (by_type env cb m st1). injection E as _ <-. exact B.
  - pose proof (by_type_no_ack m st H) as B.
    destruct (by_type env cb m st). injection E as _ <-. exact B.
Qed.

Lemma recvmsgs_no_ack msgs tail intr st rc st' :
  recvmsgs env cb msgs tail intr st = Some (rc, st') ->
  ~ In RoleAck (roles st) -> ~ In RoleAck (roles st').
Proof.
  revert intr st. induction msgs as [| m rest IH]; intros intr st;
    cbn [recvmsgs].
  - intros [= _ <-] H. exact H.
  - destruct (dispatch env cb m st) as [[act st1] |] eqn:D; [| discriminate].
    intros E H. pose proof (dispatch_no_ack m st act st1 D H) as H1.
    destruct act; try (injection E as _ <-; exact H1); eapply IH; eauto.
Qed.

Lemma recv_loop_no_ack batches e st s :
  ~ In RoleAck (roles st) ->
  exists rs,
    w_roles (snd (recv_loop env cb batches e st s)) = (w_roles s ++ rs)%list /\
    ~ In RoleAck rs.
Proof.
  revert e st s. induction batches as [| b rest IH]; intros e st s H;
    cbn [recv_loop].
  - destruct (0 <? err (rctx st)); exists (roles st); split;
      first [reflexivity | exact H].
  - destruct (0 <? err (rctx st));
      [| exists (roles st); split; [reflexivity | exact H]].
    unfold nl_recvmsgs.
    destruct (recvmsgs env cb (b_msgs b) (b_rc b) false st)
      as [[rc st1] |] eqn:R;
      [| exists (roles st); split; [reflexivity | exact H]].
    pose proof (recvmsgs_no_ack _ _ _ _ _ _ R H) as H1.
    destruct ((if 0 <? rc then 0 else rc) <? 0).
    + exists (roles st1). split; [reflexivity | exact H1].
    + destruct (IH (if 0 <? rc then 0 else rc)
                  (mk_rx (rctx st1) (uarg st1) [] (roles st1))
                  (add_logs (rx_log st1) s) H1) as (rs & E & N).
      exists rs. split; [exact E | exact N].
Qed.

End DumpFacts.

(** X8: A dump request is never ended by an acknowledgement: with
    [NLM_F_DUMP] among the flags the acknowledge callback is not
    registered, so whatever the kernel sends, the acknowledge role is not
    among the roles the call invokes. *)
Theorem nlExecCommand_dump_ignores_ack {P A : Type} (env : Env)
    (cmd : Netlink.Cmd P A) (s : State) :
  Z.land (Netlink.nlFlags cmd) NLM_F_DUMP <> 0 ->
  exists new : list Role,
    w_roles (snd (Netlink.nlExecCommand env cmd s)) = (w_roles s ++ new)%list /\
    ~ In RoleAck new.
Proof.
  intros D. unfold Netlink.nlExecCommand.
  assert (Nil : forall s0 : State,
            w_roles s0 = w_roles s ->
            exists new, w_roles s0 = (w_roles s ++ new)%list /\ ~ In RoleAck new).
  { intros s0 E. exists []. split; [now rewrite app_nil_r | intros []]. }
  destruct (x_msg_alloc _); cbn [negb]; [| now apply Nil].
  destruct (x_cb_alloc _); cbn [negb orb]; [| now apply Nil].
  destruct (x_s_cb_alloc _); cbn [negb orb]; [| now apply Nil].
  destruct (Netlink.put_device cmd _) as [msg |]; [| now apply Nil].
  destruct (match Netlink.pre_execute_handler cmd with
            | Some h => h _ msg (Netlink.pre_execute_handler_args cmd)
            | None => (0, msg)
            end) as [e0 msg'].
  destruct (e0 =? 0); cbn [negb]; [| now apply Nil].
  destruct (x_send _ <? 0); [now apply Nil |].
  assert (Na : Netlink.cb_ack (Netlink.make_cb cmd) = None).
  { unfold Netlink.make_cb. cbn [Netlink.cb_ack].
    destruct (Z.eqb_spec (Z.land (Netlink.nlFlags cmd) NLM_F_DUMP) 0);
      [contradiction | reflexivity]. }
  unfold bind.
  match goal with
  | |- context [Netlink.recv_loop env ?cb ?bs ?e ?st ?s0] =>
      destruct (recv_loop_no_ack env cb Na bs e st s0) as (rs & E & N);
        [intros [] |];
      destruct (Netlink.recv_loop env cb bs e st s0)
        as [[[e1 st1] | ex1 | |] s1]
  end; cbn [fst snd] in *; exists rs; (split; [| exact N]);
    try exact E.
  now rewrite after_loop_roles.
Qed.

Lemma nlExecCommand_dump_ignores_ack_witness :
  exists new : list Role,
    w_roles (snd (Netlink.nlExecCommand (host kernel_silent) dump_cmd s_ready))
      = (w_roles s_ready ++ new)%list /\
    ~ In RoleAck new.
Proof.
  apply (nlExecCommand_dump_ignores_ack (host kernel_silent) dump_cmd s_ready).
  discriminate.
Defined.

Section LogFacts.

Import Netlink.

Context {P A : Type}.
Variable env : Env.

Lemma recv_loop_log (cb : nl_cb A) batches e st s :
  0 <= e ->
  exists lines,
    w_log (snd (recv_loop env cb batches e st s)) = (w_log s ++ lines)%list /\
    forall e' st', fst (recv_loop env cb batches e st s) = Ret (e', st') ->
                   e' < 0 -> lines <> [].
Proof.
  revert e st s. induction batches as [| b rest IH]; intros e st s He;
    cbn [recv_loop].
  - destruct (0 <? err (rctx st)); exists []; cbn; rewrite app_nil_r;
      (split; [reflexivity |]); [discriminate |].
    intros e' st' [= <- _] ?. lia.
  - destruct (0 <? err (rctx st)).
    + destruct (nl_recvmsgs env cb b st) as [[rc st1] |].
      * destruct (Z.ltb_spec rc 0) as [Neg | NN].
        -- eexists. cbn. rewrite <- app_assoc. split; [reflexivity |].
           intros _ _ _ _. now destruct (rx_log st1).
        -- destruct (IH rc (mk_rx (rctx st1) (uarg st1) [] (roles st1))
                       (add_logs (rx_log st1) s) NN) as (lines & E & N).
           exists (rx_log st1 ++ lines)%list. split.
           ++ rewrite E. cbn. now rewrite app_assoc.
           ++ intros e' st' R Hn. specialize (N e' st' R Hn).
              intros D. apply app_eq_nil in D. now destruct D.
      * exists []. cbn. rewrite app_nil_r. split; [reflexivity | discriminate].
    + exists []. cbn. rewrite app_nil_r. split; [reflexivity |].
      intros e' st' [= <- _] ?. lia.
Qed.

(** A returning [nlExecCommand] has only added lines to the log, and at
    least one when the code it returns is negative. *)
Lemma nlExecCommand_log (cmd : Cmd P A) s rc a s' :
  nlExecCommand env cmd s = (Ret (rc, a), s') ->
  exists lines,
    w_log s' = (w_log s ++ lines)%list /\ (rc < 0 -> lines <> []).
Proof.
  unfold nlExecCommand.
  destruct (x_msg_alloc _); cbn [negb]; [| discriminate].
  destruct (x_cb_alloc _); cbn [negb orb]; [| discriminate].
  destruct (x_s_cb_alloc _); cbn [negb orb]; [| discriminate].
  destruct (put_device cmd _) as [msg |]; [| discriminate].
  destruct (match pre_execute_handler cmd with
            | Some h => h _ msg (pre_execute_handler_args cmd)
            | None => (0, msg)
            end) as [e0 msg'].
  destruct (e0 =? 0); cbn [negb]; [| discriminate].
  destruct (Z.ltb_spec (x_send (kernel env (w_calls s))) 0) as [| Hs];
    [discriminate |].
  intros E. apply bind_ret in E. destruct E as ([e st] & s1 & E1 & E).
  match type of E1 with
  | recv_loop env ?cb ?bs ?e0 ?st0 ?s0 = _ =>
      destruct (recv_loop_log cb bs e0 st0 s0 Hs) as (lines & L & N)
  end.
  rewrite E1 in L, N. cbn [fst snd] in L, N, E.
  specialize (N e st eq_refl).
  unfold after_loop in E.
  destruct (Z.ltb_spec (err (rctx st)) 0) as [Ne | Nn].
  - injection E as <- _ <-. eexists. cbn. rewrite L, <- app_assoc.
    split; [reflexivity |]. intros _. now destruct lines.
  - destruct (Z.ltb_spec e 0) as [Ee | En]; injection E as <- _ <-.
    + exists lines. split; [exact L | intros _; now apply N].
    + exists lines. split; [exact L | lia].
Qed.

End LogFacts.

(** X9: [nlExecCommand] returns 0 or a negative code, never a positive one,
    and it reports every failure it returns: the lines of the log are
    kept, and a negative code comes with at least one new line. *)
Theorem nlExecCommand_failure_logged {P A : Type} (env : Env)
    (cmd : Netlink.Cmd P A) (s s' : State) (rc : Z) (a : A) :
  Netlink.nlExecCommand env cmd s = (Ret (rc, a), s') ->
  rc <= 0 /\
  exists lines,
    w_log s' = (w_log s ++ lines)%list /\ (rc < 0 -> lines <> []).
Proof.
  intros E. split.
  - exact (nlExecCommand_code env cmd s rc a s' E).
  - exact (nlExecCommand_log env cmd s rc a s' E).
Qed.

Lemma nlExecCommand_failure_logged_witness :
  -9 <= 0 /\
  exists lines,
    w_log (snd (Netlink.nlExecCommand
                  (host (fun _ => exchange [mk_Batch [] (-9)])) delete_cmd
                  s_ready))
      = (w_log s_ready ++ lines)%list /\ (-9 < 0 -> lines <> []).
Proof.
  apply (nlExecCommand_failure_logged
           (host (fun _ => exchange [mk_Batch [] (-9)])) delete_cmd s_ready _
           (-9) tt).
  vm_compute. reflexivity.
Defined.

(** ** More on the controller *)

Section Sequencing.

(** What holds of the state after each half holds after a [bind], however
    the call ends. *)
Lemma bind_snd_inv {X Y : Type} (I : State -> Prop) (c : M X) (k : X -> M Y) s :
  I (snd (c s)) -> (forall x s1, c s = (Ret x, s1) -> I (snd (k x s1))) ->
  I (snd (bind c k s)).
Proof.
  intros Hc Hk. unfold bind. destruct (c s) as [[x | ex | |] s1] eqn:E;
    cbn [snd] in *; try exact Hc.
  now apply Hk.
Qed.

End Sequencing.

Section ValueSafety.

Import Netlink WiFIController.

Variable env : Env.

Lemma bind_value_safe {X Y : Type} (c : M X) (k : X -> M Y) s :
  value_safe (fst (c s)) ->
  (forall x s1, c s = (Ret x, s1) -> value_safe (fst (k x s1))) ->
  value_safe (fst (bind c k s)).
Proof.
  intros Hc Hk. unfold bind. destruct (c s) as [[x | ex | |] s1] eqn:E;
    cbn [fst] in *; try discriminate.
  - now apply Hk.
  - intros [= ->]. now apply Hc.
Qed.

Lemma nlExecCommand_value_safe {P A : Type} (cmd : Cmd P A) s :
  value_safe (fst (nlExecCommand env cmd s)).
Proof.
  intros E. destruct (nlExecCommand_throw env cmd s _ E) as [[w D] _].
  discriminate D.
Qed.

(** The collection an interface query hands back exists, and each of its
    builders holds an index when those it started from did. *)
Lemma interface_query_indexed flags by_ dev l0 s rc v s' :
  Forall has_index l0 ->
  nlExecCommand env (get_interface_cmd flags by_ dev (Some l0)) s
    = (Ret (rc, v), s') ->
  exists l, v = Some l /\ Forall has_index l.
Proof.
  intros F0.
  apply (nlExecCommand_uarg env
           (fun a => exists l, a = Some l /\ Forall has_index l)).
  - intros h m x r x' lines [= <-] (l & -> & F).
    rewrite getInterfaceInfoHandler_cases.
    destruct (m_parse_rc m <? 0); [intros [= _ <- _]; eauto |].
    destruct (tb_IFINDEX (m_attrs m)) as [i |]; intros [= _ <- _]; [| eauto].
    eexists. split; [reflexivity |]. apply Forall_app. split; [exact F |].
    constructor; [discriminate | constructor].
  - exists l0. split; [reflexivity | exact F0].
Qed.

Lemma value_has_index b s :
  has_index b -> exists i, value (_interfaceIndex b) s = (Ret i, s).
Proof.
  unfold has_index, value. destruct (_interfaceIndex b) as [i |];
    [eauto | contradiction].
Qed.

Lemma getAllInterfaces_loop_value_safe builders s :
  Forall has_index builders ->
  value_safe (fst (getAllInterfaces_loop env builders s)).
Proof.
  revert s. induction builders as [| b rest IH]; intros s F;
    cbn [getAllInterfaces_loop].
  - discriminate.
  - inversion F as [| ? ? Hb Hr]; subst.
    destruct (value_has_index b s Hb) as [i Ei].
    apply bind_value_safe; [rewrite Ei; discriminate |].
    intros idx s1 _.
    apply bind_value_safe; [apply nlExecCommand_value_safe |].
    intros [rc b'] s2 _. cbn [snd].
    destruct (build b') as [info |]; [| now apply IH].
    apply bind_value_safe; [discriminate |]. intros [] s3 _. now apply IH.
Qed.

Lemma getAllInterfaces_value_safe s :
  value_safe (fst (getAllInterfaces env s)).
Proof.
  unfold getAllInterfaces.
  apply bind_value_safe; [apply nlExecCommand_value_safe |].
  intros [rc v] s1 E. cbn [snd].
  destruct (interface_query_indexed _ _ _ [] _ _ _ _ ltac:(constructor) E)
    as (l & -> & F).
  now apply getAllInterfaces_loop_value_safe.
Qed.

Lemma getInterfaceInfo_value_safe name s :
  value_safe (fst (getInterfaceInfo env name s)).
Proof.
  unfold getInterfaceInfo.
  apply bind_value_safe; [apply nlExecCommand_value_safe |].
  intros [rc v] s1 E. cbn [snd].
  destruct (interface_query_indexed _ _ _ [] _ _ _ _ ltac:(constructor) E)
    as (l & -> & F).
  cbn [vector_of]. destruct l as [| b more]; [discriminate |].
  inversion F as [| ? ? Hb Hr]; subst.
  apply bind_value_safe; [destruct more; discriminate |].
  intros [] s2 _.
  destruct (value_has_index b s2 Hb) as [i Ei].
  apply bind_value_safe; [rewrite Ei; discriminate |].
  intros idx s3 _.
  apply bind_value_safe; [apply nlExecCommand_value_safe |].
  intros [rc2 b'] s4 _. cbn [snd].
  destruct (build b') as [info |]; [| discriminate].
  apply bind_value_safe; [discriminate |]. intros [] s5 _. discriminate.
Qed.

End ValueSafety.

(** X10: The reads of [interfaceIndex().value()] in [getAllInterfaces] and in
    [getInterfaceInfo(const std::string)] never fail: whatever the kernel
    answers, neither call leaves by the exception of
    [std::optional::value], and neither do the calls built on the
    name-based query. *)
Theorem name_queries_value_safe (env : Env) (s : State) :
  value_safe (fst (WiFIController.getAllInterfaces env s)) /\
  (forall name, value_safe (fst (WiFIController.getInterfaceInfo env name s))) /\
  (forall name p,
     value_safe (fst (WiFIController.setInterfaceTxPower env name p s))) /\
  (forall name f bw,
     value_safe (fst (WiFIController.setInterfaceFrequency env name f bw s))) /\
  (forall name type mac phy,
     value_safe (fst (WiFIController.createInterface env name type mac phy s))).
Proof.
  split; [apply getAllInterfaces_value_safe |].
  split; [intros name; apply getInterfaceInfo_value_safe |].
  split; [| split].
  - intros name p. unfold WiFIController.setInterfaceTxPower.
    apply bind_value_safe; [apply nlExecCommand_value_safe |]. intros _ s1 _.
    apply bind_value_safe; [apply getInterfaceInfo_value_safe |].
    intros [i |] s2 _; discriminate.
  - intros name f bw. unfold WiFIController.setInterfaceFrequency.
    apply bind_value_safe; [apply nlExecCommand_value_safe |]. intros _ s1 _.
    apply bind_value_safe; [apply getInterfaceInfo_value_safe |].
    intros [i |] s2 _; discriminate.
  - intros name type mac phy. unfold WiFIController.createInterface.
    apply bind_value_safe; [apply nlExecCommand_value_safe |]. intros _ s1 _.
    apply bind_value_safe; [apply getInterfaceInfo_value_safe |].
    intros q s2 _. discriminate.
Qed.

(** ** What every call keeps true *)

Section Invariants.

Import Netlink WiFIController MainController.

Variable env : Env.

(** A property of the state that an exchange, a record stored and a line
    logged keep. *)
Variable J : State -> Prop.
Hypothesis J_exec :
  forall (P A : Type) (cmd : Cmd P A) s, J s -> J (snd (nlExecCommand env cmd s)).
Hypothesis J_store : forall info s, J s -> J (snd (store info s)).
Hypothesis J_log : forall line s, J s -> J (add_log line s).

Lemma value_inv {T : Type} (o : option T) s : J s -> J (snd (value o s)).
Proof. destruct o; auto. Qed.

Lemma value_ret {T : Type} (o : option T) s x s1 :
  value o s = (Ret x, s1) -> s1 = s.
Proof. destruct o; [now intros [= _ <-] | discriminate]. Qed.

Lemma ret_state {X : Type} (I : State -> Prop) (c : M X) s (x : X) s1 :
  I (snd (c s)) -> c s = (Ret x, s1) -> I s1.
Proof. intros H E. now rewrite E in H. Qed.

Lemma getInterfaceInfo_inv name s :
  J s -> J (snd (getInterfaceInfo env name s)).
Proof.
  intros H. unfold getInterfaceInfo.
  apply bind_snd_inv; [now apply J_exec |].
  intros [rc v] s1 E1. cbn [snd].
  pose proof (ret_state J _ _ _ _ (J_exec _ _ _ s H) E1) as H1.
  destruct (vector_of v) as [| b more]; [exact H1 |].
  apply bind_snd_inv; [destruct more; [exact H1 | now apply J_log] |].
  intros [] s2 E2.
  assert (H2 : J s2).
  { destruct more; injection E2 as <-; [exact H1 | now apply J_log]. }
  apply bind_snd_inv; [now apply value_inv |].
  intros idx s3 E3. apply value_ret in E3. subst s3.
  apply bind_snd_inv; [now apply J_exec |].
  intros [rc2 b'] s4 E4. cbn [snd].
  pose proof (ret_state J _ _ _ _ (J_exec _ _ _ s2 H2) E4) as H4.
  destruct (build b') as [info |]; [| exact H4].
  apply bind_snd_inv; [now apply J_store |].
  intros [] s5 E5.
  exact (ret_state J _ _ _ _ (J_store info s4 H4) E5).
Qed.

Lemma getAllInterfaces_loop_inv builders s :
  J s -> J (snd (getAllInterfaces_loop env builders s)).
Proof.
  revert s. induction builders as [| b rest IH]; intros s H;
    cbn [getAllInterfaces_loop]; [exact H |].
  apply bind_snd_inv; [now apply value_inv |].
  intros idx s1 E1. apply value_ret in E1. subst s1.
  apply bind_snd_inv; [now apply J_exec |].
  intros [rc b'] s2 E2. cbn [snd].
  pose proof (ret_state J _ _ _ _ (J_exec _ _ _ s H) E2) as H2.
  destruct (build b') as [info |]; [| now apply IH].
  apply bind_snd_inv; [now apply J_store |].
  intros [] s3 E3. apply IH.
  exact (ret_state J _ _ _ _ (J_store info s2 H2) E3).
Qed.

Lemma getAllInterfaces_inv s : J s -> J (snd (getAllInterfaces env s)).
Proof.
  intros H. unfold getAllInterfaces.
  apply bind_snd_inv; [now apply J_exec |].
  intros [rc v] s1 E1. cbn [snd]. apply getAllInterfaces_loop_inv.
  exact (ret_state J _ _ _ _ (J_exec _ _ _ s H) E1).
Qed.

Lemma getInterfaceInfo_byIndex_inv idx s :
  J s -> J (snd (getInterfaceInfo_byIndex env idx s)).
Proof.
  intros H. unfold getInterfaceInfo_byIndex.
  apply bind_snd_inv; [now apply J_exec |].
  intros r s1 E1. cbn.
  exact (ret_state J _ _ _ _ (J_exec _ _ _ s H) E1).
Qed.

(** A command followed by the name-based query and a verdict. *)
Lemma command_then_query {P A X : Type} (cmd : Cmd P A) name
    (k : option InterfaceInfo -> M X) s :
  (forall q s1, J s1 -> J (snd (k q s1))) ->
  J s ->
  J (snd (bind (nlExecCommand env cmd)
            (fun _ => bind (getInterfaceInfo env name) k) s)).
Proof.
  intros Hk H.
  apply bind_snd_inv; [now apply J_exec |].
  intros r s1 E1.
  pose proof (ret_state J _ _ _ _ (J_exec _ _ _ s H) E1) as H1.
  apply bind_snd_inv; [now apply getInterfaceInfo_inv |].
  intros q s2 E2. apply Hk.
  exact (ret_state J _ _ _ _ (getInterfaceInfo_inv name s1 H1) E2).
Qed.

Lemma setInterfaceTxPower_inv name p s :
  J s -> J (snd (setInterfaceTxPower env name p s)).
Proof.
  apply command_then_query. intros [i |] s1 H1; exact H1.
Qed.

Lemma setInterfaceFrequency_inv name f bw s :
  J s -> J (snd (setInterfaceFrequency env name f bw s)).
Proof.
  apply command_then_query. intros [i |] s1 H1; exact H1.
Qed.

Lemma createInterface_inv name type mac phy s :
  J s -> J (snd (createInterface env name type mac phy s)).
Proof.
  apply command_then_query. intros q s1 H1; exact H1.
Qed.

Lemma command_then_index {P A X : Type} (cmd : Cmd P A) idx
    (k : InterfaceInfo -> M X) s :
  (forall i s1, J s1 -> J (snd (k i s1))) ->
  J s ->
  J (snd (bind (nlExecCommand env cmd)
            (fun _ => bind (getInterfaceInfo_byIndex env idx)
                        (fun q => bind (value q) k)) s)).
Proof.
  intros Hk H.
  apply bind_snd_inv; [now apply J_exec |].
  intros r s1 E1.
  pose proof (ret_state J _ _ _ _ (J_exec _ _ _ s H) E1) as H1.
  apply bind_snd_inv; [now apply getInterfaceInfo_byIndex_inv |].
  intros q s2 E2.
  pose proof (ret_state J _ _ _ _ (getInterfaceInfo_byIndex_inv idx s1 H1) E2)
    as H2.
  apply bind_snd_inv; [now apply value_inv |].
  intros i s3 E3. apply value_ret in E3. subst s3. now apply Hk.
Qed.

Lemma setInterfaceTxPower_byIndex_inv idx p s :
  J s -> J (snd (setInterfaceTxPower_byIndex env idx p s)).
Proof. apply command_then_index. auto. Qed.

Lemma setInterfaceFrequency_byIndex_inv idx f bw s :
  J s -> J (snd (setInterfaceFrequency_byIndex env idx f bw s)).
Proof. apply command_then_index. auto. Qed.

Lemma deleteInterface_inv name s :
  J s -> J (snd (deleteInterface env name s)).
Proof.
  intros H. unfold deleteInterface.
  apply bind_snd_inv; [now apply J_exec |].
  intros r s1 E1. exact (ret_state J _ _ _ _ (J_exec _ _ _ s H) E1).
Qed.

Lemma deleteInterface_byIndex_inv idx s :
  J s -> J (snd (deleteInterface_byIndex env idx s)).
Proof.
  intros H. unfold deleteInterface_byIndex.
  apply bind_snd_inv; [now apply J_exec |].
  intros r s1 E1. exact (ret_state J _ _ _ _ (J_exec _ _ _ s H) E1).
Qed.

Lemma abortScan_inv name s : J s -> J (snd (abortScan env name s)).
Proof.
  intros H. unfold abortScan.
  apply bind_snd_inv; [now apply J_exec |].
  intros r s1 E1. exact (ret_state J _ _ _ _ (J_exec _ _ _ s H) E1).
Qed.

Lemma when_inv b line s :
  J s -> J (snd (when b (modify (add_log line)) s)).
Proof. intros H. destruct b; [now apply J_log | exact H]. Qed.

Lemma restore_loop_inv l mac0 s :
  J s -> J (snd (restore_loop env l mac0 s)).
Proof.
  revert s. induction l as [| i rest IH]; intros s H; cbn [restore_loop];
    [exact H |].
  apply bind_snd_inv; [now apply when_inv |].
  intros [] s1 E1.
  pose proof (ret_state J _ _ _ _ (when_inv _ _ s H) E1) as H1.
  destruct (Mac.mac_a2n (Data.mac i) mac0) as [ok m].
  destruct ok; cbn [negb].
  - apply bind_snd_inv; [now apply createInterface_inv |].
    intros rc s2 E2.
    pose proof (ret_state J _ _ _ _ (createInterface_inv _ _ _ _ s1 H1) E2)
      as H2.
    apply bind_snd_inv; [now apply when_inv |].
    intros [] s3 E3. apply IH.
    exact (ret_state J _ _ _ _ (when_inv _ _ s2 H2) E3).
  - apply bind_snd_inv; [now apply J_log |].
    intros [] s2 E2. apply IH.
    injection E2 as <-. now apply J_log.
Qed.

End Invariants.

(** *** The directory *)

Section DirectoryInvariant.

Import Netlink WiFIController.

Variable env : Env.

(** A property of the directory that storing a record under its own name
    keeps. *)
Variable I : gmap string InterfaceInfo -> Prop.
Hypothesis I_store : forall m info, I m -> I (<[ifName info := info]> m).

Lemma dir_exec (P A : Type) (cmd : Cmd P A) s :
  I (interfaces s) -> I (interfaces (snd (nlExecCommand env cmd s))).
Proof. now rewrite nlExecCommand_interfaces. Qed.

Lemma dir_store info s :
  I (interfaces s) -> I (interfaces (snd (store info s))).
Proof. cbn. apply I_store. Qed.

Lemma dir_log (line : string) s :
  I (interfaces s) -> I (interfaces (add_log line s)).
Proof. auto. Qed.

End DirectoryInvariant.

(** X11: Every call of the controller keeps each record of the directory under
    its own name: if the directory is keyed by [ifName] before a call, it
    is so afterwards, however the call ends. *)
Theorem directory_keyed (env : Env) (s : State) :
  keyed (interfaces s) ->
  keyed (interfaces (snd (WiFIController.getAllInterfaces env s))) /\
  (forall name,
     keyed (interfaces (snd (WiFIController.getInterfaceInfo env name s)))) /\
  (forall idx,
     keyed (interfaces (snd (WiFIController.getInterfaceInfo_byIndex env idx s)))) /\
  (forall name,
     keyed (interfaces (snd (WiFIController.abortScan env name s)))) /\
  (forall name p,
     keyed (interfaces (snd (WiFIController.setInterfaceTxPower env name p s)))) /\
  (forall idx p,
     keyed (interfaces
              (snd (WiFIController.setInterfaceTxPower_byIndex env idx p s)))) /\
  (forall name f bw,
     keyed (interfaces
              (snd (WiFIController.setInterfaceFrequency env name f bw s)))) /\
  (forall idx f bw,
     keyed (interfaces
              (snd (WiFIController.setInterfaceFrequency_byIndex env idx f bw s)))) /\
  (forall name type mac phy,
     keyed (interfaces
              (snd (WiFIController.createInterface env name type mac phy s)))) /\
  (forall name,
     keyed (interfaces (snd (WiFIController.deleteInterface env name s)))) /\
  (forall idx,
     keyed (interfaces (snd (WiFIController.deleteInterface_byIndex env idx s)))).
Proof.
  intros K.
  assert (St : forall m info, keyed m -> keyed (<[ifName info := info]> m)).
  { intros m info Km k i. destruct (decide (ifName info = k)) as [<- | Ne].
    - rewrite lookup_insert_eq. now intros [= <-].
    - rewrite lookup_insert_ne by exact Ne. apply Km. }
  pose proof (dir_exec env keyed) as He.
  pose proof (dir_store keyed St) as Hs.
  pose proof (dir_log keyed) as Hl.
  set (J := fun s0 : State => keyed (interfaces s0)) in *.
  repeat split; intros.
  - now apply (getAllInterfaces_inv env J).
  - now apply (getInterfaceInfo_inv env J).
  - now apply (getInterfaceInfo_byIndex_inv env J).
  - now apply (abortScan_inv env J).
  - now apply (setInterfaceTxPower_inv env J).
  - now apply (setInterfaceTxPower_byIndex_inv env J).
  - now apply (setInterfaceFrequency_inv env J).
  - now apply (setInterfaceFrequency_byIndex_inv env J).
  - now apply (createInterface_inv env J).
  - now apply (deleteInterface_inv env J).
  - now apply (deleteInterface_byIndex_inv env J).
Qed.

Lemma directory_keyed_witness :
  keyed (interfaces
           (snd (WiFIController.getAllInterfaces (host kernel_query) (s_known 17)))) /\
  keyed (interfaces
           (snd (WiFIController.getInterfaceInfo (host kernel_query) "wlan0"
                   (s_known 17)))).
Proof.
  assert (K : keyed (interfaces (s_known 17))).
  { intros k i H. cbn in H. apply lookup_insert_Some in H.
    destruct H as [[<- <-] | [_ H]]; [reflexivity |].
    rewrite lookup_empty in H. discriminate H. }
  split.
  - apply (proj1 (directory_keyed (host kernel_query) (s_known 17) K)).
  - apply (proj1 (proj2 (directory_keyed (host kernel_query) (s_known 17) K))).
Defined.

(** X12: No call of the controller removes an entry from the directory: a
    name that has a record before a query, a setting, a creation or a
    deletion still has one afterwards, however the call ends.  In
    particular [deleteInterface] keeps the record of the interface it
    deletes. *)
Theorem directory_keeps_entries (env : Env) (s : State) :
  keeps_entries s (snd (WiFIController.getAllInterfaces env s)) /\
  (forall name,
     keeps_entries s (snd (WiFIController.getInterfaceInfo env name s))) /\
  (forall idx,
     keeps_entries s (snd (WiFIController.getInterfaceInfo_byIndex env idx s))) /\
  (forall name, keeps_entries s (snd (WiFIController.abortScan env name s))) /\
  (forall name p,
     keeps_entries s (snd (WiFIController.setInterfaceTxPower env name p s))) /\
  (forall idx p,
     keeps_entries s
       (snd (WiFIController.setInterfaceTxPower_byIndex env idx p s))) /\
  (forall name f bw,
     keeps_entries s
       (snd (WiFIController.setInterfaceFrequency env name f bw s))) /\
  (forall idx f bw,
     keeps_entries s
       (snd (WiFIController.setInterfaceFrequency_byIndex env idx f bw s))) /\
  (forall name type mac phy,
     keeps_entries s
       (snd (WiFIController.createInterface env name type mac phy s))) /\
  (forall name,
     keeps_entries s (snd (WiFIController.deleteInterface env name s)) /\
     interfaces (snd (WiFIController.deleteInterface env name s))
       = interfaces s) /\
  (forall idx,
     keeps_entries s (snd (WiFIController.deleteInterface_byIndex env idx s)) /\
     interfaces (snd (WiFIController.deleteInterface_byIndex env idx s))
       = interfaces s).
Proof.
  set (I := fun m : gmap string InterfaceInfo =>
              forall k, is_Some (interfaces s !! k) -> is_Some (m !! k)).
  assert (St : forall m info, I m -> I (<[ifName info := info]> m)).
  { intros m info Im k Hk. destruct (decide (ifName info = k)) as [<- | Ne].
    - rewrite lookup_insert_eq. eauto.
    - rewrite lookup_insert_ne by exact Ne. now apply Im. }
  assert (I0 : I (interfaces s)) by (intros k Hk; exact Hk).
  pose proof (dir_exec env I) as He.
  pose proof (dir_store I St) as Hs.
  pose proof (dir_log I) as Hl.
  set (J := fun s0 : State => I (interfaces s0)) in *.
  assert (Same : forall (c : M unit),
            (forall K : State -> Prop,
               (forall (P A : Type) (cmd : Netlink.Cmd P A) s0,
                  K s0 -> K (snd (Netlink.nlExecCommand env cmd s0))) ->
               K s -> K (snd (c s))) ->
            interfaces (snd (c s)) = interfaces s).
  { intros c Hc. apply (Hc (fun s0 => interfaces s0 = interfaces s));
      [| reflexivity].
    intros P A cmd s0 E. now rewrite nlExecCommand_interfaces. }
  unfold keeps_entries. repeat split; intros.
  - now apply (getAllInterfaces_inv env J).
  - now apply (getInterfaceInfo_inv env J).
  - now apply (getInterfaceInfo_byIndex_inv env J).
  - now apply (abortScan_inv env J).
  - now apply (setInterfaceTxPower_inv env J).
  - now apply (setInterfaceTxPower_byIndex_inv env J).
  - now apply (setInterfaceFrequency_inv env J).
  - now apply (setInterfaceFrequency_byIndex_inv env J).
  - now apply (createInterface_inv env J).
  - now apply (deleteInterface_inv env J).
  - apply Same. intros K HK. now apply deleteInterface_inv.
  - now apply (deleteInterface_byIndex_inv env J).
  - apply Same. intros K HK. now apply deleteInterface_byIndex_inv.
Qed.

(** ** The name-based query, entry by entry *)

Section QueryFacts.

Import Netlink WiFIController.

Variable env : Env.

Lemma nlExecCommand_ret_members {P A : Type} (cmd : Cmd P A) s r s1 :
  nlExecCommand env cmd s = (Ret r, s1) -> members s1 = members s.
Proof.
  intros E. pose proof (nlExecCommand_members env cmd s) as H.
  now rewrite E in H.
Qed.

Lemma members_fields s s' :
  members s' = members s ->
  nlstate s' = nlstate s /\ interfaces s' = interfaces s /\
  interfacesToRestore s' = interfacesToRestore s.
Proof.
  unfold members. intros H. injection H as H1 H2 H3 H4 H5.
  repeat split; assumption.
Qed.

(** The state a returning query leaves: the directory with the record
    stored under its name, or as it was when no record is returned; the
    session and the list of interfaces to restore as they were. *)
Lemma getInterfaceInfo_ret name s q s' :
  getInterfaceInfo env name s = (Ret q, s') ->
  interfaces s' =
    match q with
    | Some info => <[ifName info := info]> (interfaces s)
    | None => interfaces s
    end /\
  nlstate s' = nlstate s /\ interfacesToRestore s' = interfacesToRestore s.
Proof.
  unfold getInterfaceInfo. intros E.
  apply bind_ret in E. destruct E as ([rc v] & s1 & E1 & E). cbn [snd] in E.
  apply nlExecCommand_ret_members in E1.
  destruct (vector_of v) as [| builder more].
  { injection E as <- <-. apply members_fields in E1. tauto. }
  apply bind_ret in E. destruct E as ([] & s2 & E2 & E).
  assert (M2 : members s2 = members s).
  { destruct more; injection E2 as <-; exact E1. }
  apply bind_ret in E. destruct E as (idx & s3 & E3 & E).
  apply value_ret in E3. subst s3.
  apply bind_ret in E. destruct E as ([rc2 b2] & s4 & E4 & E). cbn [snd] in E.
  apply nlExecCommand_ret_members in E4. rewrite M2 in E4.
  apply members_fields in E4. destruct E4 as (En & Ei & Er).
  destruct (build b2) as [i |].
  - apply bind_ret in E. destruct E as ([] & s5 & E5 & E).
    injection E as <- <-. injection E5 as <-.
    cbn. now rewrite Ei, Er, En.
  - injection E as <- <-. auto.
Qed.

End QueryFacts.

(** X13: [getInterfaceInfo(const std::string)] changes at most one entry of the
    directory: when it returns no record the directory is as it was, and
    when it returns a record the directory is the former one with that
    record stored under the record's own name (which need not be the name
    asked for); the session and the list of interfaces to restore are
    untouched. *)
Theorem getInterfaceInfo_one_entry (env : Env) (name : string)
    (s s' : State) (q : option InterfaceInfo) :
  WiFIController.getInterfaceInfo env name s = (Ret q, s') ->
  (q = None -> interfaces s' = interfaces s) /\
  (forall info, q = Some info ->
     interfaces s' = <[ifName info := info]> (interfaces s) /\
     forall k, k <> ifName info -> interfaces s' !! k = interfaces s !! k) /\
  nlstate s' = nlstate s /\ interfacesToRestore s' = interfacesToRestore s.
Proof.
  intros E. destruct (getInterfaceInfo_ret env name s q s' E) as (D & N & R).
  split; [intros ->; exact D |]. split; [| auto].
  intros info ->. split; [exact D |].
  intros k Hk. rewrite D. now apply lookup_insert_ne.
Qed.

Lemma getInterfaceInfo_one_entry_witness :
  interfaces
    (snd (WiFIController.getInterfaceInfo (host kernel_silent) "wlan0"
            (s_known 17))) = interfaces (s_known 17).
Proof.
  apply (proj1 (getInterfaceInfo_one_entry (host kernel_silent) "wlan0"
                  (s_known 17) _ None ltac:(vm_compute; reflexivity))).
  reflexivity.
Defined.

(** ** The messages of the plain commands and of the creation *)

Section MessageFacts.

Import Netlink WiFIController.

Variable env : Env.

(** The message of a returning command that has no pre-send handler and is
    identified by a network device: the command and the index. *)
Lemma netdev_command_sent {A : Type} id flags dev
    (vh : option (in_msg -> A -> option (Z * A * list string))) (a : A)
    s r s1 :
  nlExecCommand env (mk_Cmd id CIB_NETDEV flags dev None vh tt a) s
    = (Ret r, s1) ->
  exists msg,
    w_sent s1 = (w_sent s ++ [msg])%list /\ nm_cmd msg = u8 id /\
    nm_attrs msg = [(NL80211_ATTR_IFINDEX, NLA_U32 (u32 dev))].
Proof.
  intros E. apply nlExecCommand_sent in E.
  destruct E as (msg0 & msg & Put & Pre & Sent).
  cbn in Pre. injection Pre as <-.
  exists msg0. split; [exact Sent |].
  cbn in Put. apply nla_put_some in Put. destruct Put as (A0 & C0 & _).
  rewrite A0, C0. split; reflexivity.
Qed.

(** When [createInterfaceHandler] reports success it has appended the
    name, the type and the six address bytes. *)
Lemma createInterfaceHandler_ok state msg name type mac msg' :
  createInterfaceHandler state msg (name, type, mac) = (0, msg') ->
  nm_attrs msg' =
    (nm_attrs msg ++
     [(NL80211_ATTR_IFNAME, NLA_STRING (c_str name));
      (NL80211_ATTR_IFTYPE, NLA_U32 (u32 type));
      (NL80211_ATTR_MAC, NLA_DATA (take ETH_ALEN mac))])%list /\
  nm_cmd msg' = nm_cmd msg.
Proof.
  unfold createInterfaceHandler.
  destruct (nla_put msg _ _) as [msg1 |] eqn:E1; [| discriminate].
  destruct (nla_put msg1 _ _) as [msg2 |] eqn:E2; [| discriminate].
  destruct (nla_put msg2 _ _) as [msg3 |] eqn:E3; [| discriminate].
  intros [= <-].
  apply nla_put_some in E1. apply nla_put_some in E2. apply nla_put_some in E3.
  destruct E1 as (A1 & C1 & _). destruct E2 as (A2 & C2 & _).
  destruct E3 as (A3 & C3 & _).
  rewrite A3, A2, A1, C3, C2, C1, <- !app_assoc. split; reflexivity.
Qed.

End MessageFacts.

(** X14: [deleteInterface] and [abortScan] send one message, the command with
    the index [if_nametoindex] gives for the name (0 for a name the system
    does not know: the index is not checked), and change no member of the
    controller.  [deleteInterface] returns normally whatever code the kernel
    answers with; [abortScan] returns that code. *)
Theorem plain_commands (env : Env) (name : string) (s : State) :
  (forall s', WiFIController.deleteInterface env name s = (Ret tt, s') ->
     exists msg,
       w_sent s' = (w_sent s ++ [msg])%list /\
       nm_cmd msg = NL80211_CMD_DEL_INTERFACE /\
       nm_attrs msg =
         [(NL80211_ATTR_IFINDEX,
           NLA_U32 (u32 (if_nametoindex env (c_str name))))] /\
       members s' = members s) /\
  (forall rc s',
     Netlink.nlExecCommand env
       (Netlink.mk_Cmd NL80211_CMD_DEL_INTERFACE CIB_NETDEV 0
          (if_nametoindex env (c_str name)) None None tt tt) s
       = (Ret (rc, tt), s') ->
     WiFIController.deleteInterface env name s = (Ret tt, s')) /\
  (forall rc s', WiFIController.abortScan env name s = (Ret rc, s') ->
     exists msg,
       w_sent s' = (w_sent s ++ [msg])%list /\
       nm_cmd msg = NL80211_CMD_ABORT_SCAN /\
       nm_attrs msg =
         [(NL80211_ATTR_IFINDEX,
           NLA_U32 (u32 (if_nametoindex env (c_str name))))] /\
       members s' = members s /\ rc <= 0 /\
       Netlink.nlExecCommand env
         (Netlink.mk_Cmd NL80211_CMD_ABORT_SCAN CIB_NETDEV 0
            (if_nametoindex env (c_str name)) None None tt tt) s
         = (Ret (rc, tt), s')).
Proof.
  split; [| split].
  - intros s' E. unfold WiFIController.deleteInterface in E.
    apply bind_ret in E. destruct E as ([rc []] & s1 & E1 & E).
    injection E as <-.
    destruct (netdev_command_sent env _ _ _ _ _ _ _ _ E1) as (msg & S1 & C & At).
    exists msg. repeat split; try assumption.
    exact (nlExecCommand_ret_members env _ _ _ _ E1).
  - intros rc s' E. unfold WiFIController.deleteInterface, bind.
    rewrite E. reflexivity.
  - intros rc s' E. unfold WiFIController.abortScan in E.
    apply bind_ret in E. destruct E as ([rc1 []] & s1 & E1 & E).
    injection E as <- <-.
    destruct (netdev_command_sent env _ _ _ _ _ _ _ _ E1) as (msg & S1 & C & At).
    exists msg. repeat split; try assumption.
    + exact (nlExecCommand_ret_members env _ _ _ _ E1).
    + exact (nlExecCommand_code env _ _ _ _ _ E1).
Qed.

Lemma plain_commands_witness :
  exists msg,
    w_sent (snd (WiFIController.deleteInterface (host (kernel_refusing (-19)))
                   "mon0" s_ready)) = (w_sent s_ready ++ [msg])%list /\
    nm_cmd msg = NL80211_CMD_DEL_INTERFACE /\
    nm_attrs msg = [(NL80211_ATTR_IFINDEX, NLA_U32 (u32 3))] /\
    members (snd (WiFIController.deleteInterface (host (kernel_refusing (-19)))
                    "mon0" s_ready)) = members s_ready.
Proof.
  apply (proj1 (plain_commands (host (kernel_refusing (-19))) "mon0" s_ready)).
  vm_compute. reflexivity.
Defined.

(** X15: Whenever [createInterface] returns, the [NEW_INTERFACE] message went
    out with the phy index, the name, the type and the six address bytes,
    the interface was then queried by name, and the result is 0 exactly
    when that query yields a record and -1 otherwise, whatever code the
    kernel answered the creation with; on 0 the record is in the
    directory. *)
Theorem createInterface_verifies (env : Env) (name : string) (type : Z)
    (mac : list Z) (phy : Z) (s s' : State) (r : Z) :
  WiFIController.createInterface env name type mac phy s = (Ret r, s') ->
  exists (rc : Z) (s1 : State) (q : option InterfaceInfo) (msg : nl_msg),
    Netlink.nlExecCommand env
      (Netlink.mk_Cmd NL80211_CMD_NEW_INTERFACE CIB_PHY 0 phy
         (Some WiFIController.createInterfaceHandler) None (name, type, mac) tt)
      s = (Ret (rc, tt), s1) /\
    w_sent s1 = (w_sent s ++ [msg])%list /\
    nm_cmd msg = NL80211_CMD_NEW_INTERFACE /\
    nm_attrs msg =
      [(NL80211_ATTR_WIPHY, NLA_U32 (u32 phy));
       (NL80211_ATTR_IFNAME, NLA_STRING (c_str name));
       (NL80211_ATTR_IFTYPE, NLA_U32 (u32 type));
       (NL80211_ATTR_MAC, NLA_DATA (take ETH_ALEN mac))] /\
    WiFIController.getInterfaceInfo env name s1 = (Ret q, s') /\
    (r = 0 <-> exists info, q = Some info) /\
    (r <> 0 -> r = -1) /\
    (forall info, q = Some info -> interfaces s' !! ifName info = Some info).
Proof.
  intros E. unfold WiFIController.createInterface in E.
  apply bind_ret in E. destruct E as ([rc []] & s1 & E1 & E).
  apply bind_ret in E. destruct E as (q & s2 & E2 & E).
  injection E as <- <-.
  pose proof E1 as Sent. apply nlExecCommand_sent in Sent.
  destruct Sent as (msg0 & msg & Put & Pre & Sent).
  cbn in Put. apply nla_put_some in Put. destruct Put as (A0 & C0 & _).
  cbn [Netlink.pre_execute_handler Netlink.pre_execute_handler_args] in Pre.
  apply createInterfaceHandler_ok in Pre. destruct Pre as (A1 & C1).
  exists rc, s1, q, msg.
  split; [exact E1 |]. split; [exact Sent |].
  split; [now rewrite C1, C0 |]. split; [now rewrite A1, A0 |].
  split; [exact E2 |].
  destruct (getInterfaceInfo_ret env name s1 q s2 E2) as (D & _).
  destruct q as [info |].
  - split; [split; [eauto | reflexivity] |]. split; [tauto |].
    intros i [= <-]. rewrite D. apply lookup_insert_eq.
  - split; [split; [discriminate | intros [i Hi]; discriminate Hi] |].
    split; [reflexivity | discriminate].
Qed.

(** The kernel refuses the creation, yet an interface of that name is
    reported: the call returns 0. *)
Lemma createInterface_verifies_witness :
  exists (q : option InterfaceInfo) (msg : nl_msg),
    nm_cmd msg = NL80211_CMD_NEW_INTERFACE /\
    nm_attrs msg =
      [(NL80211_ATTR_WIPHY, NLA_U32 (u32 0));
       (NL80211_ATTR_IFNAME, NLA_STRING (c_str "wlan0"));
       (NL80211_ATTR_IFTYPE, NLA_U32 (u32 2));
       (NL80211_ATTR_MAC, NLA_DATA (take ETH_ALEN [0; 17; 34; 51; 68; 85]))] /\
    (0 = 0 <-> exists info, q = Some info).
Proof.
  destruct (createInterface_verifies (host kernel_existing) "wlan0" 2
              [0; 17; 34; 51; 68; 85] 0 s_ready _ 0
              ltac:(vm_compute; reflexivity))
    as (rc & s1 & q & msg & _ & _ & C & At & _ & R & _).
  exists q, msg. split; [exact C |]. split; [exact At | exact R].
Defined.

(** ** The frequency setting *)

Section FrequencyFacts.

Import Resolver WiFIController.

Lemma put_u32_ok msg attr v k out :
  put_u32 msg attr v k = (0, out) ->
  exists msg1,
    k msg1 = (0, out) /\
    nm_attrs msg1 = (nm_attrs msg ++ [(attr, NLA_U32 (u32 v))])%list /\
    nm_cmd msg1 = nm_cmd msg.
Proof.
  unfold put_u32. destruct (nla_put msg attr _) as [msg1 |] eqn:E;
    [| discriminate].
  intros K. exists msg1. split; [exact K |].
  apply nla_put_some in E. tauto.
Qed.

(** What a successful [setFrequencyHandler] has appended, in order. *)
Lemma setFrequencyHandler_ok state msg settings0 label msg' :
  setFrequencyHandler state msg (settings0, label) = (0, msg') ->
  let m := getChanMode label in
  let f := u16 settings0 in
  let cf1 := u32 (getCf1 m f) in
  nm_attrs msg' =
    (nm_attrs msg ++
     [(NL80211_ATTR_WIPHY_FREQ, NLA_U32 (u32 f));
      (NL80211_ATTR_WIPHY_FREQ_OFFSET, NLA_U32 (u32 0));
      (NL80211_ATTR_CHANNEL_WIDTH, NLA_U32 (u32 (width m)))] ++
     type_by_width (width m) f cf1 ++
     (if cf1 =? 0 then []
      else [(NL80211_ATTR_CENTER_FREQ1, NLA_U32 (u32 cf1))]))%list /\
  nm_cmd msg' = nm_cmd msg.
Proof.
  unfold setFrequencyHandler. cbv zeta.
  set (m := getChanMode label). set (f := u16 settings0).
  set (cf1 := u32 (getCf1 m f)).
  replace (if 1000 <? cf1 then 0 else 0) with 0 by (destruct (1000 <? cf1); reflexivity).
  cbn [Z.eqb].
  intros E.
  apply put_u32_ok in E. destruct E as (m1 & E & A1 & C1).
  apply put_u32_ok in E. destruct E as (m2 & E & A2 & C2).
  apply put_u32_ok in E. destruct E as (m3 & E & A3 & C3).
  assert (Tail : forall mt,
            (if cf1 =? 0 then (0, mt)
             else put_u32 mt NL80211_ATTR_CENTER_FREQ1 cf1 (fun msg0 => (0, msg0)))
            = (0, msg') ->
            nm_attrs msg' =
              (nm_attrs mt ++
               (if cf1 =? 0 then []
                else [(NL80211_ATTR_CENTER_FREQ1, NLA_U32 (u32 cf1))]))%list /\
            nm_cmd msg' = nm_cmd mt).
  { intros mt T. destruct (cf1 =? 0).
    - injection T as <-. now rewrite app_nil_r.
    - apply put_u32_ok in T. destruct T as (m5 & T & A5 & C5).
      injection T as <-. auto. }
  unfold type_by_width.
  destruct (width m =? NL80211_CHAN_WIDTH_20_NOHT);
    [| destruct (width m =? NL80211_CHAN_WIDTH_20);
       [| destruct (width m =? NL80211_CHAN_WIDTH_40)]].
  1-3: apply put_u32_ok in E; destruct E as (m4 & E & A4 & C4);
       apply Tail in E; destruct E as (A5 & C5);
       rewrite A5, A4, A3, A2, A1, C5, C4, C3, C2, C1, <- !app_assoc;
       split; reflexivity.
  apply Tail in E. destruct E as (A5 & C5).
  rewrite A5, A3, A2, A1, C5, C3, C2, C1, <- !app_assoc. split; reflexivity.
Qed.

End FrequencyFacts.

Section ChannelTypeFacts.

Import Resolver.

Lemma cf1_case_cases bw span off freq cf1 :
  cf1_case bw span off freq cf1 = cf1 \/
  exists s, In s bw /\ cf1_case bw span off freq cf1 = u32 (s + off).
Proof.
  unfold cf1_case. pose proof (seg_loop_range bw span freq 0) as R.
  destruct (Nat.eqb_spec (seg_loop bw span freq 0) (length bw)) as [E | NE];
    [now left | right].
  exists (nth (seg_loop bw span freq 0) bw 0). split; [| reflexivity].
  apply nth_In. lia.
Qed.

(** On a 16-bit frequency above 10 MHz every mode has a positive centre
    frequency. *)
Lemma getCf1_positive m f :
  In m (zeroChanMode :: chanMode) -> 10 < f < 2 ^ 16 ->
  0 < getCf1 m f < 2 ^ 31.
Proof.
  intros Hm Hf.
  assert (T : forall bw span off,
            forallb (fun s => (0 <? s + off) && (s + off <? 2 ^ 31)) bw = true ->
            0 < s32 (cf1_case bw span off f (u32 f)) < 2 ^ 31).
  { intros bw span off Hb. rewrite forallb_forall in Hb.
    destruct (cf1_case_cases bw span off f (u32 f)) as [-> | (s & Hs & ->)].
    - rewrite s32_u32, s32_exact by lia. lia.
    - specialize (Hb s Hs). apply andb_true_iff in Hb. destruct Hb as [B1 B2].
      apply Z.ltb_lt in B1. apply Z.ltb_lt in B2.
      rewrite s32_u32, s32_exact by lia. lia. }
  unfold getCf1. cbv zeta.
  destruct (width m =? NL80211_CHAN_WIDTH_80); [now apply T |].
  destruct (width m =? NL80211_CHAN_WIDTH_160); [now apply T |].
  destruct (width m =? NL80211_CHAN_WIDTH_320); [now apply T |].
  assert (D : -10 <= freq1_diff m <= 10).
  { simpl in Hm. repeat (destruct Hm as [<- | Hm]; [simpl; lia |]). destruct Hm. }
  rewrite default_branch_exact by lia. lia.
Qed.

(** The type the switch of the handler derives from the width and the two
    frequencies is the one the table lists for the mode. *)
Lemma type_by_width_listed m f :
  In m (zeroChanMode :: chanMode) -> 10 < f < 2 ^ 16 ->
  type_by_width (width m) f (u32 (getCf1 m f)) = listed_type m.
Proof.
  intros Hm Hf.
  assert (G : forall d, -10 <= d <= 10 -> s32 (u32 (u64 (f + u64 d))) = f + d).
  { intros d Hd. apply default_branch_exact. lia. }
  simpl in Hm.
  repeat (destruct Hm as [<- | Hm]; [try reflexivity |]); [.. | destruct Hm].
  - unfold type_by_width, listed_type, getCf1. cbn.
    rewrite G by lia. rewrite (u32_small (f + 10)) by lia.
    destruct (Z.ltb_spec (f + 10) f); [lia | reflexivity].
  - unfold type_by_width, listed_type, getCf1. cbn.
    rewrite G by lia. rewrite (u32_small (f + -10)) by lia.
    destruct (Z.ltb_spec (f + -10) f); [reflexivity | lia].
Qed.

Lemma width_small m :
  In m (zeroChanMode :: chanMode) -> u32 (width m) = width m.
Proof.
  intros Hm. simpl in Hm.
  repeat (destruct Hm as [<- | Hm]; [reflexivity |]). destruct Hm.
Qed.

Lemma u16_range z : 0 <= u16 z < 2 ^ 16.
Proof. unfold u16. apply Z.mod_pos_bound. lia. Qed.

Lemma u16_u32 z : u16 (u32 z) = u16 z.
Proof.
  unfold u16, u32. apply Z.mod_mod_divide. exists (2 ^ 16). reflexivity.
Qed.

(** What a successful [setFrequencyHandler] has appended for a frequency
    above 10 MHz, in terms of the table. *)
Lemma setFrequencyHandler_appends state msg msg' settings0 label :
  10 < u16 settings0 ->
  WiFIController.setFrequencyHandler state msg (settings0, label) = (0, msg') ->
  nm_attrs msg' =
    (nm_attrs msg ++
     [(NL80211_ATTR_WIPHY_FREQ, NLA_U32 (u16 settings0));
      (NL80211_ATTR_WIPHY_FREQ_OFFSET, NLA_U32 0);
      (NL80211_ATTR_CHANNEL_WIDTH, NLA_U32 (width (getChanMode label)))] ++
     listed_type (getChanMode label) ++
     [(NL80211_ATTR_CENTER_FREQ1,
       NLA_U32 (getCf1 (getChanMode label) (u16 settings0)))])%list /\
  nm_cmd msg' = nm_cmd msg.
Proof.
  intros Hf E. apply setFrequencyHandler_ok in E. cbv zeta in E.
  destruct E as [E C]. split; [| exact C].
  pose proof (u16_range settings0) as R.
  pose proof (getChanMode_cases label) as Hm.
  assert (Hr : 10 < u16 settings0 < 2 ^ 16) by lia.
  pose proof (getCf1_positive _ _ Hm Hr) as Hc.
  rewrite (type_by_width_listed _ _ Hm Hr) in E.
  rewrite (width_small _ Hm) in E.
  rewrite !(u32_small (getCf1 _ _)) in E by lia.
  rewrite (u32_small (u16 settings0)) in E by lia.
  destruct (Z.eqb_spec (getCf1 (getChanMode label) (u16 settings0)) 0)
    as [Z0 | _]; [lia |].
  exact E.
Qed.

End ChannelTypeFacts.

(** X16: What [setFrequencyHandler] appends when it succeeds, for a frequency
    above 10 MHz: the frequency cut to 16 bits, a zero offset, the width of
    the mode the label resolves to, the legacy channel type the table lists
    for that mode (none for the modes listed with -1), and the centre
    frequency [getCf1] gives.  The type the handler derives from the width
    and the two frequencies thus agrees with the table, and no offset of
    the centre frequency is ever written.  A label that matches no entry
    sets a 20 MHz channel without HT centred on the frequency itself. *)
Theorem setFrequencyHandler_attributes (state : nl80211_state) (msg msg' : nl_msg)
    (settings0 : Z) (label : string) :
  10 < u16 settings0 ->
  WiFIController.setFrequencyHandler state msg (settings0, label) = (0, msg') ->
  nm_attrs msg' =
    (nm_attrs msg ++
     [(NL80211_ATTR_WIPHY_FREQ, NLA_U32 (u16 settings0));
      (NL80211_ATTR_WIPHY_FREQ_OFFSET, NLA_U32 0);
      (NL80211_ATTR_CHANNEL_WIDTH,
       NLA_U32 (Resolver.width (Resolver.getChanMode label)))] ++
     listed_type (Resolver.getChanMode label) ++
     [(NL80211_ATTR_CENTER_FREQ1,
       NLA_U32 (Resolver.getCf1 (Resolver.getChanMode label) (u16 settings0)))])%list /\
  ((forall e, In e Resolver.chanMode -> ~ matches label e) ->
   nm_attrs msg' =
     (nm_attrs msg ++
      [(NL80211_ATTR_WIPHY_FREQ, NLA_U32 (u16 settings0));
       (NL80211_ATTR_WIPHY_FREQ_OFFSET, NLA_U32 0);
       (NL80211_ATTR_CHANNEL_WIDTH, NLA_U32 NL80211_CHAN_WIDTH_20_NOHT);
       (NL80211_ATTR_WIPHY_CHANNEL_TYPE, NLA_U32 NL80211_CHAN_NO_HT);
       (NL80211_ATTR_CENTER_FREQ1, NLA_U32 (u16 settings0))])%list).
Proof.
  intros Hf E. apply setFrequencyHandler_appends in E; [| exact Hf].
  destruct E as [E _]. pose proof (u16_range settings0) as R.
  split; [exact E |].
  intros Hnone.
  assert (Ez : Resolver.getChanMode label = Resolver.zeroChanMode).
  { unfold Resolver.getChanMode. apply getChanMode_loop_none.
    intros e Hin Hz. apply (Hnone e Hin). now apply strcasecmp_matches. }
  rewrite Ez in E. rewrite E.
  assert (Ec : Resolver.getCf1 Resolver.zeroChanMode (u16 settings0)
               = u16 settings0).
  { rewrite getCf1_other; cbn; try discriminate; lia. }
  rewrite Ec. reflexivity.
Qed.

Lemma setFrequencyHandler_attributes_witness :
  nm_attrs
    (snd (WiFIController.setFrequencyHandler (nlstate s_ready)
            (genlmsg_put (nlmsg_alloc 4096) 28 0 NL80211_CMD_SET_WIPHY)
            (2437, "ht40-"%string))) =
    ([(NL80211_ATTR_WIPHY_FREQ, NLA_U32 (u16 2437));
      (NL80211_ATTR_WIPHY_FREQ_OFFSET, NLA_U32 0);
      (NL80211_ATTR_CHANNEL_WIDTH,
       NLA_U32 (Resolver.width (Resolver.getChanMode "ht40-")))] ++
     listed_type (Resolver.getChanMode "ht40-") ++
     [(NL80211_ATTR_CENTER_FREQ1,
       NLA_U32 (Resolver.getCf1 (Resolver.getChanMode "ht40-") (u16 2437)))])%list.
Proof.
  apply (proj1 (setFrequencyHandler_attributes (nlstate s_ready)
                  (genlmsg_put (nlmsg_alloc 4096) 28 0 NL80211_CMD_SET_WIPHY) _
                  2437 "ht40-" ltac:(vm_compute; reflexivity)
                  ltac:(vm_compute; reflexivity))).
Defined.

(** X17: Whenever [setInterfaceFrequency(name, f, bw)] returns, the [SET_WIPHY]
    message went out with the interface index and the attributes of the
    frequency handler, in which the frequency is [f] cut to 16 bits; the
    interface was then queried by name, and the result is 0 exactly when
    the query yields a record whose [freq] is the full 32-bit [f], -ENOENT
    exactly when it yields none, and -1 otherwise, whatever code the
    kernel answered the setting with. *)
Theorem setInterfaceFrequency_verifies (env : Env) (name : string) (f : Z)
    (bw : string) (s s' : State) (r : Z) :
  10 < u16 f ->
  WiFIController.setInterfaceFrequency env name f bw s = (Ret r, s') ->
  exists (s1 : State) (q : option InterfaceInfo) (msg : nl_msg),
    w_sent s1 = (w_sent s ++ [msg])%list /\
    nm_cmd msg = NL80211_CMD_SET_WIPHY /\
    nm_attrs msg =
      ([(NL80211_ATTR_IFINDEX, NLA_U32 (u32 (if_nametoindex env (c_str name))));
        (NL80211_ATTR_WIPHY_FREQ, NLA_U32 (u16 f));
        (NL80211_ATTR_WIPHY_FREQ_OFFSET, NLA_U32 0);
        (NL80211_ATTR_CHANNEL_WIDTH,
         NLA_U32 (Resolver.width (Resolver.getChanMode (c_str bw))))] ++
       listed_type (Resolver.getChanMode (c_str bw)) ++
       [(NL80211_ATTR_CENTER_FREQ1,
         NLA_U32 (Resolver.getCf1 (Resolver.getChanMode (c_str bw)) (u16 f)))])%list /\
    WiFIController.getInterfaceInfo env name s1 = (Ret q, s') /\
    (r = 0 <-> exists info, q = Some info /\ freq info = u32 f) /\
    (r = - ENOENT <-> q = None) /\
    (r = 0 \/ r = -1 \/ r = - ENOENT).
Proof.
  intros Hf E. unfold WiFIController.setInterfaceFrequency in E.
  apply bind_ret in E. destruct E as ([rc []] & s1 & E1 & E).
  apply bind_ret in E. destruct E as (q & s2 & E2 & E).
  apply nlExecCommand_sent in E1.
  destruct E1 as (msg0 & msg & Put & Pre & Sent).
  cbn in Put. apply nla_put_some in Put. destruct Put as (A0 & C0 & _).
  cbn [Netlink.pre_execute_handler Netlink.pre_execute_handler_args] in Pre.
  apply setFrequencyHandler_appends in Pre; [| now rewrite u16_u32].
  destruct Pre as [A1 C1]. rewrite u16_u32 in A1.
  exists s1, q, msg.
  split; [exact Sent |]. split; [now rewrite C1, C0 |].
  split; [now rewrite A1, A0 |].
  assert (S2 : s2 = s') by (destruct q; now injection E).
  subst s2. split; [exact E2 |].
  destruct q as [info |]; cbn in E; injection E as <-.
  - destruct (Z.eqb_spec (freq info) (u32 f)) as [Eq | Ne].
    + split; [split; [eauto | reflexivity] |].
      split; [split; discriminate | auto].
    + split; [split; [discriminate | intros (i & [= <-] & Ei); contradiction] |].
      split; [split; discriminate | auto].
  - split; [split; [discriminate | intros (i & D & _); discriminate D] |].
    split; [tauto | auto].
Qed.

(** The kernel acknowledges the setting and the interface then reports
    2412 MHz: the call returns 0. *)
Lemma setInterfaceFrequency_verifies_witness :
  exists (q : option InterfaceInfo) (msg : nl_msg),
    nm_cmd msg = NL80211_CMD_SET_WIPHY /\
    nm_attrs msg =
      ([(NL80211_ATTR_IFINDEX, NLA_U32 (u32 3));
        (NL80211_ATTR_WIPHY_FREQ, NLA_U32 (u16 2412));
        (NL80211_ATTR_WIPHY_FREQ_OFFSET, NLA_U32 0);
        (NL80211_ATTR_CHANNEL_WIDTH,
         NLA_U32 (Resolver.width (Resolver.getChanMode (c_str "20"))))] ++
       listed_type (Resolver.getChanMode (c_str "20")) ++
       [(NL80211_ATTR_CENTER_FREQ1,
         NLA_U32 (Resolver.getCf1 (Resolver.getChanMode (c_str "20"))
                    (u16 2412)))])%list /\
    (0 = 0 <-> exists info, q = Some info /\ freq info = u32 2412).
Proof.
  destruct (setInterfaceFrequency_verifies (host (kernel_power 2000)) "wlan0"
              2412 "20" s_ready _ 0 ltac:(vm_compute; reflexivity)
              ltac:(vm_compute; reflexivity))
    as (s1 & q & msg & _ & C & At & _ & R & _).
  exists q, msg. split; [exact C |]. split; [exact At | exact R].
Defined.

(** ** The two decoders of the transmit power *)

Section PowerDecoders.

Import WiFIController.

Lemma quot_div_nonneg v : 0 <= v -> v ÷ 100 = v / 100.
Proof. intros H. apply Z.quot_div_nonneg; lia. Qed.

End PowerDecoders.

(** X18: The reply to the power query carries the level [v] in hundredths of
    dBm as a 32-bit pattern.  [getInterfaceInfoTxPowerHandler] reads it as
    a signed number and stores [v / 100] rounded towards zero, so that a
    level [p * 100] written by the setter is read back as [p];
    [getInterfaceInfoHandler] reads the same attribute as an unsigned
    number, and the two decoders agree exactly on the levels that are not
    negative. *)
Theorem tx_power_decoders (v : Z) (msg : in_msg) (b : InterfaceInfoBuilder) :
  - 2 ^ 31 <= v < 2 ^ 31 ->
  0 <= m_parse_rc msg ->
  tb_WIPHY_TX_POWER_LEVEL (m_attrs msg) = Some (u32 v) ->
  WiFIController.getInterfaceInfoTxPowerHandler msg b
    = Some (NL_STOP, set_txPowerDbm (v ÷ 100) b, []) /\
  _tx_dbm (set_txPowerDbm (v ÷ 100) b) = Some (v ÷ 100) /\
  (forall p, v = p * 100 -> v ÷ 100 = p) /\
  _tx_dbm (fst (WiFIController.decode_interface (m_attrs msg)))
    = Some (u32 v / 100) /\
  (u32 v / 100 = v ÷ 100 <-> 0 <= v).
Proof.
  intros Hv Hp Ht.
  assert (Q : - 2 ^ 31 <= v ÷ 100 < 2 ^ 31).
  { pose proof (Z.quot_rem' v 100). pose proof (Z.rem_bound_abs v 100).
    assert (Z.abs (Z.rem v 100) < 100) by (apply Z.rem_bound_abs; lia).
    lia. }
  split; [| split; [| split; [| split]]].
  - unfold WiFIController.getInterfaceInfoTxPowerHandler. cbv zeta.
    destruct (Z.ltb_spec (m_parse_rc msg) 0) as [? | _]; [lia |].
    rewrite Ht, s32_u32, (s32_exact v Hv). reflexivity.
  - cbn. now rewrite s32_exact.
  - intros p ->. apply Z.quot_mul. lia.
  - unfold WiFIController.decode_interface. cbv zeta. rewrite Ht.
    cbn [fst _tx_dbm set_txPowerDbm]. rewrite u32_idem.
    assert (R : 0 <= u32 v < 2 ^ 32) by (unfold u32; apply Z.mod_pos_bound; lia).
    rewrite s32_exact; [reflexivity |].
    split; [| apply Z.div_lt_upper_bound; lia].
    pose proof (Z.div_pos (u32 v) 100). lia.
  - split.
    + intros E. destruct (Z.le_gt_cases 0 v) as [? | Neg]; [assumption |].
      exfalso.
      assert (U : u32 v = v + 2 ^ 32).
      { unfold u32. symmetry. apply Z.mod_unique with (q := -1); lia. }
      assert (Qn : v ÷ 100 <= 0).
      { apply Z.quot_le_upper_bound; lia. }
      assert (Dp : 0 < u32 v / 100).
      { apply Z.div_str_pos. lia. }
      lia.
    + intros Nn. rewrite u32_small by lia. symmetry. now apply quot_div_nonneg.
Qed.

Lemma tx_power_decoders_witness :
  WiFIController.getInterfaceInfoTxPowerHandler (reply_tx_power (-500))
    wlan0_builder
    = Some (NL_STOP, set_txPowerDbm (-500 ÷ 100) wlan0_builder, []) /\
  _tx_dbm (fst (WiFIController.decode_interface
                  (m_attrs (reply_tx_power (-500)))))
    = Some (u32 (-500) / 100).
Proof.
  destruct (tx_power_decoders (-500) (reply_tx_power (-500)) wlan0_builder
              ltac:(lia) ltac:(cbn; lia) eq_refl) as (A & _ & _ & B & _).
  split; [exact A | exact B].
Defined.

(** ** The order of a visit *)

Section VisitFacts.

Context {V : Type}.
Implicit Types (m : gmap string V) (order : list string).

(** A visit meets the entries of the map and nothing else. *)
Lemma visit_lookup order m k v : (k, v) ∈ visit order m <-> m !! k = Some v.
Proof.
  unfold visit. rewrite elem_of_app, list_elem_of_omap, list_elem_of_filter,
    elem_of_map_to_list. cbn [fst]. split.
  - intros [(x & _ & Hx) | (_ & Hm)]; [| exact Hm].
    destruct (m !! x) as [w |] eqn:Lx; [| discriminate Hx].
    cbn in Hx. injection Hx as -> ->. exact Lx.
  - intros Hm. destruct (decide (k ∈ order)) as [In | Out].
    + left. exists k. split; [now apply elem_of_remove_dups |].
      now rewrite Hm.
    + right. auto.
Qed.

Lemma listed_keys m l :
  NoDup l -> NoDup (fmap fst (omap (fun k => pair k <$> m !! k) l)) /\
  forall k, k ∈ fmap fst (omap (fun k => pair k <$> m !! k) l) -> k ∈ l.
Proof.
  induction 1 as [| x l Hx Hl [IH1 IH2]]; cbn [omap list_omap].
  - split; [constructor | intros k Hk; exact Hk].
  - destruct (pair x <$> m !! x) as [[k' w] |] eqn:E; cbn.
    + assert (k' = x) as ->
        by (destruct (m !! x); [now injection E | discriminate E]).
      split.
      * constructor; [intros Hin; apply Hx, IH2, Hin | exact IH1].
      * intros k Hk. apply elem_of_cons in Hk.
        destruct Hk as [-> | Hk]; [left | right; now apply IH2].
    + split; [exact IH1 | intros k Hk; right; now apply IH2].
Qed.

(** It meets no key twice. *)
Lemma visit_keys order m : NoDup (fmap fst (visit order m)).
Proof.
  unfold visit. rewrite fmap_app. apply NoDup_app.
  destruct (listed_keys m (remove_dups order) (NoDup_remove_dups order))
    as [N1 In1].
  split; [exact N1 |]. split.
  - intros k Hk Hk'. apply In1 in Hk. rewrite elem_of_remove_dups in Hk.
    apply list_elem_of_fmap in Hk'. destruct Hk' as ([k' v] & -> & Hf).
    apply list_elem_of_filter in Hf. destruct Hf as [Out _]. exact (Out Hk).
  - apply (sublist_NoDup _ (fmap fst (map_to_list m)));
      [apply NoDup_fst_map_to_list |].
    apply fmap_sublist, sublist_filter.
Qed.

(** So it is an arrangement of the entries. *)
Lemma visit_perm order m : visit order m ≡ₚ map_to_list m.
Proof.
  apply NoDup_Permutation.
  - eapply NoDup_fmap_1, visit_keys.
  - apply NoDup_map_to_list.
  - intros [k v]. now rewrite visit_lookup, elem_of_map_to_list.
Qed.

(** Without a listed key the entries come as [map_to_list] gives them. *)
Lemma visit_nil m : visit [] m = map_to_list m.
Proof.
  unfold visit. cbn [remove_dups omap list_omap app].
  induction (map_to_list m) as [| e l IH]; [reflexivity |].
  rewrite filter_cons_True by apply not_elem_of_nil. now rewrite IH.
Qed.

Lemma remove_dups_NoDup_id (l : list string) : NoDup l -> remove_dups l = l.
Proof.
  induction 1 as [| x l Hx Hl IH]; [reflexivity |].
  cbn. destruct (decide_rel elem_of x l) as [In | _]; [contradiction |].
  now rewrite IH.
Qed.

Lemma filter_none {X : Type} (P : X -> Prop) `{!forall x, Decision (P x)}
    (l : list X) :
  (forall x, x ∈ l -> ~ P x) -> filter P l = [].
Proof.
  induction l as [| x l IH]; intros Hn; [reflexivity |].
  rewrite filter_cons_False by (apply Hn; left).
  apply IH. intros y Hy. apply Hn. now right.
Qed.

(** Every arrangement of the entries is the visit of some order: that of
    its keys. *)
Lemma visit_any m l : l ≡ₚ map_to_list m -> visit (fmap fst l) m = l.
Proof.
  intros Pm. unfold visit.
  assert (Nd : NoDup (fmap fst l))
    by (rewrite Pm; apply NoDup_fst_map_to_list).
  rewrite (remove_dups_NoDup_id _ Nd), filter_none, app_nil_r.
  - assert (In : forall k v, (k, v) ∈ l -> m !! k = Some v).
    { intros k v H. rewrite Pm in H. now apply elem_of_map_to_list in H. }
    clear Pm Nd. induction l as [| [k v] l IH]; [reflexivity |].
    cbn [fmap list_fmap omap list_omap fst].
    rewrite (In k v) by left. cbn. f_equal.
    apply IH. intros k' v' H. apply In. now right.
  - intros [k v] H Out. apply Out. rewrite <- Pm in H.
    apply list_elem_of_fmap. exists (k, v). auto.
Qed.

End VisitFacts.

(** ** The setters by index *)

Section IndexFacts.

Import Netlink WiFIController.

Variable env : Env.

(** The first record of a list with a given index. *)
Lemma find_by_index_some l idx i :
  find_by_index l idx = Some i ->
  ifIndex i = idx /\ exists k, (k, i) ∈ l.
Proof.
  induction l as [| [k j] l IH]; cbn [find_by_index]; [discriminate |].
  destruct (Z.eqb_spec (ifIndex j) idx) as [Eq | Ne].
  - intros [= <-]. split; [exact Eq |]. exists k. left.
  - intros H. destruct (IH H) as (Ei & k' & In). split; [exact Ei |].
    exists k'. now right.
Qed.

(** The query by index answers from the directory as it stands, in the
    order of the visit. *)
Lemma getInterfaceInfo_byIndex_ret idx s q s' :
  getInterfaceInfo_byIndex env idx s = (Ret q, s') ->
  members s' = members s /\
  q = find_by_index (entries env s') (u32 idx).
Proof.
  intros E. unfold getInterfaceInfo_byIndex in E.
  apply bind_ret in E. destruct E as (r & s1 & E1 & E).
  apply nlExecCommand_ret_members in E1.
  cbn in E. injection E as <- <-. split; [exact E1 | reflexivity].
Qed.

Lemma checked_by_index {P : Type} (cmd : Cmd P unit) idx
    (verdict : InterfaceInfo -> Z) s r s' :
  (nlExecCommand env cmd ;;;
   q <- getInterfaceInfo_byIndex env idx ;;
   i <- value q ;;
   ret (verdict i))%cmd s = (Ret r, s') ->
  members s' = members s /\
  exists k i,
    interfaces s !! k = Some i /\ ifIndex i = u32 idx /\
    find_by_index (entries env s') (u32 idx) = Some i /\
    r = verdict i.
Proof.
  intros E.
  apply bind_ret in E. destruct E as (r1 & s1 & E1 & E).
  apply nlExecCommand_ret_members in E1.
  apply bind_ret in E. destruct E as (q & s2 & E2 & E).
  apply getInterfaceInfo_byIndex_ret in E2. destruct E2 as (M2 & ->).
  rewrite E1 in M2.
  destruct (find_by_index (entries env s2) (u32 idx)) as [i |] eqn:F;
    [| discriminate E].
  cbn in E. injection E as <- <-. split; [exact M2 |].
  destruct (find_by_index_some _ _ _ F) as (Ei & k & In).
  apply visit_lookup in In.
  pose proof (members_fields _ _ M2) as (_ & D & _). rewrite D in In.
  exists k, i. auto.
Qed.

End IndexFacts.

(** X19: The setters by index check their result against a record the
    directory held before the call: the query by index that follows the
    command stores nothing, so when [setInterfaceTxPower(uint32_t, int32_t)]
    or [setInterfaceFrequency(uint32_t, uint16_t, std::string)] returns a
    code, no member of the controller has changed, the directory already
    held a record with that index, and the code is 0 or -1 by the power or
    the frequency of such a record, the first the visit of the directory
    meets, whatever the kernel answered. *)
Theorem setters_byIndex_check_old_record (env : Env) (idx : Z) (s s' : State)
    (r : Z) :
  (forall p,
     WiFIController.setInterfaceTxPower_byIndex env idx p s = (Ret r, s') ->
     members s' = members s /\
     exists k i,
       interfaces s !! k = Some i /\ ifIndex i = u32 idx /\
       WiFIController.find_by_index (entries env s') (u32 idx) = Some i /\
       r = (if p =? txdBm i then 0 else -1)) /\
  (forall f bw,
     WiFIController.setInterfaceFrequency_byIndex env idx f bw s = (Ret r, s') ->
     members s' = members s /\
     exists k i,
       interfaces s !! k = Some i /\ ifIndex i = u32 idx /\
       WiFIController.find_by_index (entries env s') (u32 idx) = Some i /\
       r = (if freq i =? u16 f then 0 else -1)).
Proof.
  split.
  - intros p E.
    exact (checked_by_index env _ idx (fun i => if p =? txdBm i then 0 else -1)
             s r s' E).
  - intros f bw E.
    exact (checked_by_index env _ idx (fun i => if freq i =? u16 f then 0 else -1)
             s r s' E).
Qed.

Lemma setters_byIndex_check_old_record_witness :
  exists k i,
    interfaces (s_known 20) !! k = Some i /\ ifIndex i = u32 3 /\
    WiFIController.find_by_index
      (entries (host kernel_silent)
         (snd (WiFIController.setInterfaceTxPower_byIndex
                 (host kernel_silent) 3 17 (s_known 20)))) (u32 3) = Some i /\
    -1 = (if 17 =? txdBm i then 0 else -1).
Proof.
  apply (proj1 (setters_byIndex_check_old_record (host kernel_silent) 3
                  (s_known 20)
                  (snd (WiFIController.setInterfaceTxPower_byIndex
                          (host kernel_silent) 3 17 (s_known 20)))
                  (-1)) 17).
  vm_compute. reflexivity.
Defined.

(** Two records of one index: the visit decides which of them the setter
    checks, and with it the result. *)
Example setInterfaceTxPower_byIndex_by_visit :
  fst (WiFIController.setInterfaceTxPower_byIndex
         (host_visiting ["wlan0"] kernel_silent) 3 20 s_twins) = Ret 0 /\
  fst (WiFIController.setInterfaceTxPower_byIndex
         (host_visiting ["mon0"] kernel_silent) 3 20 s_twins) = Ret (-1).
Proof. split; vm_compute; reflexivity. Qed.

(** ** Restoring the interfaces *)

Section RestoreFacts.

Import Netlink WiFIController MainController.

Variable env : Env.

(** [mac_n2a] reads six bytes: what follows them does not matter. *)
Lemma mac_n2a_six bytes more :
  length bytes = 6%nat -> Mac.mac_n2a (bytes ++ more) = Mac.mac_n2a bytes.
Proof.
  intros Lb.
  destruct bytes as [| b0 [| b1 [| b2 [| b3 [| b4 [| b5 [| ? ?]]]]]]];
    try discriminate Lb.
  reflexivity.
Qed.

(** Six bytes written as text are read back. *)
Lemma mac_a2n_n2a bytes out :
  length bytes = 6%nat -> length out = 6%nat ->
  Forall (fun b => 0 <= b < 256) bytes ->
  Mac.mac_a2n (Mac.mac_n2a bytes) out = (true, bytes).
Proof.
  intros Lb Lo Hb.
  destruct bytes as [| b0 [| b1 [| b2 [| b3 [| b4 [| b5 [| ? ?]]]]]]];
    try discriminate Lb.
  destruct out as [| o0 [| o1 [| o2 [| o3 [| o4 [| o5 [| ? ?]]]]]]];
    try discriminate Lo.
  repeat match goal with
  | H : Forall _ (_ :: _) |- _ => inversion H; subst; clear H
  end.
  unfold Mac.mac_a2n.
  cbv [Mac.mac_n2a Mac.mac_n2a_loop ETH_ALEN nth Nat.eqb Mac.sprintf_02x
       String.append].
  rewrite mac_a2n_loop_pair by (auto; lia).
  repeat (rewrite mac_a2n_loop_colon;
          rewrite mac_a2n_loop_pair by (auto; lia)).
  reflexivity.
Qed.

Lemma sent_from_same s s' : w_sent s' = w_sent s -> sent_from s s'.
Proof. intros E. exists []. now rewrite app_nil_r. Qed.

Lemma sent_from_refl s : sent_from s s.
Proof. now apply sent_from_same. Qed.

Lemma sent_from_trans s0 s1 s2 :
  sent_from s0 s1 -> sent_from s1 s2 -> sent_from s0 s2.
Proof.
  intros [m1 E1] [m2 E2]. exists (m1 ++ m2)%list.
  now rewrite E2, E1, app_assoc.
Qed.

Lemma nlExecCommand_sent_from {P A : Type} (cmd : Cmd P A) s0 s :
  sent_from s0 s -> sent_from s0 (snd (nlExecCommand env cmd s)).
Proof.
  intros H. apply (sent_from_trans _ _ _ H). clear H.
  unfold nlExecCommand.
  destruct (x_msg_alloc _); cbn [negb]; [| now apply sent_from_same].
  destruct (x_cb_alloc _); cbn [negb orb]; [| now apply sent_from_same].
  destruct (x_s_cb_alloc _); cbn [negb orb]; [| now apply sent_from_same].
  destruct (put_device cmd _) as [msg |]; [| now apply sent_from_same].
  destruct (match pre_execute_handler cmd with
            | Some h => h _ msg (pre_execute_handler_args cmd)
            | None => (0, msg)
            end) as [e0 msg'].
  destruct (e0 =? 0); cbn [negb]; [| now apply sent_from_same].
  destruct (x_send _ <? 0); [now apply sent_from_same |].
  exists [msg']. rewrite (bind_snd_frame w_sent).
  - reflexivity.
  - apply recv_loop_frame.
  - intros x s1. apply after_loop_frame.
Qed.

Lemma sent_from_store s0 info s :
  sent_from s0 s -> sent_from s0 (snd (store info s)).
Proof. auto. Qed.

Lemma sent_from_log s0 (line : string) s :
  sent_from s0 s -> sent_from s0 (add_log line s).
Proof. auto. Qed.

Lemma getInterfaceInfo_sent_from name s0 s :
  sent_from s0 s -> sent_from s0 (snd (getInterfaceInfo env name s)).
Proof.
  apply (getInterfaceInfo_inv env (sent_from s0)).
  - intros P A cmd s1. apply nlExecCommand_sent_from.
  - apply sent_from_store.
  - apply sent_from_log.
Qed.

Lemma restore_loop_sent_from l mac0 s0 s :
  sent_from s0 s -> sent_from s0 (snd (restore_loop env l mac0 s)).
Proof.
  apply (restore_loop_inv env (sent_from s0)).
  - intros P A cmd s1. apply nlExecCommand_sent_from.
  - apply sent_from_store.
  - apply sent_from_log.
Qed.

(** The message of a returning [createInterface]. *)
Lemma createInterface_sent name type mac phy s r s' :
  createInterface env name type mac phy s = (Ret r, s') ->
  exists msg more,
    w_sent s' = (w_sent s ++ msg :: more)%list /\
    nm_cmd msg = NL80211_CMD_NEW_INTERFACE /\
    nm_attrs msg =
      [(NL80211_ATTR_WIPHY, NLA_U32 (u32 phy));
       (NL80211_ATTR_IFNAME, NLA_STRING (c_str name));
       (NL80211_ATTR_IFTYPE, NLA_U32 (u32 type));
       (NL80211_ATTR_MAC, NLA_DATA (take ETH_ALEN mac))].
Proof.
  intros E. unfold createInterface in E.
  apply bind_ret in E. destruct E as ([rc []] & s1 & E1 & E).
  apply bind_ret in E. destruct E as (q & s2 & E2 & E).
  injection E as <- <-.
  apply nlExecCommand_sent in E1.
  destruct E1 as (msg0 & msg & Put & Pre & Sent).
  cbn in Put. apply nla_put_some in Put. destruct Put as (A0 & C0 & _).
  cbn [pre_execute_handler pre_execute_handler_args] in Pre.
  apply createInterfaceHandler_ok in Pre. destruct Pre as (A1 & C1).
  destruct (ret_state (sent_from s1) _ _ _ _
              (getInterfaceInfo_sent_from name s1 s1 (sent_from_refl s1)) E2)
    as [more Em].
  exists msg, more. split; [| split].
  - rewrite Em, Sent, <- app_assoc. reflexivity.
  - now rewrite C1, C0.
  - now rewrite A1, A0.
Qed.

(** A record whose address text [mac_a2n] refuses is passed over: the
    loop goes on without a command. *)
Lemma restore_loop_unreadable l mac0 s :
  Forall (fun i => fst (Mac.mac_a2n (Data.mac i) mac0) = false) l ->
  fst (restore_loop env l mac0 s) = Ret tt /\
  members (snd (restore_loop env l mac0 s)) = members s /\
  w_sent (snd (restore_loop env l mac0 s)) = w_sent s /\
  w_calls (snd (restore_loop env l mac0 s)) = w_calls s.
Proof.
  revert s. induction l as [| i rest IH]; intros s F; cbn [restore_loop].
  - repeat split.
  - inversion F as [| ? ? Hi Hr]; subst.
    destruct (Mac.mac_a2n (Data.mac i) mac0) as [ok m]. cbn [fst] in Hi.
    subst ok. cbn [negb]. unfold bind, when, modify, ret.
    destruct (verbose env);
      match goal with
      | |- context [restore_loop env rest mac0 ?s1] =>
          destruct (IH s1 Hr) as (R & Mm & Ms & Mc);
          rewrite R, Mm, Ms, Mc; repeat split
      end.
Qed.

End RestoreFacts.

(** X20: The loop of [restoreState] passes over every record whose address
    text [mac_a2n] refuses: for a list of such records it returns without
    a command, without a message and without a change to the controller.
    The record built from a reply that carried no address attribute is one
    of them (its text is empty), so such an interface is never
    recreated. *)
Theorem restore_skips_unreadable (env : Env) (l : list InterfaceInfo)
    (mac0 : list Z) (s : State) :
  Forall (fun i => fst (Mac.mac_a2n (Data.mac i) mac0) = false) l ->
  (fst (MainController.restore_loop env l mac0 s) = Ret tt /\
   members (snd (MainController.restore_loop env l mac0 s)) = members s /\
   w_sent (snd (MainController.restore_loop env l mac0 s)) = w_sent s /\
   w_calls (snd (MainController.restore_loop env l mac0 s)) = w_calls s) /\
  (forall b info, _macAddress b = None -> build b = Some info ->
     Data.mac info = EmptyString /\
     fst (Mac.mac_a2n (Data.mac info) mac0) = false).
Proof.
  intros F. split; [now apply restore_loop_unreadable |].
  intros b info Hb [= <-]. cbn. rewrite Hb. split; reflexivity.
Qed.

Lemma restore_skips_unreadable_witness :
  fst (MainController.restore_loop (host kernel_silent)
         [mk_InterfaceInfo "wlan0" 2 3 0 1 "" "" 2412 None None None None None 20]
         [0; 0; 0; 0; 0; 0] s_ready) = Ret tt /\
  w_sent (snd (MainController.restore_loop (host kernel_silent)
                 [mk_InterfaceInfo "wlan0" 2 3 0 1 "" "" 2412 None None None
                    None None 20]
                 [0; 0; 0; 0; 0; 0] s_ready)) = w_sent s_ready.
Proof.
  destruct (proj1 (restore_skips_unreadable (host kernel_silent)
                     [mk_InterfaceInfo "wlan0" 2 3 0 1 "" "" 2412 None None
                        None None None 20]
                     [0; 0; 0; 0; 0; 0] s_ready
                     ltac:(repeat constructor)))
    as (R & _ & S & _).
  split; [exact R | exact S].
Defined.

(** X21: An interface whose reply carried six address bytes is recreated with
    the same bytes: the decoder stores them as text, and when the loop of
    [restoreState] returns on a list that starts with the record, the
    first message it sent is [NEW_INTERFACE] with the phy index, the name,
    the type of the record and the six bytes read back from the text. *)
Theorem restore_recreates (env : Env) (tb : attr_table) (bytes : list Z)
    (info : InterfaceInfo) (rest : list InterfaceInfo) (mac0 : list Z)
    (s s' : State) :
  tb_MAC tb = Some bytes ->
  length bytes = 6%nat -> Forall (fun b => 0 <= b < 256) bytes ->
  build (fst (WiFIController.decode_interface tb)) = Some info ->
  length mac0 = 6%nat ->
  MainController.restore_loop env (info :: rest) mac0 s = (Ret tt, s') ->
  Data.mac info = Mac.mac_n2a bytes /\
  exists msg more,
    w_sent s' = (w_sent s ++ msg :: more)%list /\
    nm_cmd msg = NL80211_CMD_NEW_INTERFACE /\
    nm_attrs msg =
      [(NL80211_ATTR_WIPHY, NLA_U32 (u32 (wiphy info)));
       (NL80211_ATTR_IFNAME, NLA_STRING (c_str (ifName info)));
       (NL80211_ATTR_IFTYPE, NLA_U32 (u32 (ifType info)));
       (NL80211_ATTR_MAC, NLA_DATA bytes)].
Proof.
  intros Hm Lb Fb Hb L0 E.
  assert (Em : Data.mac info = Mac.mac_n2a bytes).
  { clear E. injection Hb as <-.
    destruct tb as [n t i w d m f p behind]. cbn in Hm. subst m.
    rewrite <- (mac_n2a_six bytes (map behind (seq 0 ETH_ALEN)) Lb).
    destruct n, t, i, w, d, f, p; reflexivity. }
  split; [exact Em |].
  cbn [MainController.restore_loop] in E.
  apply bind_ret in E. destruct E as ([] & s1 & E1 & E).
  assert (S1 : w_sent s1 = w_sent s).
  { unfold MainController.when in E1.
    destruct (verbose env); now injection E1 as <-. }
  rewrite Em, (mac_a2n_n2a bytes mac0 Lb L0 Fb) in E. cbn [negb] in E.
  apply bind_ret in E. destruct E as (rc & s2 & E2 & E).
  apply createInterface_sent in E2.
  destruct E2 as (msg & more & Sent & C & At).
  apply bind_ret in E. destruct E as ([] & s3 & E3 & E).
  assert (S3 : w_sent s3 = w_sent s2).
  { unfold MainController.when in E3.
    destruct (rc <? 0); now injection E3 as <-. }
  pose proof (restore_loop_sent_from env rest mac0 s3 s3 (sent_from_refl s3))
    as [more' Em'].
  rewrite E in Em'. cbn [snd] in Em'.
  exists msg, (more ++ more')%list. split; [| split; [exact C |]].
  - rewrite Em', S3, Sent, S1, <- app_assoc. reflexivity.
  - rewrite At. rewrite take_ge by (unfold ETH_ALEN; lia). reflexivity.
Qed.

Lemma restore_recreates_witness :
  exists msg more,
    w_sent (snd (MainController.restore_loop (host kernel_existing)
                   [wlan0_record 0] [0; 0; 0; 0; 0; 0] s_ready))
      = (w_sent s_ready ++ msg :: more)%list /\
    nm_cmd msg = NL80211_CMD_NEW_INTERFACE /\
    nm_attrs msg =
      [(NL80211_ATTR_WIPHY, NLA_U32 (u32 (wiphy (wlan0_record 0))));
       (NL80211_ATTR_IFNAME, NLA_STRING (c_str (ifName (wlan0_record 0))));
       (NL80211_ATTR_IFTYPE, NLA_U32 (u32 (ifType (wlan0_record 0))));
       (NL80211_ATTR_MAC, NLA_DATA [0; 17; 34; 51; 68; 85])].
Proof.
  apply (restore_recreates (host kernel_existing)
           (m_attrs (reply_interface "wlan0" 3)) [0; 17; 34; 51; 68; 85]
           (wlan0_record 0) [] [0; 0; 0; 0; 0; 0] s_ready).
  - reflexivity.
  - reflexivity.
  - repeat constructor; lia.
  - vm_compute. reflexivity.
  - reflexivity.
  - vm_compute. reflexivity.
Defined.

(** ** Bringing an interface up or down *)

Section StatusFacts.

Import WiFIController.

Variable env : Env.
Variable h : Host.


Lemma wbind_snd_inv {X Y : Type} (I : World -> Prop) (c : W X) (k : X -> W Y) w :
  I (snd (c w)) -> (forall x w1, c w = (Ret x, w1) -> I (snd (k x w1))) ->
  I (snd (wbind c k w)).
Proof.
  intros Hc Hk. unfold wbind. destruct (c w) as [[x | ex | |] w1] eqn:E;
    cbn [snd] in *; try exact Hc.
  now apply Hk.
Qed.

Lemma lift_ret {X : Type} (c : M X) w x w1 :
  lift c w = (Ret x, w1) ->
  exists s1, c (controller w) = (Ret x, s1) /\ w1 = set_controller s1 w.
Proof.
  unfold lift. destruct (c (controller w)) as [r s1].
  intros [= -> <-]. eauto.
Qed.

Lemma retain_same x f : retain x f x = S (f x).
Proof. unfold retain. now rewrite Nat.eqb_refl. Qed.

Lemma retain_other x y f : y <> x -> retain x f y = f y.
Proof. intros N. unfold retain. now destruct (Nat.eqb_spec y x). Qed.

Lemma give_back_other x y f : y <> x -> give_back x f y = f y.
Proof. intros N. unfold give_back. now destruct (Nat.eqb_spec y x). Qed.

Lemma give_back_retain x f y : give_back x (retain x f) y = f y.
Proof. unfold give_back, retain. now destruct (Nat.eqb_spec y x). Qed.

Lemma put_held l w k :
  p_links w (l_ref l) = S k ->
  rtnl_link_put l w = (Ret tt, set_p_links (give_back (l_ref l) (p_links w)) w).
Proof. intros E. unfold rtnl_link_put. now rewrite E. Qed.

(** The outcome of [setInterfaceStatus], path by path. *)
Lemma setInterfaceStatus_paths name up w :
  let w' := snd (setInterfaceStatus env h name up w) in
  let n := p_calls w in
  let got := rtnl_link_get_kernel h n (c_str name) in
  let original := mk_rtnl_link n (fst (snd got)) (snd (snd got)) 0 in
  let modified :=
    mk_rtnl_link (S n) (fst (snd got))
      (if up then Z.lor 0 IFF_UP else Z.land 0 (Z.lnot IFF_UP))
      (Z.lor 0 IFF_UP) in
  (forall x, p_links w' x = p_links w x) /\
  (members (controller w') = members (controller w) /\
   w_sent (controller w') = w_sent (controller w) /\
   p_commands w' = p_commands w) /\
  match rnl_socket (nlstate (controller w)) with
  | None =>
      fst (setInterfaceStatus env h name up w) = Ret (- ENOTCONN) /\
      p_calls w' = n /\ p_changes w' = p_changes w
  | Some _ =>
      if fst got <? 0 then
        fst (setInterfaceStatus env h name up w) = Ret (fst got) /\
        p_calls w' = S n /\ p_changes w' = p_changes w
      else if negb (rtnl_link_alloc h (S n)) then
        fst (setInterfaceStatus env h name up w) = Ret (- NLE_NOMEM) /\
        p_calls w' = S (S n) /\ p_changes w' = p_changes w
      else
        fst (setInterfaceStatus env h name up w)
          = Ret (if rtnl_link_change h (S (S n)) original modified <? 0
                 then rtnl_link_change h (S (S n)) original modified
                 else 0) /\
        p_calls w' = S (S (S n)) /\
        p_changes w' = (p_changes w ++ [(original, modified)])%list
  end.
Proof.
  cbv zeta. unfold setInterfaceStatus, wbind, wget.
  destruct (rnl_socket (nlstate (controller w))) as [sk |] eqn:Sk;
    [| cbn; rewrite ?Sk; repeat split].
  unfold call.
  destruct (rtnl_link_get_kernel h (p_calls w) (c_str name))
    as [err [ifindex flags]]. cbn [fst snd].
  destruct (err <? 0); [cbn; rewrite ?Sk; repeat split |].
  unfold hold, wmodify, logger, wret.
  cbn [p_calls set_p_calls set_p_links p_links l_ref].
  destruct (rtnl_link_alloc h (S (p_calls w))); cbn [negb].
  - set (original := mk_rtnl_link (p_calls w) ifindex flags 0).
    match goal with
    | |- context [rtnl_link_put ?m ?w0] =>
        rewrite (put_held m w0 (p_links w (S (p_calls w))))
    end.
    2:{ destruct up; cbn; rewrite retain_same, retain_other by lia; reflexivity. }
    match goal with
    | |- context [rtnl_link_put original ?w0] =>
        rewrite (put_held original w0 (p_links w (p_calls w)))
    end.
    2:{ destruct up; cbn; rewrite give_back_other by lia;
        rewrite retain_other by lia; apply retain_same. }
    assert (Bal : forall x,
              give_back (p_calls w)
                (give_back (S (p_calls w))
                   (retain (S (p_calls w)) (retain (p_calls w) (p_links w)))) x
              = p_links w x).
    { intros x. unfold give_back, retain.
      destruct (Nat.eqb_spec x (p_calls w)); destruct (Nat.eqb_spec x (S (p_calls w)));
        subst; try lia; reflexivity. }
    subst original.
    unfold rtnl_link_set_flags, rtnl_link_unset_flags, rtnl_link_set_ifindex.
    destruct up; cbn -[retain give_back Z.ltb Z.lor Z.land Z.lnot];
      match goal with
      | |- context [rtnl_link_change h ?a ?b ?c <? 0] =>
          destruct (rtnl_link_change h a b c <? 0)
      end;
      try destruct (verbose env);
      cbn -[retain give_back Z.lor Z.land Z.lnot];
      rewrite ?Sk; (split; [exact Bal | repeat split]).
  - rewrite (put_held _ _ (p_links w (p_calls w)))
      by (cbn; apply retain_same).
    cbn -[retain give_back]. rewrite ?Sk. split; [| repeat split].
    intros x. apply give_back_retain.
Qed.

End StatusFacts.

(** X22: [setInterfaceStatus] always returns, with 0 or a negative code, and
    holds no link reference it did not hold before: the link it obtained
    and the link it allocated are given back on every path, each once.
    Without a route socket it returns -ENOTCONN before any call to the
    library. *)
Theorem setInterfaceStatus_releases_links (env : Env) (h : Host)
    (name : string) (up : bool) (w : World) :
  (exists rc,
     fst (WiFIController.setInterfaceStatus env h name up w) = Ret rc /\
     rc <= 0) /\
  (forall x,
     p_links (snd (WiFIController.setInterfaceStatus env h name up w)) x
       = p_links w x) /\
  (rnl_socket (nlstate (controller w)) = None ->
   fst (WiFIController.setInterfaceStatus env h name up w) = Ret (- ENOTCONN) /\
   p_calls (snd (WiFIController.setInterfaceStatus env h name up w))
     = p_calls w /\
   p_changes (snd (WiFIController.setInterfaceStatus env h name up w))
     = p_changes w).
Proof.
  pose proof (setInterfaceStatus_paths env h name up w) as H. cbv zeta in H.
  destruct H as (Bal & _ & H). split; [| split; [exact Bal |]].
  - destruct (rnl_socket (nlstate (controller w))).
    + destruct (Z.ltb_spec
                  (fst (rtnl_link_get_kernel h (p_calls w) (c_str name))) 0).
      * destruct H as (-> & _). eexists. split; [reflexivity | lia].
      * destruct (rtnl_link_alloc h (S (p_calls w))); cbn [negb] in H;
          destruct H as (-> & _); eexists; (split; [reflexivity |]).
        -- match goal with
           | |- (if ?c <? 0 then _ else _) <= 0 => destruct (Z.ltb_spec c 0)
           end; lia.
        -- unfold NLE_NOMEM. lia.
    + destruct H as (-> & _). eexists. split; [reflexivity |].
      unfold ENOTCONN. lia.
  - intros E. rewrite E in H. exact H.
Qed.

Lemma setInterfaceStatus_releases_links_witness :
  fst (WiFIController.setInterfaceStatus (host kernel_silent) platform "mon0"
         true w_boot) = Ret (- ENOTCONN).
Proof.
  apply (setInterfaceStatus_releases_links (host kernel_silent) platform "mon0"
           true w_boot).
  reflexivity.
Defined.

(** X23: [setInterfaceStatus] returns 0 only after one change request, and the
    request is for the interface the kernel resolved the name to: the
    changed link carries the index of the link obtained, has [IFF_UP] as
    the only flag in its mask, and has the flag set exactly when [up] is
    true; the request itself was answered with a code that is not
    negative. *)
Theorem setInterfaceStatus_request (env : Env) (h : Host) (name : string)
    (up : bool) (w : World) :
  fst (WiFIController.setInterfaceStatus env h name up w) = Ret 0 ->
  exists original modified,
    p_changes (snd (WiFIController.setInterfaceStatus env h name up w))
      = (p_changes w ++ [(original, modified)])%list /\
    l_index original
      = fst (snd (rtnl_link_get_kernel h (p_calls w) (c_str name))) /\
    l_index modified = l_index original /\
    l_flag_mask modified = IFF_UP /\
    l_flags modified = (if up then IFF_UP else 0) /\
    0 <= rtnl_link_change h (S (S (p_calls w))) original modified.
Proof.
  pose proof (setInterfaceStatus_paths env h name up w) as H. cbv zeta in H.
  destruct H as (_ & _ & H). intros E.
  destruct (rnl_socket (nlstate (controller w))).
  - destruct (Z.ltb_spec
                (fst (rtnl_link_get_kernel h (p_calls w) (c_str name))) 0).
    + destruct H as (R & _). rewrite R in E. injection E as E. lia.
    + destruct (rtnl_link_alloc h (S (p_calls w))); cbn [negb] in H.
      * destruct H as (R & _ & C). rewrite R in E. injection E as E.
        eexists. eexists. split; [exact C |].
        cbn [l_index l_flag_mask l_flags].
        split; [reflexivity |]. split; [reflexivity |].
        split; [reflexivity |]. split; [destruct up; reflexivity |].
        match type of E with
        | (if ?c <? 0 then _ else _) = 0 => destruct (Z.ltb_spec c 0)
        end; lia.
      * destruct H as (R & _). rewrite R in E. discriminate E.
  - destruct H as (R & _). rewrite R in E. discriminate E.
Qed.

Lemma setInterfaceStatus_request_witness :
  exists original modified,
    p_changes (snd (WiFIController.setInterfaceStatus (host kernel_silent)
                      platform "mon0" true w_ready))
      = (p_changes w_ready ++ [(original, modified)])%list /\
    l_index modified = 3 /\ l_flags modified = IFF_UP.
Proof.
  destruct (setInterfaceStatus_request (host kernel_silent) platform "mon0"
              true w_ready eq_refl)
    as (o & m & C & I0 & I1 & _ & F & _).
  exists o, m. split; [exact C |]. split; [| exact F].
  rewrite I1, I0. reflexivity.
Defined.

(** ** Setting up the monitor and the access-point interface *)

Section SetupFacts.

Import Netlink WiFIController.

Variable env : Env.
Variable h : Host.

Lemma lift_snd {X : Type} (c : M X) w :
  snd (lift c w) = set_controller (snd (c (controller w))) w.
Proof. unfold lift. now destruct (c (controller w)). Qed.


Lemma rfkill_unblock_ret w :
  exists w',
    rfkill_unblock h w = (Ret tt, w') /\ controller w' = controller w /\
    p_changes w' = p_changes w /\ p_links w' = p_links w /\
    p_commands w' = (p_commands w ++ ["rfkill unblock all"%string])%list.
Proof.
  unfold rfkill_unblock, wbind, call, wmodify, sleep_for. cbn.
  destruct (system h (p_calls w) _ =? 0); eexists; repeat split.
Qed.





(** The verdict of the power setting is 0 or -1. *)
Lemma setInterfaceTxPower_code name p s r s' :
  setInterfaceTxPower env name p s = (Ret r, s') -> r = 0 \/ r = -1.
Proof.
  intros E. unfold setInterfaceTxPower in E.
  apply bind_ret in E. destruct E as ([rc []] & s1 & E1 & E).
  apply bind_ret in E. destruct E as (q & s2 & E2 & E).
  destruct q as [info |]; cbn in E; injection E as <- _; [| auto].
  destruct (p =? txdBm info); auto.
Qed.

Lemma txpower_loop_once fuel tx w :
  txpower_loop env h (S fuel) tx w =
  wbind (lift (setInterfaceTxPower env (AP_INTERFACE_NAME h) (s32 tx)))
    (fun _ => wret (Done tt)) w.
Proof.
  cbn [txpower_loop]. unfold wbind.
  destruct (lift (setInterfaceTxPower env (AP_INTERFACE_NAME h) (s32 tx)) w)
    as [[err | ex | |] w1] eqn:E; try reflexivity.
  apply lift_ret in E. destruct E as (s1 & E & _).
  apply setInterfaceTxPower_code in E.
  destruct (Z.ltb_spec 0 err); [lia | reflexivity].
Qed.

End SetupFacts.


(** X25: The power loop of [createApInterface] never repeats: the code
    [setInterfaceTxPower] returns is never positive, so for every bound of
    at least one iteration the loop is one call of [setInterfaceTxPower]
    for the access-point interface; it leaves the controller as that call
    does, runs no command, does not sleep and does not reach the bound. *)
Theorem createApInterface_power_once (env : Env) (h : Host) (fuel : nat)
    (tx : Z) (w : World) :
  let r := WiFIController.txpower_loop env h (S fuel) tx w in
  fst r <> Ret OutOfFuel /\
  controller (snd r)
    = snd (WiFIController.setInterfaceTxPower env (AP_INTERFACE_NAME h)
             (s32 tx) (controller w)) /\
  p_commands (snd r) = p_commands w /\ p_slept (snd r) = p_slept w /\
  (forall e s',
     WiFIController.setInterfaceTxPower env (AP_INTERFACE_NAME h) (s32 tx)
       (controller w) = (Ret e, s') ->
     e <= 0 /\ fst r = Ret (Done tt)).
Proof.
  cbv zeta. rewrite txpower_loop_once. unfold wbind, lift, wret.
  destruct (WiFIController.setInterfaceTxPower env (AP_INTERFACE_NAME h)
              (s32 tx) (controller w)) as [[e | ex | |] s1] eqn:E;
    cbn [fst snd]; (split; [discriminate |]); (split; [reflexivity |]);
    (split; [reflexivity |]); (split; [reflexivity |]); intros e' s' Hr;
    try discriminate Hr.
  injection Hr as <- <-. split; [| reflexivity].
  apply setInterfaceTxPower_code in E. lia.
Qed.

Lemma createApInterface_power_once_witness :
  fst (WiFIController.txpower_loop (host (kernel_power 2000)) platform 1 20
         w_ready) = Ret (Done tt).
Proof.
  apply (proj2 (proj2 (proj2 (proj2
           (createApInterface_power_once (host (kernel_power 2000)) platform
              0 20 w_ready))))
         0 (snd (WiFIController.setInterfaceTxPower (host (kernel_power 2000))
                   "ap0" (s32 20) (controller w_ready)))).
  vm_compute. reflexivity.
Defined.

(** ** Initialising the interfaces *)

Section InitFacts.

Import Netlink WiFIController MainController.

Variable env : Env.

Lemma deleteInterface_members name s :
  members (snd (deleteInterface env name s)) = members s.
Proof.
  unfold deleteInterface, bind.
  pose proof (nlExecCommand_members env
    (mk_Cmd NL80211_CMD_DEL_INTERFACE CIB_NETDEV 0
       (if_nametoindex env (c_str name)) None None tt tt) s) as H.
  destruct (nlExecCommand env _ s) as [[r | ex | |] s1]; exact H.
Qed.

Lemma members_restore s s' :
  members s' = members s -> interfacesToRestore s' = interfacesToRestore s.
Proof. unfold members. now intros [= _ _ -> _ _]. Qed.

Lemma find_intel_cons k i l phy w :
  find_intel env ((k, i) :: l) phy w =
  let w1 := set_controller
              (add_log ("interface " +:+ ifName i +:+ LF) (controller w)) w in
  if String.eqb (ifName i) "wlp4s0" then
    wbind (wmodify (push_back i))
      (fun _ => wbind (lift (deleteInterface env (ifName i)))
                  (fun _ => wret (wiphy i))) w1
  else find_intel env l phy w1.
Proof.
  cbn [find_intel]. unfold wbind at 1, logger at 1. cbn [fst snd].
  destruct (String.eqb (ifName i) "wlp4s0"); reflexivity.
Qed.

(** A walk that meets no record named wlp4s0 keeps the phy and the list. *)
Lemma find_intel_miss l phy w :
  (forall k i, (k, i) ∈ l -> ifName i <> "wlp4s0") ->
  fst (find_intel env l phy w) = Ret phy /\
  members (controller (snd (find_intel env l phy w))) = members (controller w) /\
  w_sent (controller (snd (find_intel env l phy w))) = w_sent (controller w) /\
  p_calls (snd (find_intel env l phy w)) = p_calls w.
Proof.
  revert w. induction l as [| [k i] l IH]; intros w Hn; [now cbn |].
  rewrite find_intel_cons. cbv zeta.
  destruct (String.eqb_spec (ifName i) "wlp4s0") as [Eq | Ne].
  - exfalso. apply (Hn k i); [left | exact Eq].
  - destruct (IH (set_controller
                    (add_log ("interface " +:+ ifName i +:+ LF) (controller w)) w))
      as (R & Mm & Se & Pc).
    { intros k' i' In. apply (Hn k' i'). now right. }
    split; [exact R |]. rewrite Mm, Se, Pc. repeat split.
Qed.

Lemma deleteInterface_sent name s s' :
  deleteInterface env name s = (Ret tt, s') ->
  exists msg,
    w_sent s' = (w_sent s ++ [msg])%list /\
    nm_cmd msg = NL80211_CMD_DEL_INTERFACE /\
    nm_attrs msg =
      [(NL80211_ATTR_IFINDEX,
        NLA_U32 (u32 (if_nametoindex env (c_str name))))].
Proof.
  intros E. unfold deleteInterface in E.
  apply bind_ret in E. destruct E as ([rc []] & s1 & E1 & E).
  injection E as <-.
  exact (netdev_command_sent env _ _ _ _ _ _ _ _ E1).
Qed.

(** A walk that meets a record named wlp4s0 after records of other names
    appends that record and yields its phy. *)
Lemma find_intel_hit l1 k i l2 phy w :
  (forall k' i', (k', i') ∈ l1 -> ifName i' <> "wlp4s0") ->
  ifName i = "wlp4s0" ->
  interfacesToRestore (controller (snd (find_intel env (l1 ++ (k, i) :: l2) phy w)))
    = (interfacesToRestore (controller w) ++ [i])%list /\
  (forall p, fst (find_intel env (l1 ++ (k, i) :: l2) phy w) = Ret p ->
     p = wiphy i /\
     exists msg,
       w_sent (controller (snd (find_intel env (l1 ++ (k, i) :: l2) phy w)))
         = (w_sent (controller w) ++ [msg])%list /\
       nm_cmd msg = NL80211_CMD_DEL_INTERFACE /\
       nm_attrs msg =
         [(NL80211_ATTR_IFINDEX,
           NLA_U32 (u32 (if_nametoindex env (c_str "wlp4s0"))))]).
Proof.
  revert w. induction l1 as [| [k1 i1] l1 IH]; intros w Hn Eq.
  - cbn [app]. rewrite find_intel_cons. cbv zeta.
    destruct (String.eqb_spec (ifName i) "wlp4s0") as [_ | Ne];
      [| contradiction].
    unfold wbind, wmodify, lift, wret.
    set (w1 := push_back i _).
    assert (R1 : interfacesToRestore (controller w1)
                 = (interfacesToRestore (controller w) ++ [i])%list)
      by reflexivity.
    assert (S1 : w_sent (controller w1) = w_sent (controller w)) by reflexivity.
    clearbody w1.
    destruct (deleteInterface env (ifName i) (controller w1))
      as [[[] | ex | |] s2] eqn:E; cbn [fst snd];
      (split; [cbn; rewrite <- R1; apply members_restore;
               rewrite <- (deleteInterface_members (ifName i) (controller w1)), E;
               reflexivity |]);
      intros p Hp; try discriminate Hp.
    injection Hp as <-. split; [reflexivity |].
    rewrite Eq in E.
    destruct (deleteInterface_sent _ _ _ E) as (msg & Se & C & At).
    exists msg. unfold set_controller. cbn [snd controller]. rewrite Se, S1. auto.
  - cbn [app]. rewrite find_intel_cons. cbv zeta.
    destruct (String.eqb_spec (ifName i1) "wlp4s0") as [Eq1 | Ne].
    + exfalso. apply (Hn k1 i1); [left | exact Eq1].
    + destruct (IH (set_controller
                    (add_log ("interface " +:+ ifName i1 +:+ LF) (controller w)) w))
        as (R & P); [intros k' i' In; apply (Hn k' i'); now right | exact Eq |].
      split; [exact R | exact P].
Qed.

(** Where the walk over a directory keyed by name meets wlp4s0, in whatever
    order the entries come: nowhere without such an entry, and else at the
    entry itself, after records of other names only. *)
Lemma keyed_walk (m : gmap string InterfaceInfo) l :
  keyed m -> l ≡ₚ map_to_list m ->
  match m !! "wlp4s0" with
  | None => forall k i, (k, i) ∈ l -> ifName i <> "wlp4s0"
  | Some i =>
      ifName i = "wlp4s0" /\
      exists l1 l2,
        l = (l1 ++ ("wlp4s0", i) :: l2)%list /\
        forall k' i', (k', i') ∈ l1 -> ifName i' <> "wlp4s0"
  end.
Proof.
  intros K Pm.
  assert (In : forall k i, (k, i) ∈ l -> m !! k = Some i).
  { intros k i Hin. rewrite Pm in Hin. now apply elem_of_map_to_list in Hin. }
  destruct (m !! "wlp4s0") as [i |] eqn:Lk.
  - assert (Hi : ("wlp4s0", i) ∈ l)
      by (rewrite Pm; now apply elem_of_map_to_list).
    apply list_elem_of_split in Hi. destruct Hi as (l1 & l2 & ->).
    assert (Nd : NoDup (fmap fst (l1 ++ ("wlp4s0", i) :: l2)%list))
      by (rewrite Pm; apply NoDup_fst_map_to_list).
    rewrite fmap_app, fmap_cons in Nd. cbn [fst] in Nd.
    apply NoDup_app in Nd. destruct Nd as (_ & Nd & _).
    split; [now apply K |]. exists l1, l2. split; [reflexivity |].
    intros k' i' Hin Eq.
    assert (Lk' : m !! k' = Some i').
    { apply In. apply elem_of_app. now left. }
    apply K in Lk'. rewrite Eq in Lk'. subst k'.
    apply (Nd "wlp4s0"); [| left].
    apply list_elem_of_fmap. exists ("wlp4s0", i'). split; [reflexivity | exact Hin].
  - intros k i Hin Eq. pose proof (In k i Hin) as Lk'.
    pose proof (K _ _ Lk') as Kk. rewrite Eq in Kk. subst k. congruence.
Qed.

End InitFacts.

(** X26: The loop of [initInterface] over a directory keyed by name gives the
    same outcome in whatever order the entries come.  Without an entry
    wlp4s0 it keeps [intel_phy] and the members of the controller and
    sends nothing.  With one, it appends exactly that record to the
    interfaces to restore, and when it returns it yields the phy of that
    record and has sent one deletion for the index of wlp4s0. *)
Theorem initInterface_walk (env : Env) (m : gmap string InterfaceInfo)
    (l : list (string * InterfaceInfo)) (phy : Z) (w : World) :
  keyed m -> l ≡ₚ map_to_list m ->
  let r := MainController.find_intel env l phy w in
  match m !! "wlp4s0" with
  | None =>
      fst r = Ret phy /\
      members (controller (snd r)) = members (controller w) /\
      w_sent (controller (snd r)) = w_sent (controller w)
  | Some i =>
      ifName i = "wlp4s0" /\
      interfacesToRestore (controller (snd r))
        = (interfacesToRestore (controller w) ++ [i])%list /\
      (forall p, fst r = Ret p ->
         p = wiphy i /\
         exists msg,
           w_sent (controller (snd r))
             = (w_sent (controller w) ++ [msg])%list /\
           nm_cmd msg = NL80211_CMD_DEL_INTERFACE /\
           nm_attrs msg =
             [(NL80211_ATTR_IFINDEX,
               NLA_U32 (u32 (if_nametoindex env (c_str "wlp4s0"))))])
  end.
Proof.
  intros K Pm. cbv zeta.
  pose proof (keyed_walk m l K Pm) as Wk.
  destruct (m !! "wlp4s0") as [i |].
  - destruct Wk as (Ni & l1 & l2 & -> & Other).
    split; [exact Ni |]. now apply find_intel_hit.
  - destruct (find_intel_miss env l phy w Wk) as (R & Mm & Se & _). auto.
Qed.

Lemma initInterface_walk_witness :
  interfacesToRestore
    (controller
       (snd (MainController.find_intel (host kernel_silent)
               (map_to_list (interfaces (controller w_intel))) 0 w_intel)))
    = [wlp4s0_record] /\
  fst (MainController.find_intel (host kernel_silent)
         (map_to_list (interfaces (controller w_intel))) 0 w_intel) = Ret 1.
Proof.
  assert (K : keyed (interfaces (controller w_intel))).
  { intros k i H. cbn in H. apply lookup_insert_Some in H.
    destruct H as [[<- <-] | [_ H]]; [reflexivity |].
    apply lookup_insert_Some in H.
    destruct H as [[<- <-] | [_ H]]; [reflexivity |].
    rewrite lookup_empty in H. discriminate H. }
  pose proof (initInterface_walk (host kernel_silent)
                (interfaces (controller w_intel))
                (map_to_list (interfaces (controller w_intel))) 0 w_intel K
                ltac:(reflexivity)) as H.
  cbv zeta in H.
  change (interfaces (controller w_intel) !! "wlp4s0")
    with (Some wlp4s0_record) in H.
  destruct H as (_ & R & _). split; [exact R |].
  vm_compute. reflexivity.
Defined.

Section InitTry.

Import Netlink WiFIController MainController.

Variable env : Env.
Variable h : Host.

Lemma init_frame s :
  interfaces (snd (Netlink.init env s)) = interfaces s /\
  interfacesToRestore (snd (Netlink.init env s)) = interfacesToRestore s.
Proof.
  unfold Netlink.init, Netlink.nlInit, bind, modify, ret.
  destruct (nl_socket_alloc_gnl env); [| now cbn].
  destruct (genl_connect env =? 0); cbn [negb]; [| now cbn].
  destruct (genl_ctrl_resolve env <? 0); [now cbn |].
  destruct (nl_socket_alloc_rnl env); [| now cbn].
  destruct (nl_connect env <? 0); now cbn.
Qed.

Lemma restore_exec L (P A : Type) (cmd : Cmd P A) s :
  interfacesToRestore s = L ->
  interfacesToRestore (snd (nlExecCommand env cmd s)) = L.
Proof.
  intros <-. apply members_restore, nlExecCommand_members.
Qed.

Lemma restore_store L info s :
  interfacesToRestore s = L -> interfacesToRestore (snd (store info s)) = L.
Proof. auto. Qed.

Lemma restore_log L (line : string) s :
  interfacesToRestore s = L -> interfacesToRestore (add_log line s) = L.
Proof. auto. Qed.

Lemma keyed_store m info : keyed m -> keyed (<[ifName info := info]> m).
Proof.
  intros Km k i. destruct (decide (ifName info = k)) as [<- | Ne].
  - rewrite lookup_insert_eq. now intros [= <-].
  - rewrite lookup_insert_ne by exact Ne. apply Km.
Qed.

Lemma frequency_loop_restore fuel f w :
  interfacesToRestore (controller (snd (frequency_loop env h fuel f w)))
    = interfacesToRestore (controller w).
Proof.
  revert w. induction fuel as [| fuel IH]; intros w; [reflexivity |].
  cbn [frequency_loop].
  apply (wbind_snd_inv
           (fun w' => interfacesToRestore (controller w')
                      = interfacesToRestore (controller w))).
  - rewrite lift_snd. cbn.
    apply (setInterfaceFrequency_inv env
             (fun s => interfacesToRestore s = interfacesToRestore (controller w)));
      auto using restore_exec, restore_store, restore_log.
  - intros err w1 E1.
    assert (R1 : interfacesToRestore (controller w1)
                 = interfacesToRestore (controller w)).
    { apply lift_ret in E1. destruct E1 as (s1 & E1 & ->). cbn.
      pose proof (setInterfaceFrequency_inv env
             (fun s => interfacesToRestore s = interfacesToRestore (controller w))
             (restore_exec _) (restore_store _) (restore_log _)
             (MONITOR_INTERFACE_NAME env) f (c_str (arguments_bandwidth h))
             (controller w) eq_refl) as H.
      now rewrite E1 in H. }
    destruct (err <? 0); [| exact R1].
    set (I := fun w' : World =>
                interfacesToRestore (controller w')
                = interfacesToRestore (controller w)).
    apply (wbind_snd_inv I); [exact R1 |]. intros [] w2 E2.
    injection E2 as <-.
    destruct (rfkill_unblock_ret h
                (set_controller
                   (add_log ("Failed to set frequency (" +:+ dec err +:+ ")" +:+ LF)
                      (controller w1)) w1)) as (w3 & R & C3 & _).
    apply (wbind_snd_inv I); [rewrite R; unfold I; cbn; rewrite C3; exact R1 |].
    intros [] w3' E3. rewrite R in E3. injection E3 as <-.
    apply (wbind_snd_inv I); [unfold I; cbn; rewrite C3; exact R1 |].
    intros [] w4 E4. injection E4 as <-.
    unfold I. rewrite IH. cbn. rewrite C3. exact R1.
Qed.

Lemma createMonitorInterface_restore fuel phy f tx mac w :
  interfacesToRestore
    (controller (snd (createMonitorInterface env h fuel phy f tx mac w)))
    = interfacesToRestore (controller w).
Proof.
  unfold createMonitorInterface.
  set (I := fun w' : World =>
              interfacesToRestore (controller w')
              = interfacesToRestore (controller w)).
  assert (C1 : forall name type s,
             interfacesToRestore s = interfacesToRestore (controller w) ->
             interfacesToRestore (snd (createInterface env name type mac phy s))
             = interfacesToRestore (controller w)).
  { intros name type s Hs.
    apply (createInterface_inv env
             (fun s => interfacesToRestore s = interfacesToRestore (controller w)));
      auto using restore_exec, restore_store, restore_log. }
  apply (wbind_snd_inv I); [unfold I; rewrite lift_snd; cbn; now apply C1 |].
  intros rc w1 E1.
  assert (R1 : I w1).
  { apply lift_ret in E1. destruct E1 as (s1 & E1 & ->). unfold I. cbn.
    pose proof (C1 (MONITOR_INTERFACE_NAME env) NL80211_IFTYPE_MONITOR
                  (controller w) eq_refl) as H.
    now rewrite E1 in H. }
  destruct (rc <? 0).
  { apply (wbind_snd_inv I); [exact R1 |]. intros [] w2 E2.
    injection E2 as <-. exact R1. }
  pose proof (setInterfaceStatus_paths env h (MONITOR_INTERFACE_NAME env) true w1)
    as H. cbv zeta in H. destruct H as (_ & (Mm & _) & _).
  apply members_restore in Mm.
  apply (wbind_snd_inv I); [unfold I; now rewrite Mm |].
  intros rc2 w2 E2. rewrite E2 in Mm. cbn [snd] in Mm.
  destruct (rc2 <? 0).
  { apply (wbind_snd_inv I); [unfold I; cbn; now rewrite Mm |].
    intros [] w3 E3. injection E3 as <-. unfold I. cbn. now rewrite Mm. }
  apply (wbind_snd_inv I); [unfold I; cbn; now rewrite Mm |].
  intros [] w3 E3. injection E3 as <-.
  unfold I. rewrite frequency_loop_restore. cbn. now rewrite Mm.
Qed.

(** X27: However the [try] block of [initInterface] ends, from a directory
    keyed by name it leaves the list of interfaces to restore as it was or
    longer by one record, and that record is named wlp4s0: the allocation
    of the sockets, the dump, the setting up of the monitor interface and
    its retries add nothing to the list. *)
Theorem initInterface_restore_list (fuel : nat) (w : World) :
  keyed (interfaces (controller w)) ->
  interfacesToRestore (controller (snd (initInterface_try env h fuel w)))
    = interfacesToRestore (controller w) \/
  exists i,
    ifName i = "wlp4s0" /\
    interfacesToRestore (controller (snd (initInterface_try env h fuel w)))
      = (interfacesToRestore (controller w) ++ [i])%list.
Proof.
  intros K. unfold initInterface_try.
  set (L := interfacesToRestore (controller w)).
  set (I := fun w' : World =>
              interfacesToRestore (controller w') = L \/
              exists i, ifName i = "wlp4s0" /\
                interfacesToRestore (controller w') = (L ++ [i])%list).
  set (G := fun w' : World =>
              interfacesToRestore (controller w') = L /\
              keyed (interfaces (controller w'))).
  change (I (snd ((logger ("Initializing the WiFi Controller" +:+ LF) ;;;
                   lift (Netlink.init env) ;;;
                   logger ("Obtaining all WiFi Interfaces" +:+ LF) ;;;
                   lift (getAllInterfaces env) ;;;
                   w0 <- wget ;;
                   intel_phy <- find_intel env (entries env (controller w0)) 0 ;;
                   logger ("Using phy " +:+ dec intel_phy +:+ LF) ;;;
                   r <- createMonitorInterface env h fuel intel_phy
                          (arguments_frequency h) (arguments_txPower h)
                          (arguments_mac h) ;;
                   match r with
                   | OutOfFuel => wret OutOfFuel
                   | Done _ =>
                       logger ("Monitor interface created" +:+ LF) ;;;
                       sleep_for 500 ;;; sleep_for 500 ;;; wret (Done tt)
                   end)%host w))).
  assert (G0 : G w) by (split; [reflexivity | exact K]).
  clearbody L. clear K.
  apply (wbind_snd_inv I); [left; apply G0 |]. intros [] w1 E1.
  injection E1 as <-.
  set (w1 := set_controller _ w).
  assert (G1 : G w1) by exact G0. clearbody w1. clear G0.
  destruct (init_frame (controller w1)) as (Fi & Fr).
  apply (wbind_snd_inv I).
  { left. rewrite lift_snd. cbn. rewrite Fr. apply G1. }
  intros [] w2 E2. apply lift_ret in E2. destruct E2 as (s2 & E2 & ->).
  rewrite E2 in Fi, Fr. cbn [snd] in Fi, Fr.
  apply (wbind_snd_inv I); [left; cbn; rewrite Fr; apply G1 |].
  intros [] w3 E3. injection E3 as <-.
  set (s3 := add_log ("Obtaining all WiFi Interfaces" +:+ LF) s2).
  assert (G3 : interfacesToRestore s3 = L /\ keyed (interfaces s3)).
  { split; cbn; [rewrite Fr | rewrite Fi]; apply G1. }
  pose proof (getAllInterfaces_inv env (fun s => interfacesToRestore s = L)
                (restore_exec _) (restore_store _) s3
                (proj1 G3)) as R4.
  pose proof (getAllInterfaces_inv env (fun s => keyed (interfaces s))
                (dir_exec env keyed) (dir_store keyed keyed_store) s3 (proj2 G3)) as K4.
  cbv beta in R4, K4.
  apply (wbind_snd_inv I); [left; rewrite lift_snd; exact R4 |].
  intros [] w4 E4. apply lift_ret in E4. destruct E4 as (s4 & E4 & ->).
  cbn in E4. fold s3 in E4. rewrite E4 in R4, K4. cbn [snd] in R4, K4.
  apply (wbind_snd_inv I); [left; exact R4 |].
  intros w5 w5' E5. injection E5 as <- <-.
  set (w5 := set_controller s4 _).
  assert (R5 : interfacesToRestore (controller w5) = L) by exact R4.
  assert (K5 : keyed (interfaces (controller w5))) by exact K4.
  clearbody w5.
  pose proof (keyed_walk (interfaces (controller w5))
                (entries env (controller w5)) K5 (visit_perm _ _)) as Wk.
  assert (I6 : I (snd (find_intel env (entries env (controller w5)) 0 w5))).
  { destruct (interfaces (controller w5) !! "wlp4s0") as [i |].
    - destruct Wk as (Ni & l1 & l2 & Sp & Other). rewrite Sp.
      destruct (find_intel_hit env l1 "wlp4s0" i l2 0 w5 Other Ni) as (Ri & _).
      right. exists i. split; [exact Ni |]. now rewrite Ri, R5.
    - destruct (find_intel_miss env _ 0 w5 Wk) as (_ & Mm & _).
      left. apply members_restore in Mm. now rewrite Mm. }
  clear Wk. apply (wbind_snd_inv I); [exact I6 |].
  intros phy w6 E6. rewrite E6 in I6. cbn [snd] in I6.
  apply (wbind_snd_inv I); [exact I6 |]. intros [] w7 E7. injection E7 as <-.
  set (w7 := set_controller _ w6).
  assert (I7 : I w7) by exact I6. clearbody w7.
  pose proof (createMonitorInterface_restore fuel phy (arguments_frequency h)
                (arguments_txPower h) (arguments_mac h) w7) as R8.
  assert (I8 : I (snd (createMonitorInterface env h fuel phy
                         (arguments_frequency h) (arguments_txPower h)
                         (arguments_mac h) w7)))
    by (unfold I; rewrite R8; exact I7).
  apply (wbind_snd_inv I); [exact I8 |].
  intros r w8 E8. rewrite E8 in I8. cbn [snd] in I8.
  destruct r as [[] |]; [| exact I8]. exact I8.
Qed.

End InitTry.


Lemma initInterface_restore_list_witness :
  interfacesToRestore
    (controller
       (snd (MainController.initInterface_try (host kernel_silent) platform 2
               w_intel)))
    = interfacesToRestore (controller w_intel) \/
  exists i,
    ifName i = "wlp4s0" /\
    interfacesToRestore
      (controller
         (snd (MainController.initInterface_try (host kernel_silent) platform 2
                 w_intel)))
      = (interfacesToRestore (controller w_intel) ++ [i])%list.
Proof.
  apply (initInterface_restore_list (host kernel_silent) platform 2 w_intel).
  intros k i H. cbn in H. apply lookup_insert_Some in H.
  destruct H as [[<- <-] | [_ H]]; [reflexivity |].
  apply lookup_insert_Some in H.
  destruct H as [[<- <-] | [_ H]]; [reflexivity |].
  rewrite lookup_empty in H. discriminate H.
Defined.
